(** * Coupon report generator: aggregation and worksheet layout

    A shallow embedding of [app.py].  The program is written against
    pandas; the embedding keeps the program's own functions and names and
    gives each pandas operation it calls a small executable model:

    - a cell of a frame is either missing (NaN, [None]) or a [value];
    - a row is a finite map from column names to values, an absent key
      being the missing cell;
    - a frame is its ordered column names and its ordered rows;
    - Python exceptions are the [Raise] side of [result].

    Text is held in UTF-8: a [string] is the sequence of bytes of the
    encoded text, so a character outside ASCII takes two to four bytes.
    Whitespace is what Python's [str.isspace] accepts, slices count
    characters, and substring tests and replacements work on the bytes,
    which for UTF-8 finds the same occurrences.  Case mapping acts on
    the ASCII letters and leaves every other character as it is.
    Numeric cells are integers, printed without a fraction, and a
    missing cell converted to text is [nan], as pandas before version 3
    has it.  The HTML rendering of a table ([to_html]) is a presentation
    of the same frame and is left out.

    pandas sorts counts with an algorithm that is not stable, so the
    order among equal counts is not fixed by the program: the functions
    that sort by count take the sorter as a parameter ([Pd.SortValues]),
    and the properties hold for every sorter.  Reading and writing files
    is outside the model: a request carries what reading each upload
    gives, and the workbook writer is a parameter. *)

From Stdlib Require Import ZArith Lia Ascii.
From stdpp Require Import base decidable option list sorting strings gmap pretty.

(** ** Python values, exceptions *)

(** A cell value is a text or an integer.  Columns that pandas holds as
    floating-point numbers, such as a column of numbers with a missing
    cell, are outside the model. *)
Inductive value :=
  | Str (s : string)
  | Num (z : Z).

Global Instance value_eq_dec : EqDecision value.
Proof. solve_decision. Defined.

(** A cell is an optional value; [None] is NaN. *)
Notation cell := (option value).

Inductive exn :=
  | KeyError
  | IndexError
  | TypeError
  | ValueError
  | Exception (msg : string).

Inductive result (A : Type) :=
  | Ok (a : A)
  | Raise (e : exn).
Global Arguments Ok {A} a.
Global Arguments Raise {A} e.

Global Instance exn_eq_dec : EqDecision exn.
Proof. solve_decision. Defined.

Global Instance result_eq_dec {A} `{EqDecision A} : EqDecision (result A).
Proof. solve_decision. Defined.

Global Instance result_ret : MRet result := λ A a, Ok a.
Global Instance result_bind : MBind result := λ A B f m,
  match m with
  | Ok a => f a
  | Raise e => Raise e
  end.

(** [try: ... except Exception: return None] *)
Definition except_none {A} (m : result A) : option A :=
  match m with
  | Ok a => Some a
  | Raise _ => None
  end.

Definition is_ok {A} (m : result A) : bool :=
  match m with
  | Ok _ => true
  | Raise _ => false
  end.

(** ** Python string operations *)

Module Py.

(** The bytes of a text, and the text of a sequence of bytes *)
Definition bytes : string → list ascii := String.list_ascii_of_string.
Definition text : list ascii → string := String.string_of_list_ascii.

(** The UTF-8 encoding of the code point [n] *)
Definition utf8 (n : N) : list ascii :=
  if (n <? 128)%N then [ascii_of_N n]
  else if (n <? 2048)%N then
    [ascii_of_N (192 + n / 64); ascii_of_N (128 + n mod 64)]
  else if (n <? 65536)%N then
    [ascii_of_N (224 + n / 4096); ascii_of_N (128 + (n / 64) mod 64);
     ascii_of_N (128 + n mod 64)]
  else
    [ascii_of_N (240 + n / 262144); ascii_of_N (128 + (n / 4096) mod 64);
     ascii_of_N (128 + (n / 64) mod 64); ascii_of_N (128 + n mod 64)].

(** [chr(n)] *)
Definition chr (n : N) : string := text (utf8 n).

(** The code points [c] with [c.isspace()]: the ASCII controls 9 to 13
    and 28 to 31, the space, U+0085, U+00A0, U+1680, U+2000 to U+200A,
    U+2028, U+2029, U+202F, U+205F and U+3000.  [str.split] and
    [str.strip] without argument work on the same set. *)
Definition whitespace_code_points : list N :=
  [9; 10; 11; 12; 13; 28; 29; 30; 31; 32; 133; 160; 5760;
   8192; 8193; 8194; 8195; 8196; 8197; 8198; 8199; 8200; 8201; 8202;
   8232; 8233; 8239; 8287; 12288]%N.

Definition whitespace : list string := chr <$> whitespace_code_points.

(** [l] starts with the bytes [w] *)
Fixpoint starts_with (w l : list ascii) : bool :=
  match w, l with
  | [], _ => true
  | c :: w', d :: l' => bool_decide (c = d) && starts_with w' l'
  | _ :: _, [] => false
  end.

(** The character of [chars] that [l] starts with *)
Definition leading (chars : list (list ascii)) (l : list ascii)
    : option (list ascii) :=
  snd <$> list_find (λ w, starts_with w l = true) chars.

Definition upper_char (c : ascii) : ascii :=
  let n := nat_of_ascii c in
  if (97 <=? n) && (n <=? 122) then ascii_of_nat (n - 32) else c.

Definition lower_char (c : ascii) : ascii :=
  let n := nat_of_ascii c in
  if (65 <=? n) && (n <=? 90) then ascii_of_nat (n + 32) else c.

Fixpoint map_chars (f : ascii → ascii) (s : string) : string :=
  match s with
  | EmptyString => EmptyString
  | String c s' => String (f c) (map_chars f s')
  end.

(** [s.upper()], [s.lower()], on the ASCII letters.  Python also maps
    the letters outside ASCII; the program only looks for ASCII
    abbreviations and extensions in the result, so the difference shows
    on the few characters that Python maps to ASCII letters (the
    dotless i, the long s, the sharp s, the ligatures and the Kelvin
    sign among them). *)
Definition upper : string → string := map_chars upper_char.
Definition lower : string → string := map_chars lower_char.

(** [k in s] on strings *)
Fixpoint contains (k s : string) : bool :=
  String.prefix k s ||
  match s with
  | EmptyString => false
  | String _ s' => contains k s'
  end.

(** [s.split()]: the maximal runs of characters that are not
    whitespace.  [tok] is the run being read; [skip] counts the bytes of
    a whitespace character still to be passed over. *)
Definition flush (tok : list ascii) : list string :=
  match tok with
  | [] => []
  | _ => [text tok]
  end.

Fixpoint split_from (skip : nat) (tok l : list ascii) : list string :=
  match l with
  | [] => flush tok
  | c :: l' =>
      match skip with
      | S k => split_from k tok l'
      | O =>
          match leading (bytes <$> whitespace) l with
          | Some w => flush tok ++ split_from (length w - 1) [] l'
          | None => split_from 0 (tok ++ [c]) l'
          end
      end
  end.

Definition split (s : string) : list string := split_from 0 [] (bytes s).

(** Dropping the characters of [chars] that [l] starts with *)
Fixpoint lstrip_from (chars : list (list ascii)) (skip : nat) (l : list ascii)
    : list ascii :=
  match l with
  | [] => []
  | c :: l' =>
      match skip with
      | S k => lstrip_from chars k l'
      | O =>
          match leading chars l with
          | Some w => lstrip_from chars (length w - 1) l'
          | None => l
          end
      end
  end.

(** [s.lstrip()], [s.rstrip()], [s.strip()]: [rstrip] reads the text
    from its end, where a whitespace character shows its bytes in
    reverse. *)
Definition lstrip (s : string) : string :=
  text (lstrip_from (bytes <$> whitespace) 0 (bytes s)).

Definition rstrip (s : string) : string :=
  text (reverse (lstrip_from ((λ w, reverse (bytes w)) <$> whitespace) 0
                             (reverse (bytes s)))).

Definition strip (s : string) : string := rstrip (lstrip s).

(** [s.replace(old, new)] for a non-empty [old]: occurrences are
    replaced left to right without overlap; [skip] counts the
    characters of a matched occurrence still to be dropped. *)
Fixpoint replace_from (old new : string) (skip : nat) (s : string) : string :=
  match s with
  | EmptyString => EmptyString
  | String c s' =>
      match skip with
      | S k => replace_from old new k s'
      | O =>
          if String.prefix old s
          then new +:+ replace_from old new (String.length old - 1) s'
          else String c (replace_from old new 0 s')
      end
  end.

Definition replace (old new s : string) : string := replace_from old new 0 s.

(** A byte that continues a character begun by an earlier byte *)
Definition continuation (c : ascii) : bool :=
  let n := nat_of_ascii c in (128 <=? n) && (n <? 192).

(** [len(s)]: the number of characters *)
Fixpoint len (s : string) : nat :=
  match s with
  | EmptyString => 0
  | String c s' => (if continuation c then 0 else 1) + len s'
  end.

(** [s[:n]]: the first [n] characters, each with all its bytes *)
Fixpoint take (n : nat) (s : string) : string :=
  match s with
  | EmptyString => EmptyString
  | String c s' =>
      if continuation c then String c (take n s')
      else
        match n with
        | O => EmptyString
        | S k => String c (take k s')
        end
  end.

(** The texts of [l] one after the other *)
Definition join (l : list string) : string := foldr String.append EmptyString l.

(** [str(v)] *)
Definition str (v : value) : string :=
  match v with
  | Str s => s
  | Num z => pretty z
  end.

(** Truth value of [v] in a condition *)
Definition truthy (v : value) : bool :=
  match v with
  | Str s => negb (bool_decide (s = EmptyString))
  | Num z => negb (bool_decide (z = 0%Z))
  end.

(** [d.get(k, default)] *)
Definition dict_get {V} (d : gmap string V) (k : string) (dflt : V) : V :=
  default dflt (d !! k).

End Py.

(** ** Frames *)

Notation row := (gmap string value).

Record DataFrame := mkDataFrame {
  columns : list string;
  rows : list row
}.

Definition Series := list cell.

Module Pd.

(** [len(df)] *)
Definition len (df : DataFrame) : nat := length (rows df).

(** [df.empty]: some axis has length zero *)
Definition empty (df : DataFrame) : bool :=
  bool_decide (columns df = []) || bool_decide (rows df = []).

(** [c in df.columns] *)
Definition has_column (df : DataFrame) (c : string) : bool :=
  bool_decide (c ∈ columns df).

(** [df[c]] *)
Definition getitem (df : DataFrame) (c : string) : result Series :=
  if has_column df c then Ok ((λ r : row, r !! c) <$> rows df)
  else Raise KeyError.

Definition set_cell (c : string) (r : row) (v : cell) : row :=
  partial_alter (λ _, v) c r.

Definition add_column (cols : list string) (c : string) : list string :=
  if bool_decide (c ∈ cols) then cols else cols ++ [c].

(** [df[c] = series] *)
Definition setitem (df : DataFrame) (c : string) (s : Series) : DataFrame :=
  {| columns := add_column (columns df) c;
     rows := zip_with (set_cell c) (rows df) s |}.

(** [df[c] = scalar] *)
Definition setitem_scalar (df : DataFrame) (c : string) (v : cell) : DataFrame :=
  {| columns := add_column (columns df) c;
     rows := (λ r, set_cell c r v) <$> rows df |}.

(** [s.fillna(v)] on one cell *)
Definition fillna (v : value) (c : cell) : cell := Some (default v c).

(** [s.astype(str)] on one cell.  The text of a missing cell is [nan],
    as pandas before version 3 gives it; from version 3 on the cell
    stays missing. *)
Definition astype_str (c : cell) : string :=
  match c with
  | Some v => Py.str v
  | None => "nan"
  end.

(** [s.dropna()] *)
Definition dropna (s : Series) : list value := omap id s.

(** [df[mask]] for the mask [df[c] == v]; a missing cell equals
    nothing. *)
Definition where_eq (df : DataFrame) (c : string) (v : value) : DataFrame :=
  {| columns := columns df;
     rows := filter (λ r : row, r !! c = Some v) (rows df) |}.

(** [s.unique()]: the distinct elements in order of first appearance *)
Fixpoint unique {A} `{EqDecision A} (l : list A) : list A :=
  match l with
  | [] => []
  | x :: l' => x :: filter (λ y, y ≠ x) (unique l')
  end.

Definition count {A} `{EqDecision A} (x : A) (l : list A) : nat :=
  length (filter (λ y, y = x) l).

(** The order pandas sorts group keys by: numbers by magnitude, text
    by code point, and, in a column holding both, numbers first. *)
Definition value_le (a b : value) : Prop :=
  match a, b with
  | Num x, Num y => (x ≤ y)%Z
  | Num _, Str _ => True
  | Str _, Num _ => False
  | Str s, Str t => String.le s t
  end.

Global Instance value_le_dec : RelDecision value_le.
Proof. intros [s|x] [t|y]; simpl; apply _. Defined.

Definition pair_le (a b : value * value) : Prop :=
  (a.1 ≠ b.1 ∧ value_le a.1 b.1) ∨ (a.1 = b.1 ∧ value_le a.2 b.2).

Global Instance pair_le_dec : RelDecision pair_le.
Proof. intros a b; unfold pair_le; apply _. Defined.

(** [s.groupby(s).size()] on one key column: missing keys are dropped,
    groups come in key order. *)
Definition groupby_size (s : Series) : list (value * nat) :=
  let keys := dropna s in
  (λ k, (k, count k keys)) <$> merge_sort value_le (unique keys).

(** The key pairs of the rows in which both key cells are present *)
Definition key_pairs (df : DataFrame) (c1 c2 : string) : list (value * value) :=
  omap (λ r : row, k1 ← r !! c1; k2 ← r !! c2; Some (k1, k2)) (rows df).

(** [df.groupby([c1, c2]).size()] *)
Definition groupby2_size (df : DataFrame) (c1 c2 : string)
    : result (list (value * value * nat)) :=
  if has_column df c1 && has_column df c2 then
    let keys := key_pairs df c1 c2 in
    Ok ((λ k, (k, count k keys)) <$> merge_sort pair_le (unique keys))
  else Raise KeyError.

(** A two-way table of counts: row labels, column labels, cells *)
Record CrossTab (L : Type) := mkCrossTab {
  ct_index : list L;
  ct_columns : list value;
  ct_cells : list (list nat)
}.
Global Arguments mkCrossTab {L} _ _ _.
Global Arguments ct_index {L} _.
Global Arguments ct_columns {L} _.
Global Arguments ct_cells {L} _.

Definition size_of (g : list (value * value * nat)) (k : value * value) : nat :=
  match list_find (λ e : value * value * nat, e.1 = k) g with
  | Some (_, (_, n)) => n
  | None => 0
  end.

(** [sizes.unstack(fill_value=0)]: the second key level becomes the
    columns, in key order; absent pairs are filled with 0. *)
Definition unstack (g : list (value * value * nat)) : CrossTab value :=
  let idx := unique ((λ e : value * value * nat, e.1.1) <$> g) in
  let cols := merge_sort value_le (unique ((λ e : value * value * nat, e.1.2) <$> g)) in
  {| ct_index := idx;
     ct_columns := cols;
     ct_cells := (λ i, (λ c, size_of g (i, c)) <$> cols) <$> idx |}.

(** [table.to_dict('index')]: a dictionary per row label; refused when
    the labels are not unique. *)
Definition to_dict_index {L} `{EqDecision L} (t : CrossTab L)
    : result (list (L * list (value * nat))) :=
  if bool_decide (NoDup (ct_index t))
  then Ok (zip (ct_index t) (zip (ct_columns t) <$> ct_cells t))
  else Raise ValueError.

(** Column labels after [reset_index()] followed by
    [rename(columns={'index': 'Client'})]. *)
Definition reset_index_columns (cols : list value) : result (list value) :=
  let fresh :=
    if bool_decide (Str "index" ∈ cols) then Str "level_0" else Str "index" in
  if bool_decide (fresh ∈ cols) then Raise ValueError
  else Ok ((λ c, if bool_decide (c = Str "index") then Str "Client" else c)
             <$> (fresh :: cols)).

(** [pd.concat(frames, ignore_index=True)]: the union of the columns in
    order of appearance, the rows of the frames one after the other. *)
Definition union_columns (acc cols : list string) : list string :=
  acc ++ filter (λ c, c ∉ acc) cols.

Definition concat (frames : list DataFrame) : result DataFrame :=
  match frames with
  | [] => Raise ValueError
  | _ => Ok {| columns := foldl union_columns [] (columns <$> frames);
               rows := frames ≫= rows |}
  end.

(** [pd.Series(values, index=keys).to_dict()]: the last entry of a
    repeated key wins. *)
Definition series_to_dict (keys values : list string) : gmap string string :=
  foldl (λ m kv, <[kv.1 := kv.2]> m) ∅ (zip keys values).

(** Sorting by a count, largest first.  pandas sorts with an unstable
    algorithm by default, so the order among equal counts is left to
    the implementation: a sorter is any function returning a sorted
    rearrangement. *)
Definition count_ge {A} (key : A → nat) : relation A :=
  λ x y, key y ≤ key x.

Global Instance count_ge_dec {A} (key : A → nat) : RelDecision (count_ge key).
Proof. intros x y; unfold count_ge; apply _. Defined.

Class SortValues := {
  sort_desc : ∀ {A : Type}, (A → nat) → list A → list A;
  sort_desc_perm : ∀ (A : Type) (key : A → nat) (l : list A),
    sort_desc key l ≡ₚ l;
  sort_desc_sorted : ∀ (A : Type) (key : A → nat) (l : list A),
    Sorted (count_ge key) (sort_desc key l)
}.

(** [s.value_counts()]: missing cells dropped, one entry per distinct
    value, largest count first. *)
Definition value_counts `{SortValues} (s : Series) : list (value * nat) :=
  let vs := dropna s in
  sort_desc snd ((λ v, (v, count v vs)) <$> unique vs).

(** [counts.sort_values(ascending=False)] *)
Definition sort_values_desc `{SortValues} (counts : list (value * nat))
    : list (value * nat) :=
  sort_desc snd counts.

End Pd.

(** A merge sort as the sorter the examples are run with. *)
Global Program Instance merge_sorter : Pd.SortValues := {|
  Pd.sort_desc A key l := merge_sort (Pd.count_ge key) l
|}.
Next Obligation. intros A key l. apply merge_sort_Permutation. Qed.
Next Obligation.
  intros A key l.
  assert (Total (Pd.count_ge key)) by (intros x y; unfold Pd.count_ge; lia).
  apply (Sorted_merge_sort _).
Qed.

(** ** Python built-ins on values *)

Definition is_str (v : value) : bool :=
  match v with
  | Str _ => true
  | Num _ => false
  end.

(** [sorted(xs)]: text and numbers do not compare. *)
Definition py_sorted (xs : list value) : result (list value) :=
  if forallb is_str xs || forallb (λ v, negb (is_str v)) xs
  then Ok (merge_sort Pd.value_le xs)
  else Raise TypeError.

Fixpoint traverse {A B} (f : A → result B) (l : list A) : result (list B) :=
  match l with
  | [] => Ok []
  | x :: l' => y ← f x; ys ← traverse f l'; Ok (y :: ys)
  end.

(** [d[k] = v] on a dictionary kept in insertion order *)
Fixpoint dict_set {V} (d : list (string * V)) (k : string) (v : V)
    : list (string * V) :=
  match d with
  | [] => [(k, v)]
  | (k', v') :: d' =>
      if bool_decide (k' = k) then (k, v) :: d' else (k', v') :: dict_set d' k v
  end.

(** ** Category enrichment *)

Definition add_sales_category (df : DataFrame)
    (sales_category_mapping : gmap string string) : result DataFrame :=
  if negb (Pd.has_column df "ShopName")
  then Raise (Exception "Market report must have 'ShopName' column")
  else
    let df1 :=
      if negb (Pd.has_column df "Sales Category")
      then Pd.setitem_scalar df "Sales Category" (Some (Str ""))
      else df in
    shop ← Pd.getitem df1 "ShopName";
    let category := (λ c : cell,
      Some (Str (Py.dict_get sales_category_mapping
                   (Py.strip (Pd.astype_str (Pd.fillna (Str "") c))) ""))) <$> shop in
    Ok (Pd.setitem df1 "Sales Category" category).

(** ** Client short names *)

Definition short_name_map : list (string * string) :=
  [("SJS", "SJS"); ("KTMSS", "KTMSS"); ("HKWDA", "HKWDA");
   ("PLK", "PLK"); ("YOT", "YOT"); ("SIS", "SIS")].

(** [pd.isna(client_name)] is the [None] case; the loop over the keys of
    [short_name_map] returns at the first key found in the upper-cased
    name. *)
Definition get_client_short_name (client_name : cell) : result string :=
  match client_name with
  | None => Ok "Unknown"
  | Some v =>
      let client_upper := Py.upper (Py.str v) in
      match list_find (λ kv : string * string, Py.contains kv.1 client_upper = true)
                      short_name_map with
      | Some (_, (_, short)) => Ok short
      | None =>
          if Py.truthy v then
            match Py.split (Py.str v) with
            | tok :: _ => Ok tok
            | [] => Raise IndexError
            end
          else Ok "Unknown"
      end
  end.

(** ** Aggregate tables *)

(** What an aggregator returns: the title, the table as data and the
    ordered column names. *)
Record Table (D : Type) := mkTable {
  title : string;
  data : D;
  table_columns : list value
}.
Global Arguments mkTable {D} _ _ _.
Global Arguments title {D} _.
Global Arguments data {D} _.
Global Arguments table_columns {D} _.

(** A row of the distributed-coupon table *)
Record Distributed := mkDistributed {
  Client : string;
  Used : nat;
  Unused : nat;
  Total : nat
}.

(** The weekly and the all-records variant of a table; the function
    returns nothing when neither was produced. *)
Record Results (D : Type) := mkResults {
  weekly : option (Table D);
  all : option (Table D)
}.
Global Arguments mkResults {D} _ _.
Global Arguments weekly {D} _.
Global Arguments all {D} _.

Definition nonempty_results {D} (r : Results D) : option (Results D) :=
  match weekly r, all r with
  | None, None => None
  | _, _ => Some r
  end.

Section aggregators.
Context `{Pd.SortValues}.

(** The table of counts by client name and coupon value, its rows
    relabelled with the short names *)
Definition coupon_counts (weekly_df : DataFrame) (value_col : string)
    : result (Pd.CrossTab string) :=
  sizes ← Pd.groupby2_size weekly_df "client_name" value_col;
  let coupon_data := Pd.unstack sizes in
  index ← traverse (λ c, get_client_short_name (Some c)) (Pd.ct_index coupon_data);
  Ok (Pd.mkCrossTab index (Pd.ct_columns coupon_data) (Pd.ct_cells coupon_data)).

Definition generate_coupon_purchased_table (weekly_df : DataFrame)
    : option (Table (list (string * list (value * nat)))) :=
  if Pd.empty weekly_df || negb (Pd.has_column weekly_df "client_name") then None
  else
    let value_col :=
      if Pd.has_column weekly_df "CouponValue" then "CouponValue"
      else "coupon_amount" in
    if negb (Pd.has_column weekly_df value_col) then None
    else except_none (
      coupon_data ← coupon_counts weekly_df value_col;
      cols ← Pd.reset_index_columns (Pd.ct_columns coupon_data);
      table_dict ← Pd.to_dict_index coupon_data;
      Ok (mkTable "No. of Coupon Purchased" table_dict cols)).

Definition generate_distributed_coupon_table (weekly_df : DataFrame)
    : option (Table (list Distributed)) :=
  if Pd.empty weekly_df || negb (Pd.has_column weekly_df "client_name") then None
  else except_none (
    client_name ← Pd.getitem weekly_df "client_name";
    let total_by_client := Pd.groupby_size client_name in
    let used_by_client := Pd.groupby_size client_name in
    clients ← traverse (λ c, get_client_short_name (Some c)) total_by_client.*1;
    let distributed :=
      zip_with (λ c used, mkDistributed c used 0 used)
               clients used_by_client.*2 in
    Ok (mkTable "No. of Distributed Coupon" distributed
                [Str "Client"; Str "Used"; Str "Unused"; Str "Total"])).

(** The market column of the Used-Market aggregator *)
Definition used_market_col (df : DataFrame) : option string :=
  if Pd.has_column df "Market" then Some "Market"
  else if Pd.has_column df "NameChinese" then Some "NameChinese"
  else if Pd.has_column df "MarketCode" then Some "MarketCode"
  else None.

(** The block that [generate_used_market_table] runs twice, on the
    weekly frame and on all records, each with its own title *)
Definition used_market (ttl : string) (df : DataFrame) (market_col : option string)
    : option (Table (list (value * nat))) :=
  match market_col with
  | Some col =>
      if Pd.empty df then None
      else except_none (
        s ← Pd.getitem df col;
        let market_usage := Pd.sort_values_desc (Pd.value_counts s) in
        Ok (mkTable ttl market_usage [Str "Market"; Str "No. of Coupon Used"]))
  | None => None
  end.

Definition generate_used_market_table (weekly_df daily_df : DataFrame)
    : option (Results (list (value * nat))) :=
  let market_col_weekly := used_market_col weekly_df in
  let market_col_daily := used_market_col daily_df in
  nonempty_results
    {| weekly := used_market "Used Market (Weekly)" weekly_df market_col_weekly;
       all := used_market "Used Market (All Records)" daily_df market_col_daily |}.

(** The block that [generate_top_merchant_table] runs twice *)
Definition top_merchant (ttl : string) (df : DataFrame) (merchant_col : option string)
    : option (Table (list (value * nat))) :=
  match merchant_col with
  | Some col =>
      if Pd.empty df then None
      else except_none (
        s ← Pd.getitem df col;
        let top_merchants := Pd.sort_values_desc (take 15 (Pd.value_counts s)) in
        Ok (mkTable ttl top_merchants [Str "Merchant"; Str "No. of Coupon Used"]))
  | None => None
  end.

Definition generate_top_merchant_table (weekly_df daily_df : DataFrame)
    : option (Results (list (value * nat))) :=
  let merchant_col_weekly :=
    if Pd.has_column weekly_df "ShopName" then Some "ShopName" else None in
  let merchant_col_daily :=
    if Pd.has_column daily_df "ShopName" then Some "ShopName" else None in
  nonempty_results
    {| weekly := top_merchant "Top Merchant (Weekly)" weekly_df merchant_col_weekly;
       all := top_merchant "Top Merchant (All Records)" daily_df merchant_col_daily |}.

(** The block that [generate_merchant_category_table] runs twice *)
Definition merchant_category (ttl : string) (df : DataFrame)
    : option (Table (list (value * nat))) :=
  if negb (Pd.empty df) && Pd.has_column df "Sales Category" then
    except_none (
      s ← Pd.getitem df "Sales Category";
      let category_usage := Pd.sort_values_desc (Pd.value_counts s) in
      Ok (mkTable ttl category_usage
                  [Str "Merchant Category"; Str "No. of Coupon Used"]))
  else None.

Definition generate_merchant_category_table (weekly_df daily_df : DataFrame)
    : option (Results (list (value * nat))) :=
  nonempty_results
    {| weekly := merchant_category "Merchant Category (Weekly)" weekly_df;
       all := merchant_category "Merchant Category (All Records)" daily_df |}.

End aggregators.

(** ** Pivot worksheet *)

Definition raw_name : string := "MARAE LIMITED".
Definition display_alias : string := "U士多".

(** The replacement applied to a merchant cell: the text form with the
    alias when the cell contains the raw name, the cell itself
    otherwise. *)
Definition alias_tenant (x : value) : value :=
  if Py.contains raw_name (Py.str x)
  then Str (Py.replace raw_name display_alias (Py.str x))
  else x.

(** The replacement applied to the text form of a merchant *)
Definition alias_display (x : value) : string :=
  let display_tenant := Py.str x in
  if Py.contains raw_name display_tenant
  then Py.replace raw_name display_alias display_tenant
  else display_tenant.

Record PivotRow := mkPivotRow {
  Market : value;
  Tenant : value;
  Count_of_coupon_uid : nat
}.

(** The market column of the pivot builder *)
Definition pivot_market_col (df : DataFrame) : option string :=
  if Pd.has_column df "NameChinese" then Some "NameChinese"
  else if Pd.has_column df "Market" then Some "Market"
  else if Pd.has_column df "MarketCode" then Some "MarketCode"
  else None.

Section pivot.
Context `{Pd.SortValues}.

(** The rows appended for one market: its total, then its tenants by
    count. *)
Definition pivot_block (market_totals : list (value * nat))
    (tenant_data : list (value * value * nat)) (market : value)
    : result (list PivotRow) :=
  match filter (λ t : value * nat, t.1 = market) market_totals with
  | [] => Raise IndexError
  | (_, market_total) :: _ =>
      let market_tenants :=
        Pd.sort_desc snd
          (filter (λ t : value * value * nat, t.1.1 = market) tenant_data) in
      Ok (mkPivotRow market (Str "") market_total ::
          ((λ t : value * value * nat, mkPivotRow (Str "") t.1.2 t.2)
             <$> market_tenants))
  end.

Definition generate_pivot_worksheet (daily_df : DataFrame) : option (list PivotRow) :=
  match pivot_market_col daily_df with
  | None => None
  | Some market_col =>
      if negb (Pd.has_column daily_df "ShopName") then None
      else except_none (
        sizes ← Pd.groupby2_size daily_df market_col "ShopName";
        let tenant_data :=
          (λ t : value * value * nat, (t.1.1, alias_tenant t.1.2, t.2)) <$> sizes in
        markets_col ← Pd.getitem daily_df market_col;
        let market_totals := Pd.groupby_size markets_col in
        markets ← py_sorted (Pd.unique market_totals.*1);
        blocks ← traverse (pivot_block market_totals tenant_data) markets;
        Ok (concat blocks))
  end.

End pivot.

(** ** Market worksheets *)

Record MerchantRow := mkMerchantRow {
  mr_market : value;
  mr_tenant : string;
  mr_have_coupon_used : string
}.

(** A row of a market worksheet.  The seven columns are, left to right:
    the tenant and its count (left block), a spacing column, then market,
    tenant, coverage flag and the count of N flags (right block). *)
Record SheetRow := mkSheetRow {
  left_tenant : value;
  left_count : value;
  spacing : value;
  right_market : value;
  right_tenant : value;
  right_flag : value;
  right_n_count : value
}.

(** The market column of the worksheet builder *)
Definition worksheet_market_col (df : DataFrame) : option string :=
  if Pd.has_column df "NameChinese" then Some "NameChinese"
  else if Pd.has_column df "Market" then Some "Market"
  else if Pd.has_column df "MarketCode" then Some "MarketCode"
  else None.

Definition int (n : nat) : value := Num (Z.of_nat n).

(** The body of the loop over [range(max_rows)] *)
Definition combined_row (left_data : list (value * nat))
    (merchant_rows : list MerchantRow) (i : nat) : SheetRow :=
  let '(l1, l2) :=
    if bool_decide (i = 0) then (Str "Data of Coupon Used", Str "")
    else if bool_decide (i = 1) then (Str "Tenant", Str "Count")
    else match left_data !! (i - 2) with
         | Some (display_name, count) => (display_name, int count)
         | None => (Str "", Str "")
         end in
  let '(r1, r2, r3, r4) :=
    if bool_decide (i = 0)
    then (Str "Merchant List (Accept Food Coupon)", Str "", Str "", Str "")
    else if bool_decide (i = 1) then
      let n_count :=
        length (filter (λ m, mr_have_coupon_used m = "N") merchant_rows) in
      (Str "Market", Str "Tenant", Str "Have Coupon Used", int n_count)
    else match merchant_rows !! (i - 2) with
         | Some merchant =>
             (mr_market merchant, Str (mr_tenant merchant),
              Str (mr_have_coupon_used merchant), Str "")
         | None => (Str "", Str "", Str "", Str "")
         end in
  mkSheetRow l1 l2 (Str "") r1 r2 r3 r4.

Definition combined_data (left_data : list (value * nat))
    (merchant_rows : list MerchantRow) : list SheetRow :=
  let max_rows := max (length left_data) (length merchant_rows) + 2 in
  combined_row left_data merchant_rows <$> seq 0 max_rows.

Definition sheet_name_char (c : ascii) : ascii :=
  if bool_decide (c ∈ ["/"; "\"; "*"; "["; "]"; ":"; "?"]%char) then "_"%char else c.

Definition sheet_name (market : value) : string :=
  Py.map_chars sheet_name_char (Py.take 31 (Py.str market)).

Section worksheets.
Context `{Pd.SortValues}.

(** Left block of a market: usage counts by tenant, largest first, with
    the display name of each tenant. *)
Definition left_block (market_data : DataFrame) : result (list (value * nat)) :=
  shops ← Pd.getitem market_data "ShopName";
  let tenant_usage := Pd.sort_values_desc (Pd.value_counts shops) in
  Ok ((λ t : value * nat, (alias_tenant t.1, t.2)) <$> tenant_usage).

(** Right block of a market: the tenants seen in the market in sorted
    order, each with its coverage flag. *)
Definition right_block (daily_df market_data : DataFrame) (market_col : string)
    (market : value) : result (list MerchantRow) :=
  all_shops ← Pd.getitem (Pd.where_eq daily_df market_col market) "ShopName";
  let all_tenants_in_market := Pd.unique (Pd.dropna all_shops) in
  shops ← Pd.getitem market_data "ShopName";
  let tenants_with_usage_in_market := Pd.unique (Pd.dropna shops) in
  tenants ← py_sorted all_tenants_in_market;
  Ok ((λ tenant : value,
         let has_coupon :=
           if bool_decide (tenant ∈ tenants_with_usage_in_market)
           then "Y" else "N" in
         mkMerchantRow market (alias_display tenant) has_coupon)
        <$> (tenants : list value)).

(** One pass of the loop over the markets: nothing when the filtered
    frame is empty, else the sheet name and the sheet. *)
Definition market_worksheet (daily_df : DataFrame) (market_col : string)
    (market : value) : result (option (string * list SheetRow)) :=
  let market_data := Pd.where_eq daily_df market_col market in
  if Pd.empty market_data then Ok None
  else
    left_data ← left_block market_data;
    merchant_rows ← right_block daily_df market_data market_col market;
    Ok (Some (sheet_name market, combined_data left_data merchant_rows)).

(** The loop over the markets; an exception ends it and the sheets made
    so far are returned. *)
Fixpoint market_worksheets_loop (daily_df : DataFrame) (market_col : string)
    (markets : list value) (market_sheets : list (string * list SheetRow))
    : list (string * list SheetRow) :=
  match markets with
  | [] => market_sheets
  | market :: rest =>
      match market_worksheet daily_df market_col market with
      | Ok None => market_worksheets_loop daily_df market_col rest market_sheets
      | Ok (Some (name, market_df)) =>
          market_worksheets_loop daily_df market_col rest
            (dict_set market_sheets name market_df)
      | Raise _ => market_sheets
      end
  end.

Definition generate_market_worksheets (daily_df : DataFrame)
    (sales_category_mapping : gmap string string)
    : list (string * list SheetRow) :=
  match worksheet_market_col daily_df with
  | None => []
  | Some market_col =>
      if negb (Pd.has_column daily_df "ShopName") then []
      else
        match Pd.getitem daily_df market_col with
        | Ok s =>
            let markets := Pd.unique (Pd.dropna s) in
            market_worksheets_loop daily_df market_col markets []
        | Raise _ => []
        end
  end.

End worksheets.

(** ** The five summary tables *)

Record SummaryTables := mkSummaryTables {
  coupon_purchased : option (Table (list (string * list (value * nat))));
  distributed_coupon : option (Table (list Distributed));
  used_market_tables : option (Results (list (value * nat)));
  top_merchant_tables : option (Results (list (value * nat)));
  merchant_category_tables : option (Results (list (value * nat)))
}.

Definition generate_summary_tables `{Pd.SortValues} (weekly_df daily_df : DataFrame)
    : SummaryTables :=
  {| coupon_purchased := generate_coupon_purchased_table weekly_df;
     distributed_coupon := generate_distributed_coupon_table weekly_df;
     used_market_tables := generate_used_market_table weekly_df daily_df;
     top_merchant_tables := generate_top_merchant_table weekly_df daily_df;
     merchant_category_tables := generate_merchant_category_table weekly_df daily_df |}.

(** ** Request processing *)

(** The text after the last dot of a file name, when there is a dot *)
Fixpoint extension (filename : string) : option string :=
  match filename with
  | EmptyString => None
  | String c rest =>
      match extension rest with
      | Some ext => Some ext
      | None => if bool_decide (c = "."%char) then Some rest else None
      end
  end.

Definition ALLOWED_EXTENSIONS : list string := ["xlsx"; "xls"; "csv"].

Definition allowed_file (filename : string) : bool :=
  match extension filename with
  | Some ext => bool_decide (Py.lower ext ∈ ALLOWED_EXTENSIONS)
  | None => false
  end.

(** [load_sales_category_mapping], from what reading the file gave *)
Definition load_sales_category_mapping (file : result DataFrame)
    : result (gmap string string) :=
  let mapping :=
    df ← file;
    if negb (Pd.has_column df "Tenant") || negb (Pd.has_column df "Sales Category")
    then Raise (Exception
           "Sales Category file must have 'Tenant' and 'Sales Category' columns")
    else
      categories ← Pd.getitem df "Sales Category";
      tenants ← Pd.getitem df "Tenant";
      Ok (Pd.series_to_dict ((λ c, Py.strip (Pd.astype_str c)) <$> tenants)
                            ((λ c, Py.strip (Pd.astype_str c)) <$> categories)) in
  match mapping with
  | Ok m => Ok m
  | Raise _ => Raise (Exception "Error loading Sales Category file")
  end.

(** An uploaded file: its name and what reading its saved copy gives *)
Record Upload := mkUpload {
  filename : string;
  content : result DataFrame
}.

(** The multipart request: a part is [None] when the field is absent. *)
Record Request := mkRequest {
  market_reports : option (list Upload);
  summary : option Upload;
  sales_category : option Upload
}.

Inductive Sheet :=
  | FrameSheet (df : DataFrame)
  | PivotSheet (rows : list PivotRow)
  | MarketSheet (rows : list SheetRow).

Record Report := mkReport {
  message : string;
  output_filename : string;
  total_records : nat;
  previous_records : nat;
  new_records : nat;
  market_files_processed : list string;
  tables : SummaryTables
}.

Inductive Response :=
  | BadRequest (error : string)
  | ServerError
  | Success (body : Report).

(** The loop over the market files: a file with no name or a refused
    extension is passed over, a file that fails to read or to enrich is
    logged and skipped. *)
Fixpoint process_market_files (secure_filename : string → string)
    (sales_category_mapping : gmap string string) (market_files : list Upload)
    : list DataFrame * list string :=
  match market_files with
  | [] => ([], [])
  | file :: rest =>
      let '(all_market_data, uploaded_market_files) :=
        process_market_files secure_filename sales_category_mapping rest in
      if bool_decide (filename file = "") || negb (allowed_file (filename file))
      then (all_market_data, uploaded_market_files)
      else
        match df ← content file; add_sales_category df sales_category_mapping with
        | Ok df =>
            (df :: all_market_data,
             secure_filename (filename file) :: uploaded_market_files)
        | Raise _ => (all_market_data, uploaded_market_files)
        end
  end.

Section server.
Context `{Pd.SortValues}.
(** werkzeug's file name sanitiser, the clock and the workbook writer
    are the environment of a request. *)
Variable secure_filename : string → string.
Variable timestamp : string.
Variable save_dataframes_to_excel : list (string * Sheet) → string → result unit.

Definition workbook (final_daily_finance_df combined_market_df : DataFrame)
    (sales_category_mapping : gmap string string) : list (string * Sheet) :=
  let dfs_to_save :=
    [("Daily Finance Report", FrameSheet final_daily_finance_df);
     ("Weekly", FrameSheet combined_market_df)] in
  let dfs_to_save :=
    match generate_pivot_worksheet final_daily_finance_df with
    | Some pivot_df => dict_set dfs_to_save "Pivot" (PivotSheet pivot_df)
    | None => dfs_to_save
    end in
  foldl (λ d kv, dict_set d kv.1 (MarketSheet kv.2)) dfs_to_save
        (generate_market_worksheets final_daily_finance_df sales_category_mapping).

Definition process_reports (request : Request) : Response :=
  match market_reports request, summary request, sales_category request with
  | Some market_files, Some summary_file, Some sales_category_file =>
      if bool_decide (market_files = [])
         || bool_decide ((filename <$> head market_files) = Some "")
         || bool_decide (filename summary_file = "")
         || bool_decide (filename sales_category_file = "")
      then BadRequest "All files must be selected"
      else
        match load_sales_category_mapping (content sales_category_file) with
        | Raise _ => BadRequest "Sales Category file error"
        | Ok sales_category_mapping =>
            match content summary_file with
            | Raise _ => BadRequest "Summary file error"
            | Ok daily_finance_df =>
                let previous_daily_count := Pd.len daily_finance_df in
                let '(all_market_data, uploaded_market_files) :=
                  process_market_files secure_filename sales_category_mapping
                                       market_files in
                if bool_decide (all_market_data = [])
                then BadRequest "No valid market reports processed"
                else
                  let run :=
                    combined_market_df ← Pd.concat all_market_data;
                    let new_records_count := Pd.len combined_market_df in
                    final_daily_finance_df ←
                      Pd.concat [daily_finance_df; combined_market_df];
                    let tables_data :=
                      generate_summary_tables combined_market_df
                                              final_daily_finance_df in
                    let output_filename :=
                      "combined_report_" +:+ timestamp +:+ ".xlsx" in
                    _ ← save_dataframes_to_excel
                          (workbook final_daily_finance_df combined_market_df
                                    sales_category_mapping)
                          output_filename;
                    Ok {| message :=
                            "Successfully processed "
                            +:+ pretty (length uploaded_market_files)
                            +:+ " market report(s)";
                          output_filename := output_filename;
                          total_records := Pd.len final_daily_finance_df;
                          previous_records := previous_daily_count;
                          new_records := new_records_count;
                          market_files_processed := uploaded_market_files;
                          tables := tables_data |} in
                  match run with
                  | Ok body => Success body
                  | Raise _ => ServerError
                  end
            end
        end
  | _, _, _ => BadRequest "All three files are required"
  end.

End server.

(** ** Auxiliary definitions for the statements *)

(** The category column that [add_sales_category] writes, row by row *)
Definition category_of (m : gmap string string) (r : row) : cell :=
  Some (Str (Py.dict_get m
               (Py.strip (Pd.astype_str (Pd.fillna (Str "") (r !! "ShopName")))) "")).

(** A text made of whitespace characters only *)
Definition whitespace_only (s : string) : Prop :=
  ∃ chars, Forall (λ w, w ∈ Py.whitespace) chars ∧ s = Py.join chars.

(** [s] ends with [w] *)
Definition ends_with (w s : string) : bool :=
  Py.starts_with (reverse (Py.bytes w)) (reverse (Py.bytes s)).

(** [key] is [s] without its leading and trailing whitespace: [s] is
    [key] between two runs of whitespace characters, and [key] neither
    starts nor ends with a whitespace character. *)
Definition trimmed (s key : string) : Prop :=
  ∃ lead trail,
    s = lead +:+ key +:+ trail ∧
    whitespace_only lead ∧ whitespace_only trail ∧
    ∀ w, w ∈ Py.whitespace →
      String.prefix w key = false ∧ ends_with w key = false.

(** The run being read has no whitespace character in it, whatever
    follows. *)
Definition run_clean (tok l : list ascii) : Prop :=
  ∀ a b, tok = a ++ b → b ≠ [] →
    Py.leading (Py.bytes <$> Py.whitespace) (b ++ l) = None.

(** The text of a merchant cell that holds text or is missing; a
    missing cell counts as the empty text. *)
Definition merchant_text (r : row) (name : string) : Prop :=
  r !! "ShopName" = Some (Str name) ∨ (r !! "ShopName" = None ∧ name = "").

(** The two kinds of rows of the pivot worksheet *)
Definition market_total_row (market : value) (total : nat) : PivotRow :=
  mkPivotRow market (Str "") total.

Definition tenant_row (tenant : value * nat) : PivotRow :=
  mkPivotRow (Str "") (alias_tenant tenant.1) tenant.2.

(** The first of the preferred column names that the frame has *)
Definition first_present (preferred : list string) (df : DataFrame) : option string :=
  snd <$> list_find (λ c, c ∈ columns df) preferred.

(** The market column as the specification words it: explicit market
    name first, then localized name, then market code. *)
Definition spec_market_col : DataFrame → option string :=
  first_present ["Market"; "NameChinese"; "MarketCode"].

(** ** Sample inputs *)

Definition sample_ledger : DataFrame :=
  mkDataFrame ["Market"; "ShopName"]
    [ {[ "Market" := Str "marketX"; "ShopName" := Str "merchantA" ]};
      {[ "Market" := Str "marketX"; "ShopName" := Str "merchantA" ]};
      {[ "Market" := Str "marketX"; "ShopName" := Str "merchantB" ]} ].

Definition sample_categories : DataFrame :=
  mkDataFrame ["Tenant"; "Sales Category"]
    [ {[ "Tenant" := Str "merchantA"; "Sales Category" := Str "Food" ]} ].

Definition sample_request : Request :=
  {| market_reports :=
       Some [mkUpload "east.xlsx" (Ok sample_ledger);
             mkUpload "notes.txt" (Ok sample_ledger);
             mkUpload "west.csv" (Raise ValueError)];
     summary := Some (mkUpload "summary.xlsx" (Ok sample_ledger));
     sales_category := Some (mkUpload "categories.xlsx" (Ok sample_categories)) |}.

(** A ledger with both a market-name and a localized-name column *)
Definition both_names : DataFrame :=
  mkDataFrame ["Market"; "NameChinese"; "ShopName"]
    [ {[ "Market" := Str "Central"; "NameChinese" := Str "Zhonghuan";
         "ShopName" := Str "merchantA" ]} ].

(** Two markets used once each *)
Definition two_markets : DataFrame :=
  mkDataFrame ["Market"; "ShopName"]
    [ {[ "Market" := Str "North"; "ShopName" := Str "merchantA" ]};
      {[ "Market" := Str "South"; "ShopName" := Str "merchantB" ]} ].

(** Two client names with the same abbreviation *)
Definition shared_abbreviation : DataFrame :=
  mkDataFrame ["client_name"; "CouponValue"]
    [ {[ "client_name" := Str "SJS Central"; "CouponValue" := Num 10 ]};
      {[ "client_name" := Str "SJS North"; "CouponValue" := Num 10 ]} ].

(** The batch of the specification's example: two coupons of value 10
    and one of value 20 bought by one client *)
Definition shop_a_batch : DataFrame :=
  mkDataFrame ["client_name"; "CouponValue"]
    [ {[ "client_name" := Str "ShopA"; "CouponValue" := Num 10 ]};
      {[ "client_name" := Str "ShopA"; "CouponValue" := Num 10 ]};
      {[ "client_name" := Str "ShopA"; "CouponValue" := Num 20 ]} ].

(** Sixteen merchants used once each *)
Definition sixteen_merchants : DataFrame :=
  mkDataFrame ["ShopName"]
    ((λ n : nat, ({[ "ShopName" := Num (Z.of_nat n) ]} : row)) <$> seq 1 16).

(** ** Further definitions for the statements *)

(** The character [c] occurs in [s] *)
Fixpoint mentions (c : ascii) (s : string) : bool :=
  match s with
  | EmptyString => false
  | String d s' => bool_decide (d = c) || mentions c s'
  end.

(** No whitespace character occurs in [s] *)
Definition spaceless (s : string) : Prop :=
  ∀ w, w ∈ Py.whitespace → Py.contains w s = false.

(** The number of rows of [df] whose cell in column [col] is [v] *)
Definition rows_with (df : DataFrame) (col : string) (v : value) : nat :=
  length (filter (λ r : row, r !! col = Some v) (rows df)).

(** The number of rows of [df] whose cell in column [col] is present *)
Definition rows_present (df : DataFrame) (col : string) : nat :=
  length (filter (λ r : row, is_Some (r !! col)) (rows df)).

(** [table] lists each value of column [col] once, with the number of
    rows holding it, and nothing else. *)
Definition counts_rows_by (df : DataFrame) (col : string)
    (table : list (value * nat)) : Prop :=
  NoDup table.*1 ∧
  (∀ v n, (v, n) ∈ table ↔ 0 < n ∧ n = rows_with df col v) ∧
  sum_list table.*2 = rows_present df col.

(** [table] lists the most frequent values of column [col], at most
    [limit] of them: each listed value once with its number of rows, and
    no value left out has more rows than a listed one. *)
Definition top_rows_by (limit : nat) (df : DataFrame) (col : string)
    (table : list (value * nat)) : Prop :=
  NoDup table.*1 ∧
  (∀ v n, (v, n) ∈ table → 0 < n ∧ n = rows_with df col v) ∧
  length table =
    min limit (length (Pd.unique (Pd.dropna ((λ r : row, r !! col) <$> rows df)))) ∧
  (∀ v n w, (v, n) ∈ table → 0 < rows_with df col w → w ∉ table.*1 →
            rows_with df col w ≤ n).

(** The key and the category that a row of the category file
    contributes to the mapping *)
Definition tenant_key (r : row) : string :=
  Py.strip (Pd.astype_str (r !! "Tenant")).

Definition category_text (r : row) : string :=
  Py.strip (Pd.astype_str (r !! "Sales Category")).

(** Every cell of column [c] holds text *)
Definition text_column (df : DataFrame) (c : string) : Prop :=
  ∀ r, r ∈ rows df → ∃ s, r !! c = Some (Str s).

(** The key under which a row of a market report is looked up *)
Definition shop_key (r : row) : string :=
  Py.strip (Pd.astype_str (Pd.fillna (Str "") (r !! "ShopName"))).

(** A category file with the same tenant on two rows *)
Definition repeated_tenant : DataFrame :=
  mkDataFrame ["Tenant"; "Sales Category"]
    [ {[ "Tenant" := Str "merchantA"; "Sales Category" := Str "Food" ]};
      {[ "Tenant" := Str "merchantB"; "Sales Category" := Str "Retail" ]};
      {[ "Tenant" := Str (Py.chr 160 +:+ "merchantA ");
         "Sales Category" := Str ("Services" +:+ Py.chr 12288) ]} ].

(** A market report whose merchant names carry trailing whitespace *)
Definition padded_report : DataFrame :=
  mkDataFrame ["ShopName"]
    [ {[ "ShopName" := Str ("merchantA" +:+ Py.chr 12288 +:+ " ") ]};
      {[ "ShopName" := Str "merchantC" ]} ].

(** The characters that the worksheet builder replaces in a sheet name *)
Definition unsafe_chars : list ascii := ["/"; "\"; "*"; "["; "]"; ":"; "?"]%char.

(** A ledger with a market whose name is that of a fixed sheet *)
Definition market_named_weekly : DataFrame :=
  mkDataFrame ["Market"; "ShopName"]
    [ {[ "Market" := Str "Weekly"; "ShopName" := Str "merchantA" ]};
      {[ "Market" := Str "a/b:c"; "ShopName" := Str "merchantB" ]} ].

(** [s[n:]] *)
Fixpoint drop_str (n : nat) (s : string) : string :=
  match n, s with
  | S k, String _ s' => drop_str k s'
  | _, _ => s
  end.

(** A ledger in which the raw merchant name occurs, alone and inside a
    longer name *)
Definition marae_ledger : DataFrame :=
  mkDataFrame ["Market"; "ShopName"]
    [ {[ "Market" := Str "marketX"; "ShopName" := Str "MARAE LIMITED" ]};
      {[ "Market" := Str "marketX"; "ShopName" := Str "MARAE LIMITED (2/F)" ]};
      {[ "Market" := Str "marketX"; "ShopName" := Str "MARAE LIMITED (2/F)" ]};
      {[ "Market" := Str "marketX"; "ShopName" := Str "MARAE LIMITED" ]};
      {[ "Market" := Str "marketX"; "ShopName" := Str "MARAE LIMITED (2/F)" ]};
      {[ "Market" := Str "marketX"; "ShopName" := Str "merchantB" ]} ].

(** A market file that the loop over the uploads accepts: it has a
    name with an allowed extension, it could be read, and it has a
    [ShopName] column. *)
Definition valid_upload (file : Upload) : bool :=
  negb (bool_decide (filename file = "")) && allowed_file (filename file) &&
  match content file with
  | Ok df => Pd.has_column df "ShopName"
  | Raise _ => false
  end.

(** The values are all text, or all numbers: [sorted] accepts them. *)
Definition comparable (xs : list value) : bool :=
  forallb is_str xs || forallb (λ v, negb (is_str v)) xs.

(** A ledger whose market column holds text and a number *)
Definition mixed_markets : DataFrame :=
  mkDataFrame ["Market"; "ShopName"]
    [ {[ "Market" := Str "North"; "ShopName" := Str "merchantA" ]};
      {[ "Market" := Num 7; "ShopName" := Str "merchantB" ]} ].

(** * Properties *)

(** ** Text and its bytes *)

Lemma text_bytes (s : string) : Py.text (Py.bytes s) = s.
Proof. apply String.string_of_list_ascii_of_string. Qed.

Lemma bytes_text (l : list ascii) : Py.bytes (Py.text l) = l.
Proof. apply String.list_ascii_of_string_of_list_ascii. Qed.

Lemma bytes_app (s t : string) : Py.bytes (s +:+ t) = Py.bytes s ++ Py.bytes t.
Proof.
  unfold Py.bytes. induction s as [|c s IH]; [done|]. simpl. f_equal. exact IH.
Qed.

Lemma text_app (l k : list ascii) : Py.text (l ++ k) = Py.text l +:+ Py.text k.
Proof.
  unfold Py.text. induction l as [|c l IH]; [done|]. simpl. rewrite IH.
  reflexivity.
Qed.

Lemma bytes_inj (s t : string) : Py.bytes s = Py.bytes t → s = t.
Proof. intros Hst. by rewrite <-(text_bytes s), <-(text_bytes t), Hst. Qed.

Lemma bytes_join (chars : list string) :
  Py.bytes (Py.join chars) = mjoin (Py.bytes <$> chars).
Proof.
  induction chars as [|w chars IH]; [done|].
  cbn [Py.join foldr]. rewrite bytes_app. fold (Py.join chars).
  by rewrite IH.
Qed.

Lemma mjoin_cons {A} (x : list A) (l : list (list A)) :
  mjoin (x :: l) = x ++ mjoin l.
Proof. reflexivity. Qed.

Lemma starts_with_prefix (w l : list ascii) :
  Py.starts_with w l = true ↔ w `prefix_of` l.
Proof.
  revert l. induction w as [|c w IH]; intros [|d l]; cbn [Py.starts_with].
  - split; [intros _; apply prefix_nil|done].
  - split; [intros _; apply prefix_nil|done].
  - split; [done|]. intros Hp. by apply prefix_nil_inv in Hp.
  - rewrite andb_true_iff, bool_decide_eq_true, IH. split.
    + intros [-> Hp]. by apply prefix_cons.
    + intros Hp. split; [by eapply prefix_cons_inv_1|by eapply prefix_cons_inv_2].
Qed.

Lemma prefix_bytes (w s : string) :
  String.prefix w s = true ↔ Py.bytes w `prefix_of` Py.bytes s.
Proof.
  rewrite <-starts_with_prefix.
  revert s. induction w as [|c w IH]; intros [|d s]; cbn; try done.
  destruct (ascii_dec c d) as [->|Hne].
  - rewrite bool_decide_eq_true_2 by done. apply IH.
  - by rewrite bool_decide_eq_false_2.
Qed.

(** ** Runs of characters at the start of a text *)

Section chars.
Variable chars : list (list ascii).
Hypothesis chars_nonempty : Forall (λ w, w ≠ []) chars.
Hypothesis chars_prefix_free :
  ∀ w w', w ∈ chars → w' ∈ chars → w `prefix_of` w' → w = w'.

Lemma leading_Some (l w : list ascii) :
  Py.leading chars l = Some w → w ∈ chars ∧ w `prefix_of` l.
Proof.
  unfold Py.leading.
  destruct (list_find _ chars) as [[i w']|] eqn:Hfind; [|done].
  intros [= <-]. apply list_find_Some in Hfind as (Hi & Hp & _).
  split; [by eapply list_elem_of_lookup_2|by apply starts_with_prefix].
Qed.

Lemma leading_None (l : list ascii) :
  Py.leading chars l = None ↔ ∀ w, w ∈ chars → ¬ w `prefix_of` l.
Proof.
  unfold Py.leading. rewrite fmap_None, list_find_None, Forall_forall.
  by setoid_rewrite starts_with_prefix.
Qed.

Lemma leading_app (w l : list ascii) :
  w ∈ chars → Py.leading chars (w ++ l) = Some w.
Proof.
  intros Hw.
  destruct (Py.leading chars (w ++ l)) as [w'|] eqn:Hlead.
  - apply leading_Some in Hlead as [Hw' Hp]. f_equal.
    destruct (prefix_weak_total w' w (w ++ l) Hp) as [?|?];
      [by apply prefix_app_r| |symmetry]; by apply chars_prefix_free.
  - rewrite leading_None in Hlead. destruct (Hlead w Hw). by apply prefix_app_r.
Qed.

Lemma leading_nil : Py.leading chars [] = None.
Proof.
  apply leading_None. intros w Hw Hp. apply prefix_nil_inv in Hp.
  rewrite Forall_forall in chars_nonempty. by apply (chars_nonempty w).
Qed.

Lemma leading_length (l w : list ascii) :
  Py.leading chars l = Some w → ∃ l', l = w ++ l' ∧ 0 < length w.
Proof.
  intros [Hw [l' ->]]%leading_Some. exists l'. split; [done|].
  rewrite Forall_forall in chars_nonempty.
  specialize (chars_nonempty w Hw). destruct w; [done|cbn; lia].
Qed.

Lemma lstrip_from_skip (k : nat) (l : list ascii) :
  Py.lstrip_from chars k l = Py.lstrip_from chars 0 (drop k l).
Proof.
  revert k. induction l as [|c l IH]; intros [|k]; try done.
  cbn [Py.lstrip_from drop]. apply IH.
Qed.

Lemma lstrip_app (w l : list ascii) :
  w ∈ chars → Py.lstrip_from chars 0 (w ++ l) = Py.lstrip_from chars 0 l.
Proof.
  intros Hw. pose proof (leading_app w l Hw) as Hlead.
  destruct w as [|c w]; [by apply leading_length in Hlead as (? & _ & ?%Nat.lt_irrefl)|].
  cbn [app Py.lstrip_from] in *. rewrite Hlead, lstrip_from_skip.
  replace (length (c :: w) - 1) with (length w) by (cbn [length]; lia).
  by rewrite drop_app_length.
Qed.

Lemma lstrip_stop (l : list ascii) :
  Py.leading chars l = None → Py.lstrip_from chars 0 l = l.
Proof. destruct l as [|c l]; [done|]. cbn [Py.lstrip_from]. by intros ->. Qed.

(** A text is read character by character: it is empty, or starts with
    a character of [chars], or starts with a byte that begins none. *)
Lemma chunk_ind (P : list ascii → Prop) :
  P [] →
  (∀ w l, w ∈ chars → P l → P (w ++ l)) →
  (∀ c l, Py.leading chars (c :: l) = None → P l → P (c :: l)) →
  ∀ l, P l.
Proof.
  intros Hnil Hchar Hbyte l.
  induction l as [l IH] using (induction_ltof1 _ length). unfold ltof in IH.
  destruct (Py.leading chars l) as [w|] eqn:Hlead.
  - pose proof Hlead as [Hw _]%leading_Some.
    apply leading_length in Hlead as (l' & Hl & Hlen). subst l.
    apply Hchar; [done|]. apply IH. rewrite length_app. lia.
  - destruct l as [|c l]; [done|].
    apply Hbyte; [done|]. apply IH. cbn. lia.
Qed.

Lemma lstrip_spec (l : list ascii) :
  ∃ lead, Forall (λ w, w ∈ chars) lead ∧
          l = mjoin lead ++ Py.lstrip_from chars 0 l ∧
          Py.leading chars (Py.lstrip_from chars 0 l) = None.
Proof.
  induction l as [|w l Hw (lead & Hlead & Hl & Hstop)|c l Hc _] using chunk_ind.
  - exists []. split; [done|]. split; [done|]. apply leading_nil.
  - exists (w :: lead). rewrite lstrip_app by done.
    split; [by constructor|]. split; [|done].
    rewrite mjoin_cons, <-app_assoc. by f_equal.
  - exists []. rewrite lstrip_stop by done. by repeat split.
Qed.

Lemma lstrip_unique (lead : list (list ascii)) (rest : list ascii) :
  Forall (λ w, w ∈ chars) lead → Py.leading chars rest = None →
  Py.lstrip_from chars 0 (mjoin lead ++ rest) = rest.
Proof.
  intros Hlead Hrest. induction Hlead as [|w lead Hw _ IH].
  - by apply lstrip_stop.
  - rewrite mjoin_cons, <-app_assoc. by rewrite lstrip_app.
Qed.

End chars.

(** ** The whitespace characters *)

Lemma whitespace_nonempty : Forall (λ w, w ≠ []) (Py.bytes <$> Py.whitespace).
Proof. apply (bool_decide_unpack _). vm_compute. exact I. Qed.

Lemma whitespace_prefix_free (w w' : list ascii) :
  w ∈ Py.bytes <$> Py.whitespace → w' ∈ Py.bytes <$> Py.whitespace →
  w `prefix_of` w' → w = w'.
Proof.
  assert (Forall (λ w, Forall (λ w', w `prefix_of` w' → w = w')
                              (Py.bytes <$> Py.whitespace))
                 (Py.bytes <$> Py.whitespace)) as Hall.
  { apply (bool_decide_unpack _). vm_compute. exact I. }
  intros Hw Hw'. rewrite Forall_forall in Hall.
  specialize (Hall w Hw). rewrite Forall_forall in Hall. by apply Hall.
Qed.

Lemma whitespace_reversed_nonempty :
  Forall (λ w, w ≠ []) ((λ w, reverse (Py.bytes w)) <$> Py.whitespace).
Proof. apply (bool_decide_unpack _). vm_compute. exact I. Qed.

Lemma whitespace_suffix_free (w w' : list ascii) :
  w ∈ (λ w, reverse (Py.bytes w)) <$> Py.whitespace →
  w' ∈ (λ w, reverse (Py.bytes w)) <$> Py.whitespace →
  w `prefix_of` w' → w = w'.
Proof.
  assert (Forall (λ w, Forall (λ w', w `prefix_of` w' → w = w')
                              ((λ w, reverse (Py.bytes w)) <$> Py.whitespace))
                 ((λ w, reverse (Py.bytes w)) <$> Py.whitespace)) as Hall.
  { apply (bool_decide_unpack _). vm_compute. exact I. }
  intros Hw Hw'. rewrite Forall_forall in Hall.
  specialize (Hall w Hw). rewrite Forall_forall in Hall. by apply Hall.
Qed.

(** No byte after the first of a whitespace character begins a
    whitespace character. *)
Lemma whitespace_synchronised (w t : list ascii) (c : ascii) :
  w ∈ Py.bytes <$> Py.whitespace → t ∈ Py.bytes <$> Py.whitespace →
  c ∈ drop 1 w → head t ≠ Some c.
Proof.
  assert (Forall (λ w, Forall (λ t, Forall (λ c, head t ≠ Some c) (drop 1 w))
                              (Py.bytes <$> Py.whitespace))
                 (Py.bytes <$> Py.whitespace)) as Hall.
  { apply (bool_decide_unpack _). vm_compute. exact I. }
  intros Hw Ht. rewrite Forall_forall in Hall.
  specialize (Hall w Hw). rewrite Forall_forall in Hall.
  specialize (Hall t Ht). rewrite Forall_forall in Hall. apply Hall.
Qed.

Lemma elem_of_whitespace_bytes (w : list ascii) :
  w ∈ Py.bytes <$> Py.whitespace → Py.text w ∈ Py.whitespace.
Proof. intros (x & -> & Hx)%list_elem_of_fmap. by rewrite text_bytes. Qed.

Lemma whitespace_only_bytes (s : string) :
  whitespace_only s ↔
  ∃ lead, Forall (λ w, w ∈ Py.bytes <$> Py.whitespace) lead ∧
          Py.bytes s = mjoin lead.
Proof.
  split.
  - intros (chars & Hchars & ->). exists (Py.bytes <$> chars).
    split; [|apply bytes_join].
    apply Forall_fmap. eapply Forall_impl; [exact Hchars|].
    intros w Hw. cbn beta in *. apply list_elem_of_fmap. by exists w.
  - intros (lead & Hlead & Hs). exists (Py.text <$> lead). split.
    + apply Forall_fmap. eapply Forall_impl; [exact Hlead|].
      intros w Hw. cbn beta in *. by apply elem_of_whitespace_bytes.
    + apply bytes_inj. rewrite bytes_join, <-list_fmap_compose, Hs.
      f_equal. rewrite <-(list_fmap_id lead) at 1.
      apply list_fmap_ext. intros i w _. unfold compose, id. by rewrite bytes_text.
Qed.

Lemma reverse_mjoin {A} (l : list (list A)) :
  reverse (mjoin l) = mjoin (reverse <$> reverse l).
Proof.
  induction l as [|x l IH]; [done|].
  rewrite mjoin_cons, reverse_app, IH, reverse_cons, fmap_app, join_app.
  f_equal. rewrite list_fmap_singleton, mjoin_cons. symmetry. apply app_nil_r.
Qed.

Lemma whitespace_reverse (l : list (list ascii)) :
  Forall (λ w, w ∈ Py.bytes <$> Py.whitespace) l →
  Forall (λ w, w ∈ (λ w, reverse (Py.bytes w)) <$> Py.whitespace)
         (reverse <$> reverse l).
Proof.
  intros Hl. rewrite Forall_fmap, Forall_reverse.
  eapply Forall_impl; [exact Hl|].
  intros w (x & -> & Hx)%list_elem_of_fmap. unfold compose.
  apply list_elem_of_fmap. by exists x.
Qed.

Lemma reversed_whitespace (l : list (list ascii)) :
  Forall (λ w, w ∈ (λ w, reverse (Py.bytes w)) <$> Py.whitespace) l →
  Forall (λ w, w ∈ Py.bytes <$> Py.whitespace) (reverse <$> reverse l).
Proof.
  intros Hl. rewrite Forall_fmap, Forall_reverse.
  eapply Forall_impl; [exact Hl|].
  intros w (x & -> & Hx)%list_elem_of_fmap. unfold compose.
  rewrite reverse_involutive. apply list_elem_of_fmap. by exists x.
Qed.

Lemma whitespace_only_reversed (s : string) :
  whitespace_only s ↔
  ∃ lead, Forall (λ w, w ∈ (λ w, reverse (Py.bytes w)) <$> Py.whitespace) lead ∧
          reverse (Py.bytes s) = mjoin lead.
Proof.
  rewrite whitespace_only_bytes. split.
  - intros (lead & Hlead & Hs). exists (reverse <$> reverse lead).
    split; [by apply whitespace_reverse|]. by rewrite Hs, reverse_mjoin.
  - intros (lead & Hlead & Hs). exists (reverse <$> reverse lead).
    split; [by apply reversed_whitespace|].
    by rewrite <-reverse_mjoin, <-Hs, reverse_involutive.
Qed.

Lemma leading_straddle (key : list ascii) (trail : list (list ascii)) :
  key ≠ [] →
  Py.leading (Py.bytes <$> Py.whitespace) key = None →
  Forall (λ w, w ∈ Py.bytes <$> Py.whitespace) trail →
  Py.leading (Py.bytes <$> Py.whitespace) (key ++ mjoin trail) = None.
Proof.
  intros Hkey Hstart Htrail. rewrite leading_None in Hstart |- *.
  intros w Hw [k Hk].
  apply app_eq_inv in Hk as [(k' & Hk' & _)|(k' & Hw' & Htl)].
  { apply (Hstart w Hw). by exists k'. }
  destruct k' as [|c k'].
  { apply (Hstart w Hw). rewrite app_nil_r in Hw'. by rewrite Hw'. }
  destruct Htrail as [|t trail Ht _]; [done|].
  rewrite mjoin_cons in Htl.
  destruct t as [|d t].
  { pose proof whitespace_nonempty as Hne. rewrite Forall_forall in Hne.
    by destruct (Hne [] Ht). }
  injection Htl as -> _.
  apply (whitespace_synchronised w (c :: t) c Hw Ht); [|done].
  rewrite Hw'. destruct key as [|a key]; [done|]. cbn [app drop].
  apply elem_of_app. right. left.
Qed.

(** ** Trimming *)

Lemma trimmed_bytes (s key : string) :
  trimmed s key ↔
  ∃ lead trail,
    Forall (λ w, w ∈ Py.bytes <$> Py.whitespace) lead ∧
    Forall (λ w, w ∈ (λ w, reverse (Py.bytes w)) <$> Py.whitespace) trail ∧
    Py.bytes s = mjoin lead ++ Py.bytes key ++ reverse (mjoin trail) ∧
    Py.leading (Py.bytes <$> Py.whitespace) (Py.bytes key) = None ∧
    Py.leading ((λ w, reverse (Py.bytes w)) <$> Py.whitespace)
               (reverse (Py.bytes key)) = None.
Proof.
  assert (Hends : (∀ w, w ∈ Py.whitespace →
                     String.prefix w key = false ∧ ends_with w key = false) ↔
                  Py.leading (Py.bytes <$> Py.whitespace) (Py.bytes key) = None ∧
                  Py.leading ((λ w, reverse (Py.bytes w)) <$> Py.whitespace)
                             (reverse (Py.bytes key)) = None).
  { rewrite !leading_None. split.
    - intros Hw. split; intros w (x & -> & Hx)%list_elem_of_fmap Hp.
      + apply prefix_bytes in Hp. destruct (Hw x Hx) as [Hpre _]. congruence.
      + apply starts_with_prefix in Hp. destruct (Hw x Hx) as [_ Hend].
        unfold ends_with in Hend. congruence.
    - intros [Hpre Hend] w Hw. split.
      + apply not_true_is_false. intros Hp%prefix_bytes.
        apply (Hpre (Py.bytes w)); [|done]. apply list_elem_of_fmap. by exists w.
      + apply not_true_is_false. unfold ends_with. intros Hp%starts_with_prefix.
        apply (Hend (reverse (Py.bytes w))); [|done].
        apply list_elem_of_fmap. by exists w. }
  unfold trimmed. split.
  - intros (lead & trail & -> & (lb & Hlb & Hlead)%whitespace_only_bytes
            & (tb & Htb & Htrail)%whitespace_only_reversed & Hw).
    exists lb, tb. rewrite !bytes_app, Hlead, <-Htrail, reverse_involutive.
    apply Hends in Hw as [? ?]. done.
  - intros (lb & tb & Hlb & Htb & Hs & Hpre & Hend).
    exists (Py.text (mjoin lb)), (Py.text (reverse (mjoin tb))).
    split; [|split; [|split]].
    + apply bytes_inj. by rewrite !bytes_app, !bytes_text.
    + apply whitespace_only_bytes. exists lb. by rewrite bytes_text.
    + apply whitespace_only_reversed. exists tb.
      by rewrite bytes_text, reverse_involutive.
    + by apply Hends.
Qed.

(** [strip] returns the trimmed text. *)
Lemma strip_trimmed (s : string) : trimmed s (Py.strip s).
Proof.
  apply trimmed_bytes. unfold Py.strip, Py.rstrip, Py.lstrip.
  rewrite !bytes_text.
  destruct (lstrip_spec _ whitespace_nonempty whitespace_prefix_free
              (Py.bytes s)) as (lead & Hlead & Hs & Hstop).
  set (l := Py.lstrip_from (Py.bytes <$> Py.whitespace) 0 (Py.bytes s)) in *.
  destruct (lstrip_spec _ whitespace_reversed_nonempty whitespace_suffix_free
              (reverse l)) as (trail & Htrail & Hl & Hend).
  set (k := Py.lstrip_from _ 0 (reverse l)) in *.
  assert (Hl' : l = reverse k ++ reverse (mjoin trail)).
  { by rewrite <-reverse_app, <-Hl, reverse_involutive. }
  exists lead, trail. rewrite reverse_involutive.
  split; [done|]. split; [done|]. split; [by rewrite <-Hl'|]. split; [|done].
  rewrite leading_None in Hstop |- *. intros w Hw Hp.
  apply (Hstop w Hw). rewrite Hl'. by apply prefix_app_r.
Qed.

(** The trimmed text is unique: it is what [strip] returns. *)
Lemma trimmed_strip (s key : string) : trimmed s key → Py.strip s = key.
Proof.
  intros (lead & trail & Hlead & Htrail & Hs & Hpre & Hend)%trimmed_bytes.
  unfold Py.strip, Py.rstrip, Py.lstrip. rewrite !bytes_text, Hs.
  pose proof (reversed_whitespace trail Htrail) as Htrail'.
  destruct (decide (Py.bytes key = [])) as [Hnil|Hkey].
  - rewrite Hnil in *. cbn [app].
    rewrite reverse_mjoin, <-join_app, <-(app_nil_r (mjoin _)).
    rewrite (lstrip_unique _ whitespace_nonempty whitespace_prefix_free);
      [|by apply Forall_app|by apply leading_nil, whitespace_nonempty].
    apply bytes_inj. by rewrite bytes_text, Hnil.
  - rewrite (lstrip_unique _ whitespace_nonempty whitespace_prefix_free);
      [|done|].
    2:{ rewrite reverse_mjoin. by apply leading_straddle. }
    rewrite reverse_app, reverse_involutive.
    rewrite (lstrip_unique _ whitespace_reversed_nonempty whitespace_suffix_free)
      by done.
    by rewrite reverse_involutive, text_bytes.
Qed.

Example strip_examples :
  Py.strip (Py.chr 12288 +:+ " merchantA" +:+ Py.chr 160 +:+ " ") = "merchantA" ∧
  Py.strip "  two words  " = "two words" ∧
  Py.strip (Py.chr 8195) = "" ∧
  Py.split (" acme" +:+ Py.chr 160 +:+ "trading  co") = ["acme"; "trading"; "co"] ∧
  Py.split (Py.chr 12288 +:+ Py.chr 160) = [] ∧
  Py.take 2 "U士多x" = "U士" ∧ Py.len "U士多x" = 4.
Proof. vm_compute. repeat split. Qed.

(** ** Splitting at whitespace *)

Lemma split_from_skip (k : nat) (tok l : list ascii) :
  Py.split_from k tok l = Py.split_from 0 tok (drop k l).
Proof.
  revert k. induction l as [|c l IH]; intros [|k]; try done.
  cbn [Py.split_from drop]. apply IH.
Qed.

Lemma split_char (w tok l : list ascii) :
  w ∈ Py.bytes <$> Py.whitespace →
  Py.split_from 0 tok (w ++ l) = Py.flush tok ++ Py.split_from 0 [] l.
Proof.
  intros Hw.
  pose proof (leading_app _ whitespace_prefix_free w l Hw) as Hlead.
  destruct w as [|c w].
  { by apply (leading_length _ whitespace_nonempty) in Hlead
      as (? & _ & ?%Nat.lt_irrefl). }
  cbn [app Py.split_from] in *. rewrite Hlead, split_from_skip.
  replace (length (c :: w) - 1) with (length w) by (cbn [length]; lia).
  by rewrite drop_app_length.
Qed.

Lemma split_byte (c : ascii) (tok l : list ascii) :
  Py.leading (Py.bytes <$> Py.whitespace) (c :: l) = None →
  Py.split_from 0 tok (c :: l) = Py.split_from 0 (tok ++ [c]) l.
Proof. cbn [Py.split_from]. by intros ->. Qed.

Lemma flush_nil (tok : list ascii) : Py.flush tok = [] ↔ tok = [].
Proof. by destruct tok. Qed.

Lemma split_from_nil (tok l : list ascii) :
  Py.split_from 0 tok l = [] ↔
  tok = [] ∧ ∃ lead, Forall (λ w, w ∈ Py.bytes <$> Py.whitespace) lead ∧
                     l = mjoin lead.
Proof.
  split.
  - revert tok.
    induction l as [|w l Hw IH|c l Hc IH]
      using (chunk_ind _ whitespace_nonempty); intros tok.
    + cbn [Py.split_from]. intros ->%flush_nil. split; [done|]. by exists [].
    + rewrite split_char by done.
      intros [->%flush_nil Hl]%app_eq_nil. split; [done|].
      destruct (IH [] Hl) as (_ & lead & Hlead & ->).
      exists (w :: lead). split; [by constructor|done].
    + rewrite split_byte by done. intros (Htok & _)%IH.
      by destruct tok.
  - intros (-> & lead & Hlead & ->).
    induction Hlead as [|w lead Hw _ IH]; [done|].
    rewrite mjoin_cons, split_char by done. done.
Qed.

(** Whether [w] occurs in [s], on the bytes *)
Lemma contains_bytes (w s : string) :
  Py.contains w s = true ↔ ∃ a b, Py.bytes s = a ++ Py.bytes w ++ b.
Proof.
  induction s as [|c s IH]; cbn [Py.contains].
  - rewrite orb_false_r, prefix_bytes. split.
    + intros [b Hb]. by exists [], b.
    + intros (a & b & Hs). symmetry in Hs.
      apply app_eq_nil in Hs as [-> Hs]. exists b. by rewrite Hs.
  - rewrite orb_true_iff, prefix_bytes, IH. split.
    + intros [[b Hb]|(a & b & Hs)]; [by exists [], b|].
      exists (c :: a), b. unfold Py.bytes in *. cbn. by rewrite Hs.
    + intros ([|d a] & b & Hs); [left; by exists b|].
      right. exists a, b. unfold Py.bytes in *. cbn in Hs. by injection Hs.
Qed.

Lemma flush_clean (tok l : list ascii) :
  run_clean tok l →
  Forall (λ t, t ≠ "" ∧ ∀ w, w ∈ Py.whitespace → Py.contains w t = false)
         (Py.flush tok).
Proof.
  intros Hclean. destruct tok as [|c tok]; [constructor|].
  cbn [Py.flush]. constructor; [|constructor]. split; [done|].
  intros w Hw. apply not_true_is_false.
  intros (a & b & Htok)%contains_bytes. rewrite bytes_text in Htok.
  assert (Py.bytes w ∈ Py.bytes <$> Py.whitespace) as Hwb
    by (apply list_elem_of_fmap; by exists w).
  pose proof whitespace_nonempty as Hne. rewrite Forall_forall in Hne.
  specialize (Hclean a (Py.bytes w ++ b) Htok).
  rewrite leading_None in Hclean.
  apply (Hclean (λ Hnil, Hne _ Hwb (proj1 (app_eq_nil _ _ Hnil))) _ Hwb).
  rewrite <-app_assoc. by apply prefix_app_r.
Qed.

Lemma split_from_clean (tok l : list ascii) :
  run_clean tok l →
  Forall (λ t, t ≠ "" ∧ ∀ w, w ∈ Py.whitespace → Py.contains w t = false)
         (Py.split_from 0 tok l).
Proof.
  revert tok.
  induction l as [|w l Hw IH|c l Hc IH]
    using (chunk_ind _ whitespace_nonempty); intros tok Hclean.
  - by apply (flush_clean tok []).
  - rewrite split_char by done. apply Forall_app. split.
    + by apply (flush_clean tok (w ++ l)).
    + apply IH. intros a b Hab Hb. symmetry in Hab.
      apply app_eq_nil in Hab as [_ ->]. done.
  - rewrite split_byte by done. apply IH.
    intros a b Hab Hb.
    destruct (decide (b = [])) as [->|Hb']; [done|].
    apply exists_last in Hb' as (b' & d & ->).
    rewrite app_assoc in Hab. apply app_inj_tail in Hab as [-> <-].
    rewrite <-app_assoc. cbn [app].
    destruct (decide (b' = [])) as [->|Hb'']; [done|].
    by apply (Hclean a b').
Qed.

Lemma split_nil (s : string) : Py.split s = [] ↔ whitespace_only s.
Proof.
  unfold Py.split. rewrite split_from_nil, whitespace_only_bytes.
  split; [by intros [_ ?]|by intros ?].
Qed.

Lemma split_tokens (s : string) :
  Forall (λ t, t ≠ "" ∧ ∀ w, w ∈ Py.whitespace → Py.contains w t = false)
         (Py.split s).
Proof.
  apply split_from_clean. intros a b Hab Hb. symmetry in Hab.
  by apply app_eq_nil in Hab as [_ ->].
Qed.

(** ** Characters and slices *)

Lemma len_take (n : nat) (s : string) : Py.len (Py.take n s) ≤ n.
Proof.
  revert n. induction s as [|c s IH]; intros n; cbn [Py.take Py.len]; [lia|].
  destruct (Py.continuation c) eqn:Hc.
  - cbn [Py.len]. rewrite Hc. apply IH.
  - destruct n as [|n]; cbn [Py.len]; [lia|]. rewrite Hc.
    specialize (IH n). lia.
Qed.

(** ** Frames and columns *)

Lemma has_column_spec (df : DataFrame) (c : string) :
  Pd.has_column df c = true ↔ c ∈ columns df.
Proof. unfold Pd.has_column. apply bool_decide_eq_true. Qed.

Lemma getitem_ok (df : DataFrame) (c : string) :
  c ∈ columns df → Pd.getitem df c = Ok ((λ r : row, r !! c) <$> rows df).
Proof.
  intros Hc. unfold Pd.getitem.
  apply has_column_spec in Hc. by rewrite Hc.
Qed.

Lemma elem_of_add_column (cols : list string) (c d : string) :
  d ∈ cols → d ∈ Pd.add_column cols c.
Proof.
  unfold Pd.add_column. case_bool_decide; [done|].
  intros ?. apply elem_of_app. by left.
Qed.

Lemma lookup_set_cell (c : string) (r : row) (v : cell) :
  Pd.set_cell c r v !! c = v.
Proof. unfold Pd.set_cell. by rewrite lookup_partial_alter_eq. Qed.

Lemma lookup_set_cell_ne (c d : string) (r : row) (v : cell) :
  c ≠ d → Pd.set_cell c r v !! d = r !! d.
Proof. intros ?. unfold Pd.set_cell. by rewrite lookup_partial_alter_ne. Qed.

(** ** Category enrichment *)

Lemma add_sales_category_rows (df df' : DataFrame) (m : gmap string string) :
  add_sales_category df m = Ok df' →
  rows df' = (λ r, Pd.set_cell "Sales Category" r (category_of m r)) <$> rows df.
Proof.
  unfold add_sales_category.
  destruct (Pd.has_column df "ShopName") eqn:Hshop; simpl; [|done].
  apply has_column_spec in Hshop.
  destruct (Pd.has_column df "Sales Category") eqn:Hcat; simpl.
  - rewrite (getitem_ok _ _ Hshop). simpl. intros [= <-]. simpl.
    rewrite <-list_fmap_compose, zip_with_fmap_r, zip_with_diag.
    done.
  - rewrite getitem_ok by (by apply elem_of_add_column).
    simpl. intros [= <-]. simpl.
    rewrite <-!list_fmap_compose, zip_with_fmap_l, zip_with_fmap_r, zip_with_diag.
    apply list_fmap_ext. intros i r _. simpl.
    unfold category_of. rewrite lookup_set_cell_ne by done.
    apply map_eq. intros k. destruct (decide (k = "Sales Category")) as [->|Hk].
    + by rewrite !lookup_set_cell.
    + by rewrite !lookup_set_cell_ne.
Qed.


(** A merchant name padded with a no-break space and an ideographic
    space is looked up without them. *)
Example add_sales_category_padded :
  (λ df, (λ r : row, r !! "Sales Category") <$> rows df)
    <$> except_none
          (add_sales_category
             (mkDataFrame ["ShopName"]
                [ {[ "ShopName" := Str (Py.chr 12288 +:+ "merchantA" +:+ Py.chr 160) ]};
                  {[ "ShopName" := Str "merchant A" ]} ])
             {[ "merchantA" := "Food" ]})
  = Some [Some (Str "Food"); Some (Str "")].
Proof. vm_compute. reflexivity. Qed.

(** ** Client short names *)

(** Every byte of a whitespace-only text is a byte of a whitespace
    character. *)
Lemma whitespace_only_elem (s : string) (c : ascii) :
  whitespace_only s → c ∈ Py.bytes s →
  c ∈ mjoin (Py.bytes <$> Py.whitespace).
Proof.
  intros (lead & Hlead & Hs)%whitespace_only_bytes Hc. rewrite Hs in Hc.
  apply list_elem_of_join in Hc as (w & Hc & Hw).
  apply list_elem_of_join. exists w. split; [done|].
  rewrite Forall_forall in Hlead. by apply Hlead.
Qed.

Lemma bytes_upper (s : string) :
  Py.bytes (Py.upper s) = Py.upper_char <$> Py.bytes s.
Proof.
  unfold Py.upper, Py.bytes. induction s as [|c s IH]; [done|].
  simpl. by rewrite IH.
Qed.

Lemma upper_whitespace_byte (c : ascii) :
  c ∈ mjoin (Py.bytes <$> Py.whitespace) → Py.upper_char c = c.
Proof.
  assert (Forall (λ c, Py.upper_char c = c)
                 (mjoin (Py.bytes <$> Py.whitespace))) as Hall.
  { apply (bool_decide_unpack _). vm_compute. exact I. }
  rewrite Forall_forall in Hall. apply Hall.
Qed.

Lemma contains_absent (c : ascii) (k s : string) :
  c ∉ Py.bytes s → Py.contains (String c k) s = false.
Proof.
  unfold Py.bytes. induction s as [|d s IH]; [done|].
  simpl. intros [Hne Hc]%not_elem_of_cons.
  rewrite IH by done. destruct (ascii_dec c d); [done|]. done.
Qed.

(** No abbreviation occurs in the upper-cased form of a whitespace-only
    text. *)
Lemma short_name_no_match (s : string) :
  whitespace_only s →
  list_find (λ kv : string * string, Py.contains kv.1 (Py.upper s) = true)
            short_name_map = None.
Proof.
  intros Hs. apply list_find_None.
  assert (Forall (λ kv : string * string,
            ∃ c k, kv.1 = String c k ∧
                   c ∉ mjoin (Py.bytes <$> Py.whitespace)) short_name_map)
    as Hkeys.
  { repeat constructor; eexists _, _; (split; [reflexivity|]);
      apply (bool_decide_unpack _); vm_compute; exact I. }
  eapply Forall_impl; [exact Hkeys|].
  intros [key short] (c & k & Hkey & Hc). cbn [fst] in *. subst key.
  rewrite contains_absent; [done|].
  rewrite bytes_upper. intros (d & -> & Hd)%list_elem_of_fmap.
  pose proof (whitespace_only_elem s d Hs Hd) as Hd'.
  by rewrite (upper_whitespace_byte d Hd') in Hc.
Qed.

(** The names on which the derivation raises: the non-empty texts made
    of whitespace only. *)
Lemma short_name_raises_iff (s : string) :
  (∃ e, get_client_short_name (Some (Str s)) = Raise e) ↔
  s ≠ "" ∧ whitespace_only s.
Proof.
  unfold get_client_short_name. cbn [Py.str Py.truthy].
  split.
  - intros [e He].
    destruct (list_find _ short_name_map) as [[i [k short]]|]; [done|].
    case_bool_decide as Hs; cbn [negb] in He; [done|].
    split; [done|].
    destruct (Py.split s) eqn:Hsplit; [|done].
    by apply split_nil.
  - intros [Hs Hblank]. rewrite short_name_no_match by done.
    rewrite bool_decide_eq_false_2 by done. cbn [negb].
    exists IndexError.
    assert (Py.split s = []) as -> by (by apply split_nil).
    done.
Qed.

(** C3. On a name made of one space the derivation does not return: no
    abbreviation occurs in it, the name is a non-empty string and so
    passes the emptiness test, and it has no first token, so indexing the
    split fails. *)
Theorem short_name_of_blank_raises :
  get_client_short_name (Some (Str " ")) = Raise IndexError.
Proof. reflexivity. Qed.

(** ** Record counts of a processed request *)

Lemma length_bind_rows (frames : list DataFrame) :
  length (frames ≫= rows) = sum_list (Pd.len <$> frames).
Proof.
  induction frames as [|f fs IH]; [reflexivity|].
  cbn. rewrite length_app, IH. reflexivity.
Qed.

Lemma concat_len (frames : list DataFrame) (df : DataFrame) :
  Pd.concat frames = Ok df → Pd.len df = sum_list (Pd.len <$> frames).
Proof.
  unfold Pd.concat. destruct frames as [|f fs]; [intros [=]|].
  intros [= <-]. apply (length_bind_rows (f :: fs)).
Qed.

(** C10. In every successful response the total record count is the
    previous count plus the new count, the previous count is the length
    of the baseline read from the summary file, and the new count is the
    number of rows of the market files that were processed. *)
Theorem process_reports_record_counts `{Pd.SortValues}
    (secure_filename : string → string) (timestamp : string)
    (save : list (string * Sheet) → string → result unit)
    (request : Request) (body : Report) :
  process_reports secure_filename timestamp save request = Success body →
  total_records body = previous_records body + new_records body ∧
  ∃ summary_file daily_finance_df sales_category_file mapping market_files,
    summary request = Some summary_file ∧
    content summary_file = Ok daily_finance_df ∧
    sales_category request = Some sales_category_file ∧
    load_sales_category_mapping (content sales_category_file) = Ok mapping ∧
    market_reports request = Some market_files ∧
    previous_records body = Pd.len daily_finance_df ∧
    new_records body =
      sum_list (Pd.len <$>
        (process_market_files secure_filename mapping market_files).1).
Proof.
  unfold process_reports.
  destruct (market_reports request) as [market_files|]; [|done].
  destruct (summary request) as [summary_file|]; [|done].
  destruct (sales_category request) as [sales_category_file|]; [|done].
  case_match; [done|].
  destruct (load_sales_category_mapping _) as [mapping|] eqn:Hmap; [|done].
  destruct (content summary_file) as [daily|] eqn:Hdaily; [|done].
  destruct (process_market_files _ _ _) as [all_market_data uploaded] eqn:Hfiles.
  destruct (bool_decide (all_market_data = [])); [done|].
  destruct (Pd.concat all_market_data) as [combined|] eqn:Hcombined; [|done].
  simpl.
  destruct (save _ _); simpl; [|done].
  intros [= <-]. cbn [total_records previous_records new_records].
  apply concat_len in Hcombined.
  split.
  - unfold Pd.len. simpl. rewrite !length_app. simpl. lia.
  - exists summary_file, daily, sales_category_file, mapping, market_files.
    rewrite Hfiles. done.
Qed.

Lemma process_reports_record_counts_witness :
  ∃ body,
    process_reports (λ name, name) "20240101_000000" (λ _ _, Ok ()) sample_request
      = Success body ∧
    total_records body = previous_records body + new_records body.
Proof.
  destruct (process_reports (λ name, name) "20240101_000000" (λ _ _, Ok ())
              sample_request) as [| |body] eqn:Hresp.
  - vm_compute in Hresp. discriminate Hresp.
  - vm_compute in Hresp. discriminate Hresp.
  - exists body. split; [reflexivity|].
    exact (proj1 (process_reports_record_counts _ _ _ _ _ Hresp)).
Defined.

(** ** Resolution of the market column *)

Lemma first_present_cons (c : string) (preferred : list string) (df : DataFrame) :
  first_present (c :: preferred) df =
  if Pd.has_column df c then Some c else first_present preferred df.
Proof.
  unfold first_present, Pd.has_column. cbn [list_find].
  case_decide as Hc.
  - by rewrite bool_decide_eq_true_2.
  - rewrite bool_decide_eq_false_2 by done.
    destruct (list_find _ preferred) as [[i d]|]; reflexivity.
Qed.

Lemma used_market_col_spec (df : DataFrame) :
  used_market_col df = spec_market_col df.
Proof.
  unfold used_market_col, spec_market_col.
  rewrite !first_present_cons. by repeat case_match.
Qed.

Lemma pivot_market_col_order (df : DataFrame) :
  pivot_market_col df = first_present ["NameChinese"; "Market"; "MarketCode"] df.
Proof.
  unfold pivot_market_col.
  rewrite !first_present_cons. by repeat case_match.
Qed.

(** C1, as stated, fails: on a ledger with both a [Market] and a
    [NameChinese] column the aggregator counts by [Market] while the
    pivot builder and the worksheet builder group by [NameChinese]. *)
Lemma pivot_market_col_differs :
  used_market_col both_names = Some "Market" ∧
  spec_market_col both_names = Some "Market" ∧
  pivot_market_col both_names = Some "NameChinese" ∧
  worksheet_market_col both_names = Some "NameChinese" ∧
  pivot_market_col both_names ≠ used_market_col both_names.
Proof. repeat split; try reflexivity. discriminate. Qed.

(** C1, amended.  The pivot builder and the worksheet builder resolve the
    market column in one and the same order, localized name first, then
    explicit market name, then market code; the aggregator resolves it
    in the order of the specification.  The two choices are equal on
    every ledger that does not have both a [Market] and a [NameChinese]
    column. *)
Theorem market_col_resolution (df : DataFrame) :
  worksheet_market_col df = pivot_market_col df ∧
  pivot_market_col df = first_present ["NameChinese"; "Market"; "MarketCode"] df ∧
  used_market_col df = spec_market_col df ∧
  (¬ ("Market" ∈ columns df ∧ "NameChinese" ∈ columns df) →
   pivot_market_col df = used_market_col df).
Proof.
  split; [reflexivity|]. split; [apply pivot_market_col_order|].
  split; [apply used_market_col_spec|].
  intros Hboth. unfold pivot_market_col, used_market_col.
  destruct (Pd.has_column df "NameChinese") eqn:Hn;
    destruct (Pd.has_column df "Market") eqn:Hm; try reflexivity.
  destruct Hboth. by rewrite <-!has_column_spec.
Qed.

(** ** Count tables: order and size *)

Lemma nonempty_results_inv {D} (r r' : Results D) :
  nonempty_results r = Some r' → r' = r.
Proof. unfold nonempty_results. repeat case_match; congruence. Qed.

Section count_tables.
Context `{Pd.SortValues}.

Lemma sort_values_desc_sorted (counts : list (value * nat)) :
  Sorted (Pd.count_ge snd) (Pd.sort_values_desc counts).
Proof. apply Pd.sort_desc_sorted. Qed.

Lemma sort_values_desc_length (counts : list (value * nat)) :
  length (Pd.sort_values_desc counts) = length counts.
Proof. apply Permutation_length, Pd.sort_desc_perm. Qed.

Lemma used_market_sorted (ttl : string) (df : DataFrame) (col : option string)
    (t : Table (list (value * nat))) :
  used_market ttl df col = Some t → Sorted (Pd.count_ge snd) (data t).
Proof.
  unfold used_market. destruct col as [c|]; [|done].
  destruct (Pd.empty df); [done|].
  destruct (Pd.getitem df c) as [s|]; [|done].
  intros [= <-]. apply sort_values_desc_sorted.
Qed.

Lemma top_merchant_sorted (ttl : string) (df : DataFrame) (col : option string)
    (t : Table (list (value * nat))) :
  top_merchant ttl df col = Some t →
  Sorted (Pd.count_ge snd) (data t) ∧ length (data t) ≤ 15.
Proof.
  unfold top_merchant. destruct col as [c|]; [|done].
  destruct (Pd.empty df); [done|].
  destruct (Pd.getitem df c) as [s|]; [|done].
  intros [= <-]. split; [apply sort_values_desc_sorted|].
  cbn [data]. rewrite sort_values_desc_length, length_take. lia.
Qed.

End count_tables.

(** C6, as stated, fails: two markets used once each give a Used-Market
    table whose counts are 1 and 1, which is not strictly descending. *)
Lemma used_market_ties_not_strict :
  ∃ r t,
    generate_used_market_table two_markets two_markets = Some r ∧
    weekly r = Some t ∧
    snd <$> data t = [1; 1] ∧
    ¬ Sorted (λ a b : value * nat, b.2 < a.2) (data t).
Proof.
  eexists _, _. split; [vm_compute; reflexivity|].
  split; [reflexivity|]. split; [reflexivity|].
  intros Hs. apply Sorted_inv in Hs as [_ Hhd].
  apply HdRel_inv in Hhd. simpl in Hhd. lia.
Qed.

Example top_merchant_keeps_15 :
  ∃ r t,
    generate_top_merchant_table sixteen_merchants sixteen_merchants = Some r ∧
    all r = Some t ∧
    length (data t) = 15.
Proof. eexists _, _. split; [vm_compute; reflexivity|]. split; reflexivity. Qed.

(** C6, amended.  Every Used-Market table and every Top-Merchant table,
    weekly or over all records, lists its counts in non-increasing order
    (equal counts may follow each other), and a Top-Merchant table has
    at most 15 rows. *)
Theorem count_tables_sorted `{Pd.SortValues} (weekly_df daily_df : DataFrame) :
  (∀ r t, generate_used_market_table weekly_df daily_df = Some r →
     weekly r = Some t ∨ all r = Some t →
     Sorted (λ a b : value * nat, b.2 ≤ a.2) (data t)) ∧
  (∀ r t, generate_top_merchant_table weekly_df daily_df = Some r →
     weekly r = Some t ∨ all r = Some t →
     Sorted (λ a b : value * nat, b.2 ≤ a.2) (data t) ∧ length (data t) ≤ 15).
Proof.
  split.
  - intros r t Hr Ht. apply nonempty_results_inv in Hr. subst r.
    destruct Ht as [Ht|Ht]; cbn [weekly all] in Ht;
      apply (used_market_sorted _ _ _ _ Ht).
  - intros r t Hr Ht. apply nonempty_results_inv in Hr. subst r.
    destruct Ht as [Ht|Ht]; cbn [weekly all] in Ht;
      apply (top_merchant_sorted _ _ _ _ Ht).
Qed.

(** ** Distinct values and counts *)

Section unique.
Context {A : Type} `{EqDecision A}.

Lemma elem_of_unique (l : list A) (x : A) : x ∈ Pd.unique l ↔ x ∈ l.
Proof.
  induction l as [|y l IH]; [done|].
  cbn [Pd.unique]. rewrite !elem_of_cons, list_elem_of_filter, IH.
  destruct (decide (x = y)); tauto.
Qed.

Lemma NoDup_unique (l : list A) : NoDup (Pd.unique l).
Proof.
  induction l as [|y l IH]; [constructor|].
  cbn [Pd.unique]. constructor.
  - rewrite list_elem_of_filter. tauto.
  - by apply NoDup_filter.
Qed.

Lemma count_pos (l : list A) (x : A) : x ∈ l ↔ 0 < Pd.count x l.
Proof.
  unfold Pd.count. induction l as [|y l IH].
  - split; [by intros ?%elem_of_nil|simpl; lia].
  - rewrite elem_of_cons, filter_cons. case_decide; simpl.
    + split; [lia|]. intros _. left. done.
    + rewrite <-IH. split; [intros [->|?]; done|by right].
Qed.

End unique.

Lemma elem_of_dropna (s : Series) (v : value) : v ∈ Pd.dropna s ↔ Some v ∈ s.
Proof.
  unfold Pd.dropna. rewrite list_elem_of_omap. split.
  - intros (c & Hc & Hv). simpl in Hv. by subst c.
  - intros Hv. by exists (Some v).
Qed.

Lemma elem_of_column (df : DataFrame) (c : string) (v : value) :
  Some v ∈ ((λ r : row, r !! c) <$> rows df) ↔
  ∃ r, r ∈ rows df ∧ r !! c = Some v.
Proof.
  rewrite list_elem_of_fmap. split.
  - intros (r & Hv & Hr). by exists r.
  - intros (r & Hr & Hv). by exists r.
Qed.

Lemma count_column (df : DataFrame) (c : string) (v : value) :
  Pd.count v (Pd.dropna ((λ r : row, r !! c) <$> rows df)) =
  length (filter (λ r : row, r !! c = Some v) (rows df)).
Proof.
  unfold Pd.count, Pd.dropna. induction (rows df) as [|r l IH]; [done|].
  rewrite fmap_cons. cbn [omap list_omap]. rewrite (filter_cons _ r).
  destruct (r !! c) as [w|] eqn:Hr; cbn [id].
  - rewrite filter_cons. destruct (decide (w = v)) as [->|Hne].
    + rewrite decide_True by done. cbn [length]. by rewrite <-IH.
    + rewrite decide_False by congruence. done.
  - rewrite decide_False by done. done.
Qed.

(** ** Market worksheets *)

Lemma length_combined_data (left_data : list (value * nat))
    (merchant_rows : list MerchantRow) :
  length (combined_data left_data merchant_rows) =
  max (length left_data) (length merchant_rows) + 2.
Proof. unfold combined_data. by rewrite length_fmap, length_seq. Qed.

Lemma lookup_combined_data (left_data : list (value * nat))
    (merchant_rows : list MerchantRow) (i : nat) :
  i < max (length left_data) (length merchant_rows) + 2 →
  combined_data left_data merchant_rows !! i =
  Some (combined_row left_data merchant_rows i).
Proof.
  intros Hi. unfold combined_data.
  rewrite list_lookup_fmap, lookup_seq_lt by done. done.
Qed.

(** The row at position [i + 2], below the two header rows *)
Lemma combined_row_body (left_data : list (value * nat))
    (merchant_rows : list MerchantRow) (i : nat) :
  combined_row left_data merchant_rows (i + 2) =
  let '(l1, l2) :=
    match left_data !! i with
    | Some (display_name, count) => (display_name, int count)
    | None => (Str "", Str "")
    end in
  let '(r1, r2, r3, r4) :=
    match merchant_rows !! i with
    | Some merchant =>
        (mr_market merchant, Str (mr_tenant merchant),
         Str (mr_have_coupon_used merchant), Str "")
    | None => (Str "", Str "", Str "", Str "")
    end in
  mkSheetRow l1 l2 (Str "") r1 r2 r3 r4.
Proof.
  unfold combined_row.
  rewrite !bool_decide_eq_false_2 by lia.
  replace (i + 2 - 2) with i by lia. done.
Qed.

Lemma elem_of_dict_set {V} (d : list (string * V)) (k : string) (v : V)
    (e : string * V) :
  e ∈ dict_set d k v → e = (k, v) ∨ e ∈ d.
Proof.
  induction d as [|[k' v'] d IH]; cbn [dict_set].
  - intros ->%list_elem_of_singleton. by left.
  - case_bool_decide; rewrite !elem_of_cons; intuition.
Qed.

Section worksheets.
Context `{Pd.SortValues}.

Lemma market_worksheets_loop_inv (daily_df : DataFrame) (market_col : string)
    (markets : list value) (sheets : list (string * list SheetRow))
    (e : string * list SheetRow) :
  e ∈ market_worksheets_loop daily_df market_col markets sheets →
  e ∈ sheets ∨
  ∃ market, market ∈ markets ∧
    market_worksheet daily_df market_col market = Ok (Some e).
Proof.
  revert sheets. induction markets as [|market rest IH]; intros sheets.
  - cbn. by left.
  - cbn [market_worksheets_loop].
    destruct (market_worksheet daily_df market_col market)
      as [[[name sheet]|]|] eqn:Hsheet.
    + intros [He|(m & Hm & Hok)]%IH.
      * apply elem_of_dict_set in He as [->|He]; [|by left].
        right. exists market. split; [left|done].
      * right. exists m. split; [by right|done].
    + intros [He|(m & Hm & Hok)]%IH; [by left|].
      right. exists m. split; [by right|done].
    + by left.
Qed.

(** Every sheet handed back was built for a market of the ledger from
    that market's two blocks. *)
Lemma generate_market_worksheets_inv (daily_df : DataFrame)
    (mapping : gmap string string) (name : string) (sheet : list SheetRow) :
  (name, sheet) ∈ generate_market_worksheets daily_df mapping →
  ∃ market_col market left_data merchant_rows,
    worksheet_market_col daily_df = Some market_col ∧
    "ShopName" ∈ columns daily_df ∧
    (∃ r, r ∈ rows daily_df ∧ r !! market_col = Some market) ∧
    left_block (Pd.where_eq daily_df market_col market) = Ok left_data ∧
    right_block daily_df (Pd.where_eq daily_df market_col market)
                market_col market = Ok merchant_rows ∧
    name = sheet_name market ∧
    sheet = combined_data left_data merchant_rows.
Proof.
  unfold generate_market_worksheets.
  destruct (worksheet_market_col daily_df) as [market_col|] eqn:Hcol;
    [|by intros ?%elem_of_nil].
  destruct (Pd.has_column daily_df "ShopName") eqn:Hshop; simpl;
    [|by intros ?%elem_of_nil].
  apply has_column_spec in Hshop.
  unfold Pd.getitem.
  destruct (Pd.has_column daily_df market_col); [|by intros ?%elem_of_nil].
  intros [?%elem_of_nil|(market & Hm & Hok)]%market_worksheets_loop_inv; [done|].
  apply elem_of_unique, elem_of_dropna, elem_of_column in Hm.
  unfold market_worksheet in Hok.
  destruct (Pd.empty _); [done|].
  destruct (left_block _) as [left_data|] eqn:Hleft; [|done].
  destruct (right_block _ _ _ _) as [merchant_rows|] eqn:Hright; [|done].
  injection Hok as <- <-.
  by exists market_col, market, left_data, merchant_rows.
Qed.

(** C9. Every market worksheet has two header rows followed by as many
    rows as the longer of its two blocks; below the headers, row [i]
    shows entry [i] of each block that has one, and only empty strings
    in the columns of a block that has run out. *)
Theorem combined_table_shape (daily_df : DataFrame)
    (mapping : gmap string string) (name : string) (sheet : list SheetRow) :
  (name, sheet) ∈ generate_market_worksheets daily_df mapping →
  ∃ market_col market left_data merchant_rows,
    worksheet_market_col daily_df = Some market_col ∧
    left_block (Pd.where_eq daily_df market_col market) = Ok left_data ∧
    right_block daily_df (Pd.where_eq daily_df market_col market)
                market_col market = Ok merchant_rows ∧
    length sheet = max (length left_data) (length merchant_rows) + 2 ∧
    ∀ i, i < max (length left_data) (length merchant_rows) →
      ∃ row, sheet !! (i + 2) = Some row ∧
        (∀ tenant count, left_data !! i = Some (tenant, count) →
           left_tenant row = tenant ∧ left_count row = int count) ∧
        (length left_data ≤ i →
           left_tenant row = Str "" ∧ left_count row = Str "") ∧
        (∀ merchant, merchant_rows !! i = Some merchant →
           right_market row = mr_market merchant ∧
           right_tenant row = Str (mr_tenant merchant) ∧
           right_flag row = Str (mr_have_coupon_used merchant) ∧
           right_n_count row = Str "") ∧
        (length merchant_rows ≤ i →
           right_market row = Str "" ∧ right_tenant row = Str "" ∧
           right_flag row = Str "" ∧ right_n_count row = Str "").
Proof.
  intros (market_col & market & left_data & merchant_rows & Hcol & _ & _ &
          Hleft & Hright & _ & ->)%generate_market_worksheets_inv.
  exists market_col, market, left_data, merchant_rows.
  split; [done|]. split; [done|]. split; [done|].
  split; [apply length_combined_data|].
  intros i Hi. eexists. split; [apply lookup_combined_data; lia|].
  rewrite combined_row_body.
  split; [|split; [|split]].
  - intros tenant count ->. by destruct (merchant_rows !! i).
  - intros Hlen. rewrite (lookup_ge_None_2 left_data i) by done.
    by destruct (merchant_rows !! i).
  - intros merchant ->. by destruct (left_data !! i) as [[??]|].
  - intros Hlen. rewrite (lookup_ge_None_2 merchant_rows i) by done.
    by destruct (left_data !! i) as [[??]|].
Qed.

Lemma py_sorted_perm (xs ys : list value) : py_sorted xs = Ok ys → ys ≡ₚ xs.
Proof.
  unfold py_sorted. case_match; [|done].
  intros [= <-]. apply merge_sort_Permutation.
Qed.

Lemma elem_of_where_eq (df : DataFrame) (c : string) (v : value) (r : row) :
  r ∈ rows (Pd.where_eq df c v) ↔ r ∈ rows df ∧ r !! c = Some v.
Proof. unfold Pd.where_eq. cbn [rows]. rewrite list_elem_of_filter. tauto. Qed.

(** The tenants of a market: the distinct merchant cells of its rows *)
Lemma elem_of_market_tenants (df : DataFrame) (c : string) (market tenant : value) :
  tenant ∈ Pd.unique (Pd.dropna
             ((λ r : row, r !! "ShopName") <$> rows (Pd.where_eq df c market))) ↔
  ∃ r, r ∈ rows df ∧ r !! c = Some market ∧ r !! "ShopName" = Some tenant.
Proof.
  rewrite elem_of_unique, elem_of_dropna, elem_of_column.
  split.
  - intros (r & [Hr Hm]%elem_of_where_eq & Hs). by exists r.
  - intros (r & Hr & Hm & Hs). exists r. by rewrite elem_of_where_eq.
Qed.

(** The right block lists each tenant of the market once, and flags
    every one of them with Y. *)
Lemma right_block_inv (daily_df : DataFrame) (market_col : string)
    (market : value) (merchant_rows : list MerchantRow) :
  right_block daily_df (Pd.where_eq daily_df market_col market)
              market_col market = Ok merchant_rows →
  ∃ tenants,
    NoDup tenants ∧
    (∀ tenant, tenant ∈ tenants ↔
       ∃ r, r ∈ rows daily_df ∧ r !! market_col = Some market ∧
            r !! "ShopName" = Some tenant) ∧
    merchant_rows =
      (λ tenant, mkMerchantRow market (alias_display tenant) "Y") <$> tenants.
Proof.
  unfold right_block, Pd.getitem.
  destruct (Pd.has_column _ "ShopName"); [|done]. simpl.
  destruct (py_sorted _) as [tenants|] eqn:Hsorted; [|done]. simpl.
  intros [= <-]. apply py_sorted_perm in Hsorted.
  exists tenants. split; [|split].
  - rewrite Hsorted. apply NoDup_unique.
  - intros tenant. rewrite Hsorted. apply elem_of_market_tenants.
  - apply list_fmap_ext. intros i tenant Hi.
    rewrite bool_decide_eq_true_2; [done|].
    rewrite <-Hsorted. by eapply list_elem_of_lookup_2.
Qed.

Lemma no_flag_N (market : value) (tenants : list value) :
  filter (λ m, mr_have_coupon_used m = "N")
         ((λ tenant, mkMerchantRow market (alias_display tenant) "Y") <$> tenants)
  = [].
Proof.
  induction tenants as [|t l IH]; [done|].
  rewrite fmap_cons, filter_cons. by rewrite decide_False.
Qed.

(** C4. In every market worksheet the merchant rows of the right block
    are the tenants seen in that market, one row each.  The flag of a
    row is Y exactly when its tenant has a row in that market, and, the
    tenants being taken from those same rows, every flag is Y; the cell
    that counts the N flags on the second header row holds 0. *)
Theorem coverage_flags_all_yes (daily_df : DataFrame)
    (mapping : gmap string string) (name : string) (sheet : list SheetRow) :
  (name, sheet) ∈ generate_market_worksheets daily_df mapping →
  ∃ market_col market tenants,
    worksheet_market_col daily_df = Some market_col ∧
    NoDup tenants ∧
    (∀ tenant, tenant ∈ tenants ↔
       ∃ r, r ∈ rows daily_df ∧ r !! market_col = Some market ∧
            r !! "ShopName" = Some tenant) ∧
    (∀ i tenant, tenants !! i = Some tenant →
       ∃ row, sheet !! (i + 2) = Some row ∧
         right_market row = market ∧
         right_tenant row = Str (alias_display tenant) ∧
         (right_flag row = Str "Y" ↔
            ∃ r, r ∈ rows daily_df ∧ r !! market_col = Some market ∧
                 r !! "ShopName" = Some tenant) ∧
         right_flag row = Str "Y") ∧
    (∀ i row, length tenants ≤ i → sheet !! (i + 2) = Some row →
       right_flag row = Str "") ∧
    ∃ header, sheet !! 1 = Some header ∧
      right_flag header = Str "Have Coupon Used" ∧
      right_n_count header = int 0.
Proof.
  intros (market_col & market & left_data & merchant_rows & Hcol & _ & _ &
          Hleft & Hright & _ & ->)%generate_market_worksheets_inv.
  apply right_block_inv in Hright as (tenants & Hnodup & Htenants & ->).
  exists market_col, market, tenants.
  split; [done|]. split; [done|]. split; [done|]. split; [|split].
  - intros i tenant Hi.
    assert (i < length tenants) by (by eapply lookup_lt_Some).
    eexists. split.
    { apply lookup_combined_data. rewrite length_fmap. lia. }
    rewrite combined_row_body, list_lookup_fmap, Hi. cbn [fmap option_fmap option_map].
    destruct (left_data !! i) as [[??]|]; cbn [right_market right_tenant right_flag];
      (split; [done|]; split; [done|]; split; [|done]);
      (split; [intros _; apply Htenants; by eapply list_elem_of_lookup_2|done]).
  - intros i row Hlen Hrow.
    apply lookup_lt_Some in Hrow as Hlt. rewrite length_combined_data in Hlt.
    rewrite lookup_combined_data in Hrow by lia.
    injection Hrow as <-.
    rewrite combined_row_body, list_lookup_fmap.
    rewrite (lookup_ge_None_2 tenants i) by done.
    by destruct (left_data !! i) as [[??]|].
  - eexists. split; [apply lookup_combined_data; lia|].
    unfold combined_row. rewrite bool_decide_eq_false_2 by lia.
    rewrite bool_decide_eq_true_2 by done.
    rewrite no_flag_N. done.
Qed.

End worksheets.

(** ** Counts by client *)

Lemma traverse_Forall2 {A B} (f : A → result B) (l : list A) (ys : list B) :
  traverse f l = Ok ys → Forall2 (λ x y, f x = Ok y) l ys.
Proof.
  revert ys. induction l as [|x l IH]; intros ys; cbn [traverse].
  - intros [= <-]. constructor.
  - destruct (f x) as [y|] eqn:Hx; [|done]. simpl.
    destruct (traverse f l) as [ys'|]; [|done]. simpl.
    intros [= <-]. constructor; [done|]. by apply IH.
Qed.

Lemma groupby_size_keys (s : Series) :
  (Pd.groupby_size s).*1 = merge_sort Pd.value_le (Pd.unique (Pd.dropna s)).
Proof.
  unfold Pd.groupby_size. rewrite <-list_fmap_compose.
  rewrite <-(list_fmap_id (merge_sort _ _)) at 2. done.
Qed.

Lemma groupby_size_counts (s : Series) :
  (Pd.groupby_size s).*2 =
  (λ k, Pd.count k (Pd.dropna s)) <$> (Pd.groupby_size s).*1.
Proof.
  rewrite groupby_size_keys. unfold Pd.groupby_size.
  by rewrite <-list_fmap_compose.
Qed.

Lemma distributed_rows (R : value → string → Prop) (count : value → nat)
    (keys : list value) (names : list string) :
  Forall2 R keys names →
  Forall2 (λ k d, R k (Client d) ∧ Used d = count k ∧
                  Unused d = 0 ∧ Total d = Used d)
          keys
          (zip_with (λ c used, mkDistributed c used 0 used) names (count <$> keys)).
Proof.
  induction 1 as [|k name keys names Hk _ IH]; [constructor|].
  rewrite fmap_cons. cbn [zip_with]. by constructor.
Qed.

(** C5, as stated, fails: the Client column shows short names, and on a
    batch of two client names that share the abbreviation SJS the table
    has two rows labelled SJS with Used 1 each, while two batch rows
    belong to the client SJS. *)
Lemma distributed_coupon_not_per_short_name :
  ∃ t, generate_distributed_coupon_table shared_abbreviation = Some t ∧
    data t = [mkDistributed "SJS" 1 0 1; mkDistributed "SJS" 1 0 1] ∧
    ¬ ∀ d, d ∈ data t →
        Used d = length (filter (λ r : row,
                           get_client_short_name (r !! "client_name")
                           = Ok (Client d))
                         (rows shared_abbreviation)).
Proof.
  eexists. split; [reflexivity|]. split; [reflexivity|].
  intros Hused. specialize (Hused (mkDistributed "SJS" 1 0 1)).
  cbn [data] in Hused. specialize (Hused ltac:(left)).
  vm_compute in Hused. discriminate Hused.
Qed.

(** C5, amended.  The Distributed-Coupon table has one row per distinct
    client name of the batch.  The row of a client name is labelled
    with the short name derived from it, its Used count is the number
    of batch rows carrying that client name, its Unused count is 0 and
    its Total equals its Used count. *)
Theorem distributed_coupon_rows (weekly_df : DataFrame)
    (t : Table (list Distributed)) :
  generate_distributed_coupon_table weekly_df = Some t →
  ∃ clients : list value,
    NoDup clients ∧
    (∀ c, c ∈ clients ↔
       ∃ r, r ∈ rows weekly_df ∧ r !! "client_name" = Some c) ∧
    Forall2 (λ c d,
        get_client_short_name (Some c) = Ok (Client d) ∧
        Used d = length (filter (λ r : row, r !! "client_name" = Some c)
                                (rows weekly_df)) ∧
        Unused d = 0 ∧
        Total d = Used d)
      clients (data t).
Proof.
  unfold generate_distributed_coupon_table.
  destruct (Pd.empty weekly_df); [done|].
  destruct (Pd.has_column weekly_df "client_name") eqn:Hcol; [|done].
  cbn [orb negb]. unfold Pd.getitem. rewrite Hcol. simpl.
  set (s := (λ r : row, r !! "client_name") <$> rows weekly_df).
  destruct (traverse _ _) as [names|] eqn:Hnames; [|done]. simpl.
  intros [= <-]. cbn [data].
  apply traverse_Forall2 in Hnames.
  exists (Pd.groupby_size s).*1. split; [|split].
  - rewrite groupby_size_keys, merge_sort_Permutation. apply NoDup_unique.
  - intros c.
    rewrite groupby_size_keys, merge_sort_Permutation.
    rewrite elem_of_unique, elem_of_dropna. apply elem_of_column.
  - rewrite groupby_size_counts.
    eapply Forall2_impl;
      [apply (distributed_rows _ (λ k, Pd.count k (Pd.dropna s)) _ _ Hnames)|].
    intros c d (Hname & Hused & Hunused & Htotal).
    split; [done|]. split; [|done].
    rewrite Hused. apply count_column.
Qed.

Lemma distributed_coupon_rows_witness :
  ∃ t, generate_distributed_coupon_table shared_abbreviation = Some t ∧
    ∃ clients : list value,
      Forall2 (λ c d,
          get_client_short_name (Some c) = Ok (Client d) ∧
          Used d = length (filter (λ r : row, r !! "client_name" = Some c)
                                  (rows shared_abbreviation)) ∧
          Unused d = 0 ∧
          Total d = Used d)
        clients (data t).
Proof.
  destruct (generate_distributed_coupon_table shared_abbreviation)
    as [t|] eqn:Ht.
  - exists t. split; [reflexivity|].
    destruct (distributed_coupon_rows _ _ Ht) as (clients & _ & _ & Hrows).
    by exists clients.
  - vm_compute in Ht. discriminate Ht.
Defined.

(** ** The order on keys *)

Global Instance value_le_total : base.Total Pd.value_le.
Proof.
  intros [s|x] [t|y]; simpl; try tauto.
  - apply String.le_total.
  - lia.
Qed.

Global Instance value_le_trans : Transitive Pd.value_le.
Proof.
  intros [s|x] [t|y] [u|z]; simpl; try tauto.
  - apply (transitivity (R := String.le)).
  - lia.
Qed.

Global Instance value_le_antisym : AntiSymm (=) Pd.value_le.
Proof.
  intros [s|x] [t|y]; simpl; try tauto.
  - intros ??. f_equal. by apply (anti_symm String.le).
  - intros ??. f_equal. lia.
Qed.

Lemma py_sorted_ok (xs : list value) :
  Forall (λ v, is_str v = true) xs → py_sorted xs = Ok (merge_sort Pd.value_le xs).
Proof.
  intros Hstr. unfold py_sorted.
  replace (forallb is_str xs) with true; [done|].
  symmetry. induction Hstr as [|v l Hv _ IH]; [done|].
  cbn [forallb]. by rewrite Hv, IH.
Qed.

Lemma py_sorted_sorted (xs ys : list value) :
  py_sorted xs = Ok ys → StronglySorted Pd.value_le ys.
Proof.
  unfold py_sorted. case_match; [|done].
  intros [= <-]. apply (StronglySorted_merge_sort _).
Qed.

(** ** Grouping by two keys *)

Lemma elem_of_key_pairs (df : DataFrame) (c1 c2 : string) (m s : value) :
  (m, s) ∈ Pd.key_pairs df c1 c2 ↔
  ∃ r, r ∈ rows df ∧ r !! c1 = Some m ∧ r !! c2 = Some s.
Proof.
  unfold Pd.key_pairs. rewrite list_elem_of_omap. split.
  - intros (r & Hr & Hk). exists r. split; [done|].
    destruct (r !! c1) as [k1|]; [|done].
    destruct (r !! c2) as [k2|]; [|done].
    simpl in Hk. by injection Hk as -> ->.
  - intros (r & Hr & H1 & H2). exists r. by rewrite H1, H2.
Qed.

Lemma count_key_pairs (df : DataFrame) (c1 c2 : string) (m s : value) :
  Pd.count (m, s) (Pd.key_pairs df c1 c2) =
  length (filter (λ r : row, r !! c1 = Some m ∧ r !! c2 = Some s) (rows df)).
Proof.
  unfold Pd.count, Pd.key_pairs. induction (rows df) as [|r l IH]; [done|].
  cbn [omap list_omap]. rewrite (filter_cons _ r).
  destruct (r !! c1) as [k1|] eqn:H1; cbn [mbind option_bind].
  - destruct (r !! c2) as [k2|] eqn:H2; cbn [mbind option_bind].
    + rewrite filter_cons.
      destruct (decide ((k1, k2) = (m, s))) as [[= -> ->]|Hne].
      * rewrite decide_True by done. cbn [length]. by rewrite IH.
      * rewrite decide_False by (intros [??]; congruence). done.
    + rewrite decide_False by (intros [??]; congruence). done.
  - rewrite decide_False by (intros [??]; congruence). done.
Qed.

Lemma groupby2_size_inv (df : DataFrame) (c1 c2 : string)
    (sizes : list (value * value * nat)) :
  Pd.groupby2_size df c1 c2 = Ok sizes →
  NoDup sizes.*1 ∧
  (∀ k, k ∈ sizes.*1 ↔ k ∈ Pd.key_pairs df c1 c2) ∧
  (∀ e, e ∈ sizes → e.2 = Pd.count e.1 (Pd.key_pairs df c1 c2)).
Proof.
  unfold Pd.groupby2_size. case_match; [|done]. intros [= <-].
  rewrite <-list_fmap_compose.
  rewrite (list_fmap_ext _ id) by done.
  rewrite list_fmap_id. split; [|split].
  - rewrite merge_sort_Permutation. apply NoDup_unique.
  - intros k. by rewrite merge_sort_Permutation, elem_of_unique.
  - intros e (k & -> & _)%list_elem_of_fmap. done.
Qed.

Lemma groupby_size_inv (s : Series) (e : value * nat) :
  e ∈ Pd.groupby_size s → e.2 = Pd.count e.1 (Pd.dropna s).
Proof. unfold Pd.groupby_size. by intros (k & -> & _)%list_elem_of_fmap. Qed.

Lemma filter_fmap {A B} (f : A → B) (P : B → Prop) `{∀ y, Decision (P y)}
    (l : list A) :
  filter P (f <$> l) = f <$> filter (λ x, P (f x)) l.
Proof.
  induction l as [|x l IH]; [done|].
  rewrite fmap_cons, !filter_cons. case_decide; [|done].
  by rewrite fmap_cons, IH.
Qed.

Lemma Permutation_fmap_inv {A B} (f : A → B) (k : list B) (l : list A) :
  k ≡ₚ f <$> l → ∃ l', k = f <$> l' ∧ l ≡ₚ l'.
Proof. apply Permutation_map_inv. Qed.

Lemma Sorted_fmap_inv {A B} (f : A → B) (R : relation B) (l : list A) :
  Sorted R (f <$> l) → Sorted (λ x y, R (f x) (f y)) l.
Proof.
  induction l as [|x l IH]; [constructor|].
  rewrite fmap_cons. intros [Hl Hhd]%Sorted_inv.
  constructor; [by apply IH|].
  destruct l as [|y l]; [constructor|].
  rewrite fmap_cons in Hhd. apply HdRel_inv in Hhd. by constructor.
Qed.

Lemma traverse_ok {A B} (f : A → result B) (l : list A) :
  Forall (λ x, ∃ y, f x = Ok y) l → ∃ ys, traverse f l = Ok ys.
Proof.
  induction 1 as [|x l [y Hy] _ [ys Hys]]; [by exists []|].
  exists (y :: ys). cbn [traverse]. by rewrite Hy, Hys.
Qed.

(** ** Pivot worksheet *)

Lemma pivot_market_col_in (df : DataFrame) (market_col : string) :
  pivot_market_col df = Some market_col → market_col ∈ columns df.
Proof.
  unfold pivot_market_col.
  repeat (case_match; [intros [= <-]; by apply has_column_spec|]). done.
Qed.

Section pivot.
Context `{Pd.SortValues}.

Lemma pivot_block_inv (market_totals : list (value * nat))
    (tenant_data : list (value * value * nat)) (market : value)
    (block : list PivotRow) :
  pivot_block market_totals tenant_data market = Ok block →
  ∃ total tenants,
    (market, total) ∈ market_totals ∧
    tenants ≡ₚ filter (λ t : value * value * nat, t.1.1 = market) tenant_data ∧
    Sorted (Pd.count_ge snd) tenants ∧
    block = mkPivotRow market (Str "") total ::
            ((λ t : value * value * nat, mkPivotRow (Str "") t.1.2 t.2) <$> tenants).
Proof.
  unfold pivot_block.
  destruct (filter _ market_totals) as [|[k total] rest] eqn:Hf; [done|].
  intros [= <-].
  assert ((k, total) ∈ filter (λ t : value * nat, t.1 = market) market_totals)
    as [Hk Hin]%list_elem_of_filter by (rewrite Hf; left).
  simpl in Hk. subst k.
  eexists total, _. split; [done|].
  split; [apply Pd.sort_desc_perm|]. split; [apply Pd.sort_desc_sorted|done].
Qed.

Lemma pivot_block_ok (market_totals : list (value * nat))
    (tenant_data : list (value * value * nat)) (market : value) :
  market ∈ market_totals.*1 →
  ∃ block, pivot_block market_totals tenant_data market = Ok block.
Proof.
  intros ([k total] & Hk & Hin)%list_elem_of_fmap. simpl in Hk. subst k.
  unfold pivot_block.
  destruct (filter _ market_totals) as [|[k' total'] rest] eqn:Hf; [|eauto].
  assert ((market, total) ∈ filter (λ t : value * nat, t.1 = market) market_totals)
    as Hin' by (by apply list_elem_of_filter).
  rewrite Hf in Hin'. by apply elem_of_nil in Hin'.
Qed.

(** The tenant rows of one market, traced back to the ledger *)
Lemma market_tenants_inv (df : DataFrame) (market_col : string)
    (sizes tenants0 : list (value * value * nat)) (market : value) :
  Pd.groupby2_size df market_col "ShopName" = Ok sizes →
  tenants0 ≡ₚ
    filter (λ t : value * value * nat, t.1.1 = market)
      ((λ t : value * value * nat, (t.1.1, alias_tenant t.1.2, t.2)) <$> sizes) →
  Sorted (Pd.count_ge snd) tenants0 →
  ∃ tenants : list (value * nat),
    (λ t : value * value * nat, mkPivotRow (Str "") t.1.2 t.2) <$> tenants0
      = tenant_row <$> tenants ∧
    NoDup tenants.*1 ∧
    (∀ t, t ∈ tenants ↔
       (∃ r, r ∈ rows df ∧ r !! market_col = Some market ∧
             r !! "ShopName" = Some t.1) ∧
       t.2 = length (filter (λ r : row, r !! market_col = Some market ∧
                                        r !! "ShopName" = Some t.1) (rows df))) ∧
    Sorted (Pd.count_ge snd) tenants.
Proof.
  intros (Hnodup & Hkeys & Hcount)%groupby2_size_inv Hperm Hsorted.
  rewrite filter_fmap in Hperm. cbn [fst] in Hperm.
  apply Permutation_fmap_inv in Hperm as (group & -> & Hgroup).
  assert (Hin : ∀ x, x ∈ group ↔ x ∈ sizes ∧ x.1.1 = market).
  { intros x. rewrite <-Hgroup, list_elem_of_filter. tauto. }
  exists ((λ x : value * value * nat, (x.1.2, x.2)) <$> group).
  split; [|split; [|split]].
  - rewrite <-!list_fmap_compose. done.
  - rewrite <-list_fmap_compose. apply NoDup_fmap_2_strong.
    + intros [[m1 s1] n1] [[m2 s2] n2] [H1 Hm1]%Hin [H2 Hm2]%Hin Heq.
      simpl in *. subst.
      apply Hcount in H1, H2. simpl in *. by subst.
    + rewrite <-Hgroup. apply NoDup_filter. by eapply NoDup_fmap_1.
  - intros [s n]. rewrite list_elem_of_fmap. cbn [fst snd]. split.
    + intros ([[m s'] n'] & [= -> ->] & [Hx Hm]%Hin). simpl in Hm. subst m.
      apply Hcount in Hx as Hn. simpl in Hn.
      rewrite count_key_pairs in Hn. split; [|done].
      apply elem_of_key_pairs, Hkeys, list_elem_of_fmap.
      by exists (market, s', n').
    + intros [Hr ->].
      apply elem_of_key_pairs, Hkeys, list_elem_of_fmap in Hr
        as ([[m s'] n] & [= <- <-] & Hx).
      exists (market, s, n). split; [|by apply Hin].
      apply Hcount in Hx. simpl in *. by rewrite Hx, count_key_pairs.
  - apply Sorted_fmap_inv in Hsorted.
    eapply Sorted_fmap; [|exact Hsorted]. done.
Qed.

(** C7. For a ledger with a market column and a merchant column the
    pivot worksheet, when produced, is a sequence of blocks, one per
    market that occurs in the ledger, the markets in strictly ascending
    order.  A block opens with the row holding the market, an empty
    tenant and the number of ledger rows of that market; it continues
    with one row per merchant of that market, each with an empty market
    field, the merchant's display name and its number of rows, the
    counts non-increasing.  The worksheet is produced whenever the
    market cells are all text. *)
Theorem pivot_blocks (daily_df : DataFrame) (market_col : string) :
  pivot_market_col daily_df = Some market_col →
  "ShopName" ∈ columns daily_df →
  ((∀ r v, r ∈ rows daily_df → r !! market_col = Some v → is_str v = true) →
   is_Some (generate_pivot_worksheet daily_df)) ∧
  ∀ pivot, generate_pivot_worksheet daily_df = Some pivot →
    ∃ (markets : list value) (blocks : list (list PivotRow)),
      pivot = concat blocks ∧
      StronglySorted Pd.value_le markets ∧
      NoDup markets ∧
      (∀ m, m ∈ markets ↔
         ∃ r, r ∈ rows daily_df ∧ r !! market_col = Some m) ∧
      Forall2 (λ market block,
          ∃ tenants : list (value * nat),
            block =
              market_total_row market
                (length (filter (λ r : row, r !! market_col = Some market)
                                (rows daily_df)))
              :: (tenant_row <$> tenants) ∧
            NoDup tenants.*1 ∧
            (∀ t, t ∈ tenants ↔
               (∃ r, r ∈ rows daily_df ∧ r !! market_col = Some market ∧
                     r !! "ShopName" = Some t.1) ∧
               t.2 = length (filter (λ r : row, r !! market_col = Some market ∧
                                                r !! "ShopName" = Some t.1)
                                    (rows daily_df))) ∧
            Sorted (Pd.count_ge snd) tenants)
        markets blocks.
Proof.
  intros Hcol Hshop.
  pose proof (pivot_market_col_in _ _ Hcol) as Hmc.
  unfold generate_pivot_worksheet. rewrite Hcol.
  apply has_column_spec in Hshop as Hshop'. rewrite Hshop'. cbn [negb].
  destruct (Pd.groupby2_size daily_df market_col "ShopName") as [sizes|] eqn:Hsizes.
  2:{ unfold Pd.groupby2_size in Hsizes.
      apply has_column_spec in Hmc. by rewrite Hmc, Hshop' in Hsizes. }
  rewrite (getitem_ok _ _ Hmc). cbn [mbind result_bind].
  set (s := (λ r : row, r !! market_col) <$> rows daily_df).
  assert (Hmarkets : ∀ m, m ∈ Pd.unique (Pd.groupby_size s).*1 ↔
            ∃ r, r ∈ rows daily_df ∧ r !! market_col = Some m).
  { intros m. rewrite elem_of_unique, groupby_size_keys, merge_sort_Permutation.
    rewrite elem_of_unique, elem_of_dropna. apply elem_of_column. }
  split.
  - intros Hstr. rewrite py_sorted_ok.
    2:{ apply Forall_forall. intros m (r & Hr & Hm)%Hmarkets. eauto. }
    cbn [mbind result_bind].
    destruct (traverse_ok
      (pivot_block (Pd.groupby_size s)
         ((λ t : value * value * nat, (t.1.1, alias_tenant t.1.2, t.2)) <$> sizes))
      (merge_sort Pd.value_le (Pd.unique (Pd.groupby_size s).*1)))
      as [blocks Hblocks].
    { apply Forall_forall. intros m Hm. apply pivot_block_ok.
      rewrite merge_sort_Permutation in Hm. by apply elem_of_unique. }
    rewrite Hblocks. by eexists.
  - intros pivot.
    destruct (py_sorted _) as [markets|] eqn:Hsorted; [|done].
    cbn [mbind result_bind].
    destruct (traverse _ markets) as [blocks|] eqn:Hblocks; [|done].
    intros [= <-]. exists markets, blocks.
    pose proof (py_sorted_perm _ _ Hsorted) as Hperm.
    split; [done|]. split; [by eapply py_sorted_sorted|].
    split; [rewrite Hperm; apply NoDup_unique|].
    split; [intros m; rewrite Hperm; apply Hmarkets|].
    apply traverse_Forall2 in Hblocks.
    eapply Forall2_impl; [exact Hblocks|].
    intros market block
      (total & tenants0 & Htotal & Htenants & Hdesc & ->)%pivot_block_inv.
    destruct (market_tenants_inv _ _ _ _ _ Hsizes Htenants Hdesc)
      as (tenants & Hrows & Hnodup & Hin & Hsorted').
    exists tenants. split; [|done].
    rewrite Hrows. unfold market_total_row. do 2 f_equal.
    apply groupby_size_inv in Htotal. simpl in Htotal.
    rewrite Htotal. apply count_column.
Qed.

End pivot.

Example pivot_example :
  generate_pivot_worksheet sample_ledger =
  Some [mkPivotRow (Str "marketX") (Str "") 3;
        mkPivotRow (Str "") (Str "merchantA") 2;
        mkPivotRow (Str "") (Str "merchantB") 1].
Proof. reflexivity. Qed.

Lemma pivot_blocks_witness :
  pivot_market_col sample_ledger = Some "Market" ∧
  "ShopName" ∈ columns sample_ledger ∧
  ∃ pivot markets blocks,
    generate_pivot_worksheet sample_ledger = Some pivot ∧
    pivot = concat blocks ∧
    StronglySorted Pd.value_le markets ∧
    length markets = length blocks.
Proof.
  assert (Hcol : pivot_market_col sample_ledger = Some "Market") by reflexivity.
  assert (Hshop : "ShopName" ∈ columns sample_ledger)
    by (apply has_column_spec; reflexivity).
  split; [exact Hcol|]. split; [exact Hshop|].
  destruct (generate_pivot_worksheet sample_ledger) as [pivot|] eqn:Hpivot.
  - destruct (proj2 (pivot_blocks sample_ledger "Market" Hcol Hshop) pivot Hpivot)
      as (markets & blocks & Hconcat & Hsorted & _ & _ & Hblocks).
    exists pivot, markets, blocks.
    split; [reflexivity|]. split; [exact Hconcat|]. split; [exact Hsorted|].
    exact (Forall2_length _ _ _ Hblocks).
  - vm_compute in Hpivot. discriminate Hpivot.
Defined.

(** ** Witnesses for the market worksheets *)

Lemma combined_table_shape_witness :
  ∃ name sheet (left_data : list (value * nat)) (merchant_rows : list MerchantRow),
    (name, sheet) ∈ generate_market_worksheets sample_ledger ∅ ∧
    length sheet = max (length left_data) (length merchant_rows) + 2.
Proof.
  assert (∃ name sheet,
            (name, sheet) ∈ generate_market_worksheets sample_ledger ∅)
    as (name & sheet & Hin).
  { eexists _, _. vm_compute. left. }
  destruct (combined_table_shape sample_ledger ∅ name sheet Hin)
    as (market_col & market & left_data & merchant_rows & _ & _ & _ & Hlen & _).
  by exists name, sheet, left_data, merchant_rows.
Defined.

Lemma coverage_flags_all_yes_witness :
  ∃ name sheet header,
    (name, sheet) ∈ generate_market_worksheets sample_ledger ∅ ∧
    sheet !! 1 = Some header ∧
    right_n_count header = int 0.
Proof.
  assert (∃ name sheet,
            (name, sheet) ∈ generate_market_worksheets sample_ledger ∅)
    as (name & sheet & Hin).
  { eexists _, _. vm_compute. left. }
  destruct (coverage_flags_all_yes sample_ledger ∅ name sheet Hin)
    as (market_col & market & tenants & _ & _ & _ & _ & _ &
        header & Hheader & _ & Hn).
  by exists name, sheet, header.
Defined.

(** ** The Coupon-Purchased table *)

Lemma size_of_groupby2 (df : DataFrame) (c1 c2 : string)
    (sizes : list (value * value * nat)) (k : value * value) :
  Pd.groupby2_size df c1 c2 = Ok sizes →
  Pd.size_of sizes k = Pd.count k (Pd.key_pairs df c1 c2).
Proof.
  intros (_ & Hkeys & Hcount)%groupby2_size_inv. unfold Pd.size_of.
  destruct (list_find _ sizes) as [[i [k' n]]|] eqn:Hfind.
  - apply list_find_Some in Hfind as (Hi & Hk & _). simpl in Hk. subst k'.
    apply list_elem_of_lookup_2, Hcount in Hi. done.
  - apply list_find_None in Hfind.
    destruct (Pd.count k (Pd.key_pairs df c1 c2)) as [|n] eqn:Hn; [done|].
    assert (k ∈ Pd.key_pairs df c1 c2) as Hin by (apply count_pos; lia).
    apply Hkeys, list_elem_of_fmap in Hin as (e & -> & He).
    rewrite Forall_forall in Hfind. by destruct (Hfind e He).
Qed.

Lemma zip_fmap_self {A B} (f : A → B) (l : list A) :
  zip l (f <$> l) = (λ x, (x, f x)) <$> l.
Proof. induction l as [|x l IH]; [done|]. cbn. by rewrite IH. Qed.

Lemma Forall2_zip_fmap {A B C} (R : A → B → Prop) (g : A → C)
    (l : list A) (k : list B) :
  Forall2 R l k →
  Forall2 (λ x e, R x e.1 ∧ e.2 = g x) l (zip k (g <$> l)).
Proof. induction 1; cbn; by constructor. Qed.

(** What a Coupon-Purchased table holds when one is returned: one entry
    per client name of the batch, labelled with its short name, the
    labels pairwise distinct; in the entry of a client, under each
    coupon value of the batch, the number of batch rows with that
    client name and that value.  Rows with a missing client name or a
    missing value are not counted. *)
Lemma coupon_purchased_cells (weekly_df : DataFrame)
    (t : Table (list (string * list (value * nat)))) :
  generate_coupon_purchased_table weekly_df = Some t →
  let value_col :=
    if Pd.has_column weekly_df "CouponValue" then "CouponValue"
    else "coupon_amount" in
  ∃ clients values : list value,
    NoDup clients ∧ NoDup values ∧
    (∀ c v, (∃ r, r ∈ rows weekly_df ∧ r !! "client_name" = Some c ∧
                  r !! value_col = Some v) →
            c ∈ clients ∧ v ∈ values) ∧
    NoDup (data t).*1 ∧
    Forall2 (λ c entry,
        get_client_short_name (Some c) = Ok entry.1 ∧
        entry.2 =
          (λ v, (v, length (filter (λ r : row, r !! "client_name" = Some c ∧
                                               r !! value_col = Some v)
                                   (rows weekly_df)))) <$> values)
      clients (data t).
Proof.
  unfold generate_coupon_purchased_table.
  destruct (Pd.empty weekly_df || _); [done|].
  set (value_col := if Pd.has_column weekly_df "CouponValue"
                    then "CouponValue" else "coupon_amount").
  destruct (Pd.has_column weekly_df value_col); [|done]. cbn [negb].
  unfold coupon_counts.
  destruct (Pd.groupby2_size weekly_df "client_name" value_col)
    as [sizes|] eqn:Hsizes; [|done].
  cbn [mbind result_bind].
  destruct (traverse _ _) as [names|] eqn:Hnames; [|done].
  cbn [mbind result_bind Pd.ct_columns Pd.unstack].
  destruct (Pd.reset_index_columns _) as [cols|]; [|done].
  cbn [mbind result_bind]. unfold Pd.to_dict_index.
  cbn [Pd.ct_index Pd.ct_columns Pd.ct_cells Pd.unstack].
  case_bool_decide as Hlabels; [|done].
  cbn [mbind result_bind except_none]. intros [= <-]. cbn [data].
  apply traverse_Forall2 in Hnames. cbn [Pd.ct_index Pd.unstack] in Hnames.
  pose proof (groupby2_size_inv _ _ _ _ Hsizes) as (_ & Hkeys & _).
  set (clients := Pd.unique ((λ e : value * value * nat, e.1.1) <$> sizes)) in *.
  set (values := merge_sort Pd.value_le
                   (Pd.unique ((λ e : value * value * nat, e.1.2) <$> sizes))).
  exists clients, values.
  split; [apply NoDup_unique|].
  split; [unfold values; rewrite merge_sort_Permutation; apply NoDup_unique|].
  split; [|split].
  - intros c v Hr. apply elem_of_key_pairs, Hkeys, list_elem_of_fmap in Hr
      as ([[c' v'] n] & [= <- <-] & He).
    split.
    + apply elem_of_unique, list_elem_of_fmap. by exists (c, v, n).
    + unfold values. rewrite merge_sort_Permutation.
      apply elem_of_unique, list_elem_of_fmap. by exists (c, v, n).
  - rewrite fst_zip; [done|].
    rewrite !length_fmap. by rewrite (Forall2_length _ _ _ Hnames).
  - rewrite <-list_fmap_compose.
    eapply Forall2_impl; [apply Forall2_zip_fmap, Hnames|].
    intros c [name cells] [Hname Hcells]. split; [done|].
    cbn [snd] in *. rewrite Hcells. cbn [compose].
    rewrite zip_fmap_self. apply list_fmap_ext. intros _ v _.
    by rewrite (size_of_groupby2 _ _ _ _ _ Hsizes), count_key_pairs.
Qed.

(** The example of the specification *)
Example coupon_purchased_example :
  generate_coupon_purchased_table shop_a_batch =
  Some (mkTable "No. of Coupon Purchased"
                [("ShopA", [(Num 10, 2); (Num 20, 1)])]
                [Str "Client"; Num 10; Num 20]).
Proof. reflexivity. Qed.

(** C2. Two client names that share an abbreviation: both batch rows
    have short name SJS and coupon value 10, so the claimed cell is 2.
    The code counts by client name, one row each, relabels both table
    rows SJS, and the conversion to a dictionary by row label refuses
    the repeated label: no table is returned. *)
Theorem coupon_purchased_shared_abbreviation :
  length (filter (λ r : row,
            get_client_short_name (r !! "client_name") = Ok "SJS" ∧
            r !! "CouponValue" = Some (Num 10))
          (rows shared_abbreviation)) = 2 ∧
  coupon_counts shared_abbreviation "CouponValue" =
    Ok (Pd.mkCrossTab ["SJS"; "SJS"] [Num 10] [[1]; [1]]) ∧
  generate_coupon_purchased_table shared_abbreviation = None.
Proof. split; [|split]; reflexivity. Qed.

(** * Further properties of the program *)

(** ** File names *)

Lemma extension_None (s : string) :
  extension s = None ↔ mentions "." s = false.
Proof.
  induction s as [|c s IH]; [done|].
  cbn [extension mentions].
  destruct (extension s) as [e|].
  - destruct IH as [_ IH]. split; [done|].
    intros [_ Hs]%orb_false_iff. by specialize (IH Hs).
  - destruct IH as [IH _]. rewrite (IH eq_refl), orb_false_r.
    by case_bool_decide.
Qed.

Lemma extension_app (base ext : string) :
  mentions "." ext = false → extension (base +:+ "." +:+ ext) = Some ext.
Proof.
  intros Hext. induction base as [|c base IH].
  - change ("" +:+ "." +:+ ext) with (String "."%char ext).
    cbn [extension]. apply extension_None in Hext. by rewrite Hext.
  - change (String c base +:+ "." +:+ ext)
      with (String c (base +:+ "." +:+ ext)).
    cbn [extension]. by rewrite IH.
Qed.

(** X1. A file name is accepted exactly on the text after its last dot:
    a name [base.ext], where [ext] has no dot, is accepted when [ext] in
    lower case is one of xlsx, xls, csv, whatever [base] holds; a name
    without a dot is refused. *)
Theorem allowed_file_last_extension :
  (∀ base ext, mentions "." ext = false →
     allowed_file (base +:+ "." +:+ ext)
     = bool_decide (Py.lower ext ∈ ALLOWED_EXTENSIONS)) ∧
  (∀ name, mentions "." name = false → allowed_file name = false).
Proof.
  split.
  - intros base ext Hext. unfold allowed_file. by rewrite extension_app.
  - intros name Hname. unfold allowed_file.
    apply extension_None in Hname. by rewrite Hname.
Qed.

Example allowed_file_examples :
  allowed_file "week.12.XLSX" = true ∧
  allowed_file "report.csv.exe" = false ∧
  allowed_file "xlsx" = false.
Proof. repeat split. Qed.

(** ** Short names *)

Lemma spaceless_check (s : string) :
  Forall (λ w, Py.contains w s = false) Py.whitespace → spaceless s.
Proof. intros Hall w Hw. rewrite Forall_forall in Hall. by apply Hall. Qed.

(** X2. Whatever the client-name cell holds, a short name that is
    returned is never the empty string and contains no whitespace
    character. *)
Theorem short_name_nonempty_spaceless (client_name : cell) (short : string) :
  get_client_short_name client_name = Ok short →
  short ≠ "" ∧ spaceless short.
Proof.
  assert (Hunknown : "Unknown" ≠ "" ∧ spaceless "Unknown").
  { split; [done|]. apply spaceless_check, (bool_decide_unpack _).
    vm_compute. exact I. }
  unfold get_client_short_name.
  destruct client_name as [v|]; [|by intros [= <-]].
  destruct (list_find _ short_name_map) as [[i [k name]]|] eqn:Hfind.
  - intros [= <-]. apply list_find_Some in Hfind as (Hi & _ & _).
    apply list_elem_of_lookup_2 in Hi.
    assert (Forall (λ kv : string * string, kv.2 ≠ "" ∧ spaceless kv.2)
              short_name_map) as Hall.
    { repeat constructor; try done;
        apply spaceless_check, (bool_decide_unpack _); vm_compute; exact I. }
    rewrite Forall_forall in Hall. apply (Hall _ Hi).
  - destruct (Py.truthy v); [|by intros [= <-]].
    destruct (Py.split (Py.str v)) as [|tok toks] eqn:Hsplit; [done|].
    intros [= <-].
    pose proof (split_tokens (Py.str v)) as Htoks. rewrite Hsplit in Htoks.
    by apply Forall_cons in Htoks as [? _].
Qed.

Lemma short_name_nonempty_spaceless_witness :
  get_client_short_name
    (Some (Str (Py.chr 160 +:+ "acme" +:+ Py.chr 12288 +:+ "trading co")))
    = Ok "acme" ∧
  "acme" ≠ "" ∧ spaceless "acme".
Proof.
  assert (Hshort : get_client_short_name
            (Some (Str (Py.chr 160 +:+ "acme" +:+ Py.chr 12288 +:+ "trading co")))
            = Ok "acme") by (vm_compute; reflexivity).
  split; [exact Hshort|].
  exact (short_name_nonempty_spaceless _ _ Hshort).
Defined.

Lemma upper_char_idemp (c : ascii) :
  Py.upper_char (Py.upper_char c) = Py.upper_char c.
Proof. destruct c as [[] [] [] [] [] [] [] []]; reflexivity. Qed.

Lemma upper_lower_char (c : ascii) :
  Py.upper_char (Py.lower_char c) = Py.upper_char c.
Proof. destruct c as [[] [] [] [] [] [] [] []]; reflexivity. Qed.

Lemma upper_upper (s : string) : Py.upper (Py.upper s) = Py.upper s.
Proof.
  unfold Py.upper. induction s as [|c s IH]; [done|].
  cbn [Py.map_chars]. by rewrite upper_char_idemp, IH.
Qed.

Lemma upper_lower (s : string) : Py.upper (Py.lower s) = Py.upper s.
Proof.
  unfold Py.upper, Py.lower. induction s as [|c s IH]; [done|].
  cbn [Py.map_chars]. by rewrite upper_lower_char, IH.
Qed.

(** Names with one upper-casing in which an abbreviation occurs have one
    short name. *)
Lemma short_name_by_upper (s s' : string) :
  Py.upper s = Py.upper s' →
  Exists (λ kv : string * string, Py.contains kv.1 (Py.upper s) = true)
         short_name_map →
  get_client_short_name (Some (Str s')) = get_client_short_name (Some (Str s)).
Proof.
  intros Hup Hex. unfold get_client_short_name. cbn [Py.str]. rewrite <-Hup.
  destruct (list_find _ short_name_map) as [[i [k name]]|] eqn:Hfind; [done|].
  apply list_find_None in Hfind. rewrite Exists_exists in Hex.
  destruct Hex as (kv & Hin & Hkv). rewrite Forall_forall in Hfind.
  by destruct (Hfind kv Hin).
Qed.

(** X3. Matching of the abbreviations ignores the case of the ASCII
    letters: when an abbreviation occurs in the upper-cased name, the
    name, its upper-cased form and its lower-cased form all get the same
    short name, and that short name is one of the abbreviations. *)
Theorem short_name_ignores_case (s : string) :
  Exists (λ kv : string * string, Py.contains kv.1 (Py.upper s) = true)
         short_name_map →
  get_client_short_name (Some (Str (Py.upper s)))
    = get_client_short_name (Some (Str s)) ∧
  get_client_short_name (Some (Str (Py.lower s)))
    = get_client_short_name (Some (Str s)) ∧
  ∃ short, get_client_short_name (Some (Str s)) = Ok short ∧
           short ∈ short_name_map.*2.
Proof.
  intros Hex. split; [|split].
  - apply short_name_by_upper; [by rewrite upper_upper|done].
  - apply short_name_by_upper; [by rewrite upper_lower|done].
  - unfold get_client_short_name. cbn [Py.str].
    destruct (list_find _ short_name_map) as [[i [k name]]|] eqn:Hfind.
    + exists name. split; [done|].
      apply list_find_Some in Hfind as (Hi & _ & _).
      apply list_elem_of_lookup_2 in Hi.
      apply list_elem_of_fmap. by exists (k, name).
    + apply list_find_None in Hfind. rewrite Exists_exists in Hex.
      destruct Hex as (kv & Hin & Hkv). rewrite Forall_forall in Hfind.
      by destruct (Hfind kv Hin).
Qed.

Lemma short_name_ignores_case_witness :
  get_client_short_name (Some (Str (Py.lower "Plk Sjs Centre")))
    = get_client_short_name (Some (Str "Plk Sjs Centre")) ∧
  get_client_short_name (Some (Str "Plk Sjs Centre")) = Ok "SJS".
Proof.
  assert (Hex : Exists (λ kv : string * string,
                  Py.contains kv.1 (Py.upper "Plk Sjs Centre") = true)
                short_name_map) by (left; reflexivity).
  split; [|reflexivity].
  exact (proj1 (proj2 (short_name_ignores_case "Plk Sjs Centre" Hex))).
Defined.

(** ** Counting rows by value *)

Section counting.
Context {A : Type} `{EqDecision A}.

Lemma sum_list_fmap_add {B} (f g : B → nat) (l : list B) :
  sum_list ((λ x, f x + g x) <$> l) = sum_list (f <$> l) + sum_list (g <$> l).
Proof. induction l as [|x l IH]; [done|]. cbn. rewrite IH. lia. Qed.

Lemma sum_indicator (ks : list A) (y : A) :
  NoDup ks → y ∈ ks →
  sum_list ((λ k, if decide (y = k) then 1 else 0) <$> ks) = 1.
Proof.
  induction 1 as [|k ks Hk Hnodup IH]; [by intros ?%elem_of_nil|].
  rewrite fmap_cons. cbn [sum_list sum_list_with].
  intros [->|Hy]%elem_of_cons.
  - rewrite decide_True by done.
    replace (sum_list _) with 0; [done|].
    clear IH Hnodup. induction ks as [|j ks IH]; [done|].
    rewrite fmap_cons. cbn [sum_list sum_list_with].
    apply not_elem_of_cons in Hk as [Hne Hk].
    rewrite decide_False by done. by rewrite <-IH.
  - rewrite decide_False by (intros ->; done). by rewrite IH.
Qed.

(** The counts of the elements of a duplicate-free list of keys that
    covers [l] add up to the length of [l]. *)
Lemma sum_counts (ks l : list A) :
  NoDup ks → (∀ y, y ∈ l → y ∈ ks) →
  sum_list ((λ k, Pd.count k l) <$> ks) = length l.
Proof.
  intros Hnodup. induction l as [|y l IH]; intros Hcover.
  - unfold Pd.count. clear. induction ks as [|k ks IH]; [done|].
    rewrite fmap_cons. cbn [sum_list sum_list_with]. by rewrite IH.
  - rewrite (list_fmap_ext _
      (λ k, (if decide (y = k) then 1 else 0) + Pd.count k l)).
    2:{ intros _ k _. unfold Pd.count. rewrite filter_cons.
        by case_decide. }
    rewrite sum_list_fmap_add, sum_indicator, IH; [done| |done|].
    + intros z Hz. apply Hcover. by right.
    + apply Hcover. by left.
Qed.

Lemma sum_table (table : list (A * nat)) (l : list A) :
  NoDup table.*1 →
  (∀ e, e ∈ table → e.2 = Pd.count e.1 l) →
  (∀ y, y ∈ l → y ∈ table.*1) →
  sum_list table.*2 = length l.
Proof.
  intros Hnodup Hcount Hcover.
  rewrite <-(sum_counts table.*1 l) by done.
  f_equal. rewrite <-list_fmap_compose.
  apply list_fmap_ext. intros i e Hi. cbn.
  apply Hcount. by eapply list_elem_of_lookup_2.
Qed.

End counting.

Lemma length_dropna_column (df : DataFrame) (col : string) :
  length (Pd.dropna ((λ r : row, r !! col) <$> rows df)) = rows_present df col.
Proof.
  unfold rows_present, Pd.dropna. induction (rows df) as [|r l IH]; [done|].
  rewrite fmap_cons, filter_cons. cbn [omap list_omap].
  destruct (r !! col) as [v|]; cbn [id].
  - rewrite decide_True by done. cbn [length]. by rewrite IH.
  - rewrite decide_False by (intros []; done). done.
Qed.

Section value_counts.
Context `{Pd.SortValues}.

(** Any rearrangement of the value counts of a column lists the values
    of the column with their numbers of rows. *)
Lemma value_counts_rows (df : DataFrame) (col : string)
    (table : list (value * nat)) :
  table ≡ₚ Pd.value_counts ((λ r : row, r !! col) <$> rows df) →
  counts_rows_by df col table.
Proof.
  set (s := (λ r : row, r !! col) <$> rows df).
  intros Htable. unfold Pd.value_counts in Htable.
  rewrite Pd.sort_desc_perm in Htable. fold s in Htable.
  assert (Hin : ∀ e, e ∈ table ↔
            e.1 ∈ Pd.dropna s ∧ e.2 = Pd.count e.1 (Pd.dropna s)).
  { intros e. rewrite Htable, list_elem_of_fmap. split.
    - intros (v & -> & Hv). cbn [fst snd]. split; [|done].
      by apply (elem_of_unique (Pd.dropna s) v).
    - intros [Hv He]. exists e.1. split; [|by apply elem_of_unique].
      destruct e as [v n]. cbn in *. by subst. }
  assert (Hnodup : NoDup table.*1).
  { rewrite Htable, <-list_fmap_compose.
    rewrite (list_fmap_ext _ id) by done.
    rewrite list_fmap_id. apply NoDup_unique. }
  split; [done|]. split.
  - intros v n. rewrite Hin. cbn [fst snd]. unfold rows_with.
    rewrite count_pos, <-(count_column df col v). fold s. split.
    + intros [Hpos ->]. done.
    + intros [Hpos ->]. done.
  - rewrite <-length_dropna_column. fold s. apply sum_table; [done| |].
    + intros e He. by apply Hin in He as [_ ?].
    + intros v Hv. apply list_elem_of_fmap.
      exists (v, Pd.count v (Pd.dropna s)). split; [done|]. by apply Hin.
Qed.

Lemma used_market_counts (ttl : string) (df : DataFrame) (col : string)
    (t : Table (list (value * nat))) :
  used_market ttl df (Some col) = Some t → counts_rows_by df col (data t).
Proof.
  unfold used_market. destruct (Pd.empty df); [done|].
  unfold Pd.getitem. destruct (Pd.has_column df col); [|done].
  intros [= <-]. cbn [data]. apply value_counts_rows.
  apply Pd.sort_desc_perm.
Qed.

(** X5. Every Used-Market table, weekly or over all records, lists each
    market of its frame exactly once with the number of rows of that
    market, lists nothing else, and its counts add up to the number of
    rows that have a market. *)
Theorem used_market_table_counts (weekly_df daily_df : DataFrame)
    (r : Results (list (value * nat))) :
  generate_used_market_table weekly_df daily_df = Some r →
  (∀ t, weekly r = Some t →
     ∃ col, used_market_col weekly_df = Some col ∧
            counts_rows_by weekly_df col (data t)) ∧
  (∀ t, all r = Some t →
     ∃ col, used_market_col daily_df = Some col ∧
            counts_rows_by daily_df col (data t)).
Proof.
  intros Hr. apply nonempty_results_inv in Hr. subst r. cbn [weekly all].
  split; intros t Ht.
  - destruct (used_market_col weekly_df) as [col|]; [|done].
    exists col. split; [done|]. by eapply used_market_counts.
  - destruct (used_market_col daily_df) as [col|]; [|done].
    exists col. split; [done|]. by eapply used_market_counts.
Qed.

End value_counts.

Lemma used_market_table_counts_witness :
  ∃ r t,
    generate_used_market_table two_markets sample_ledger = Some r ∧
    all r = Some t ∧
    counts_rows_by sample_ledger "Market" (data t).
Proof.
  destruct (generate_used_market_table two_markets sample_ledger)
    as [r|] eqn:Hr; [|vm_compute in Hr; discriminate Hr].
  destruct (all r) as [t|] eqn:Ht.
  - exists r, t. split; [reflexivity|]. split; [exact Ht|].
    destruct (proj2 (used_market_table_counts _ _ _ Hr) t Ht) as (col & Hcol & Hrows).
    vm_compute in Hcol. injection Hcol as <-. exact Hrows.
  - apply nonempty_results_inv in Hr. subst r.
    vm_compute in Ht. discriminate Ht.
Defined.

(** ** The most used merchants *)

Global Instance count_ge_trans {A} (key : A → nat) : Transitive (Pd.count_ge key).
Proof. intros x y z. unfold Pd.count_ge. lia. Qed.

Section top_merchant.
Context `{Pd.SortValues}.

Lemma value_counts_sorted (s : Series) :
  StronglySorted (Pd.count_ge snd) (Pd.value_counts s).
Proof. apply Sorted_StronglySorted; [apply _|]. apply Pd.sort_desc_sorted. Qed.

Lemma length_value_counts (s : Series) :
  length (Pd.value_counts s) = length (Pd.unique (Pd.dropna s)).
Proof.
  unfold Pd.value_counts.
  by rewrite (Permutation_length (Pd.sort_desc_perm _ _ _)), length_fmap.
Qed.

Lemma top_merchant_rows (ttl : string) (df : DataFrame) (col : string)
    (t : Table (list (value * nat))) :
  top_merchant ttl df (Some col) = Some t → top_rows_by 15 df col (data t).
Proof.
  unfold top_merchant. destruct (Pd.empty df); [done|].
  unfold Pd.getitem. destruct (Pd.has_column df col); [|done].
  intros [= <-]. cbn [data].
  set (s := (λ r : row, r !! col) <$> rows df).
  set (counts := Pd.value_counts s).
  assert (Htable : Pd.sort_values_desc (take 15 counts) ≡ₚ take 15 counts)
    by apply Pd.sort_desc_perm.
  destruct (value_counts_rows df col counts (reflexivity _))
    as (Hnodup & Hin & _).
  split; [|split; [|split]].
  - rewrite Htable, fmap_take.
    eapply sublist_NoDup; [done|apply sublist_take].
  - intros v n Hv. apply Hin. rewrite Htable in Hv.
    by apply (subseteq_take 15 counts).
  - rewrite (Permutation_length Htable), length_take.
    unfold counts. by rewrite length_value_counts.
  - intros v n w Hv Hw Hout. rewrite Htable in Hv.
    assert ((w, rows_with df col w) ∈ counts) as Hwin by (by apply Hin).
    rewrite <-(take_drop 15 counts) in Hwin.
    apply elem_of_app in Hwin as [Hwin|Hwin].
    + destruct Hout. rewrite Htable. apply list_elem_of_fmap.
      by exists (w, rows_with df col w).
    + pose proof (value_counts_sorted s) as Hsorted. fold counts in Hsorted.
      rewrite <-(take_drop 15 counts) in Hsorted.
      apply (StronglySorted_app_1_elem_of _ _ _ _ _ Hsorted Hv Hwin).
Qed.

(** X6. Every Top-Merchant table, weekly or over all records, lists
    each of its merchants once with the merchant's number of rows; it
    has 15 rows, or as many as there are merchants when these are fewer;
    and no merchant left out has more rows than a merchant listed. *)
Theorem top_merchant_table_keeps_most_used (weekly_df daily_df : DataFrame)
    (r : Results (list (value * nat))) :
  generate_top_merchant_table weekly_df daily_df = Some r →
  (∀ t, weekly r = Some t → top_rows_by 15 weekly_df "ShopName" (data t)) ∧
  (∀ t, all r = Some t → top_rows_by 15 daily_df "ShopName" (data t)).
Proof.
  intros Hr. apply nonempty_results_inv in Hr. subst r. cbn [weekly all].
  split; intros t Ht.
  - destruct (Pd.has_column weekly_df "ShopName"); [|done].
    by eapply top_merchant_rows.
  - destruct (Pd.has_column daily_df "ShopName"); [|done].
    by eapply top_merchant_rows.
Qed.

End top_merchant.

Lemma top_merchant_table_keeps_most_used_witness :
  ∃ r t,
    generate_top_merchant_table sixteen_merchants sample_ledger = Some r ∧
    weekly r = Some t ∧
    top_rows_by 15 sixteen_merchants "ShopName" (data t).
Proof.
  destruct (generate_top_merchant_table sixteen_merchants sample_ledger)
    as [r|] eqn:Hr; [|vm_compute in Hr; discriminate Hr].
  destruct (weekly r) as [t|] eqn:Ht.
  - exists r, t. split; [reflexivity|]. split; [exact Ht|].
    exact (proj1 (top_merchant_table_keeps_most_used _ _ _ Hr) t Ht).
  - apply nonempty_results_inv in Hr. subst r.
    vm_compute in Ht. discriminate Ht.
Defined.

(** ** Enrichment and the category table *)

Lemma add_sales_category_columns (df df' : DataFrame) (m : gmap string string) :
  add_sales_category df m = Ok df' →
  columns df' = Pd.add_column (columns df) "Sales Category" ∧
  "ShopName" ∈ columns df' ∧
  "Sales Category" ∈ columns df'.
Proof.
  unfold add_sales_category.
  destruct (Pd.has_column df "ShopName") eqn:Hshop; [|done]. cbn [negb].
  apply has_column_spec in Hshop.
  assert (Hadd : ∀ cols, "Sales Category" ∈ Pd.add_column cols "Sales Category").
  { intros cols. unfold Pd.add_column. case_bool_decide; [done|].
    apply elem_of_app. right. by left. }
  assert (Hidem : ∀ cols,
            Pd.add_column (Pd.add_column cols "Sales Category") "Sales Category"
            = Pd.add_column cols "Sales Category").
  { intros cols. unfold Pd.add_column at 1.
    by rewrite bool_decide_eq_true_2 by apply Hadd. }
  destruct (Pd.has_column df "Sales Category") eqn:Hcat; cbn [negb].
  - rewrite (getitem_ok _ _ Hshop). cbn [mbind result_bind].
    intros [= <-]. cbn [columns Pd.setitem].
    split; [done|]. split; [by apply elem_of_add_column|apply Hadd].
  - rewrite getitem_ok by (by apply elem_of_add_column).
    cbn [mbind result_bind]. intros [= <-].
    cbn [columns Pd.setitem Pd.setitem_scalar]. rewrite Hidem.
    split; [done|]. split; [by apply elem_of_add_column|apply Hadd].
Qed.

Lemma add_sales_category_cell (df df' : DataFrame) (m : gmap string string)
    (r' : row) :
  add_sales_category df m = Ok df' → r' ∈ rows df' →
  ∃ category, r' !! "Sales Category" = Some (Str category) ∧
              (category = "" ∨ ∃ tenant, m !! tenant = Some category).
Proof.
  intros Hrows%add_sales_category_rows. rewrite Hrows.
  intros (r & -> & _)%list_elem_of_fmap.
  rewrite lookup_set_cell. unfold category_of, Py.dict_get.
  destruct (m !! _) as [category|] eqn:Hm; cbn [default]; eauto.
Qed.

Lemma rows_present_all (df : DataFrame) (col : string) :
  (∀ r, r ∈ rows df → is_Some (r !! col)) →
  rows_present df col = length (rows df).
Proof.
  unfold rows_present. induction (rows df) as [|r l IH]; [done|].
  intros Hall. rewrite filter_cons, decide_True by (apply Hall; left).
  cbn [length]. rewrite IH; [done|]. intros r' Hr'. apply Hall. by right.
Qed.

Section categories.
Context `{Pd.SortValues}.

(** X7. After enrichment every row of a market report is counted under
    exactly one category: for an enriched non-empty frame the weekly
    Merchant-Category table is produced, its counts add up to the
    number of rows of the frame, and each of its labels is the empty
    string or a category of the mapping. *)
Theorem enriched_rows_all_categorised (df weekly_df daily_df : DataFrame)
    (m : gmap string string) :
  add_sales_category df m = Ok weekly_df →
  rows df ≠ [] →
  ∃ r t,
    generate_merchant_category_table weekly_df daily_df = Some r ∧
    weekly r = Some t ∧
    counts_rows_by weekly_df "Sales Category" (data t) ∧
    sum_list (data t).*2 = length (rows df) ∧
    ∀ label n, (label, n) ∈ data t →
      ∃ category, label = Str category ∧
                  (category = "" ∨ ∃ tenant, m !! tenant = Some category).
Proof.
  intros Hok Hrows.
  pose proof (add_sales_category_columns _ _ _ Hok) as (_ & _ & Hcat).
  pose proof (add_sales_category_rows _ _ _ Hok) as Hrows'.
  assert (Hlen : length (rows weekly_df) = length (rows df))
    by (by rewrite Hrows', length_fmap).
  assert (Hempty : Pd.empty weekly_df = false).
  { unfold Pd.empty. rewrite !bool_decide_eq_false_2; [done| |].
    - intros Hnil. rewrite Hnil in Hlen. by destruct (rows df).
    - intros Hnil. rewrite Hnil in Hcat. by apply elem_of_nil in Hcat. }
  unfold generate_merchant_category_table, merchant_category.
  rewrite Hempty. apply has_column_spec in Hcat as Hcat'. rewrite Hcat'.
  cbn [negb andb]. rewrite (getitem_ok _ _ Hcat).
  cbn [mbind result_bind except_none].
  eexists _, _. split; [reflexivity|]. cbn [weekly].
  split; [reflexivity|]. cbn [data].
  assert (Hcounts : counts_rows_by weekly_df "Sales Category"
            (Pd.sort_values_desc
               (Pd.value_counts ((λ r : row, r !! "Sales Category")
                                   <$> rows weekly_df)))).
  { apply value_counts_rows, Pd.sort_desc_perm. }
  split; [done|]. split.
  - destruct Hcounts as (_ & _ & ->). rewrite <-Hlen.
    apply rows_present_all. intros r' Hr'.
    destruct (add_sales_category_cell _ _ _ _ Hok Hr') as (c & -> & _). done.
  - intros label n Hin. apply Hcounts in Hin as [Hpos Hn].
    unfold rows_with in Hn. subst n.
    destruct (filter _ (rows weekly_df)) as [|r' l] eqn:Hf; [cbn in Hpos; lia|].
    assert (r' ∈ filter (λ r : row, r !! "Sales Category" = Some label)
                   (rows weekly_df)) as [Hlabel Hr']%list_elem_of_filter
      by (rewrite Hf; left).
    destruct (add_sales_category_cell _ _ _ _ Hok Hr') as (c & Hc & Hm).
    exists c. split; [congruence|done].
Qed.

End categories.

Lemma enriched_rows_all_categorised_witness :
  ∃ weekly_df r t,
    add_sales_category sample_ledger {[ "merchantA" := "Food" ]} = Ok weekly_df ∧
    rows sample_ledger ≠ [] ∧
    generate_merchant_category_table weekly_df sample_ledger = Some r ∧
    weekly r = Some t ∧
    sum_list (data t).*2 = 3.
Proof.
  destruct (add_sales_category sample_ledger {[ "merchantA" := "Food" ]})
    as [weekly_df|] eqn:Hok; [|vm_compute in Hok; discriminate Hok].
  assert (Hrows : rows sample_ledger ≠ []) by discriminate.
  destruct (enriched_rows_all_categorised _ _ sample_ledger _ Hok Hrows)
    as (r & t & Hr & Ht & _ & Hsum & _).
  exists weekly_df, r, t. split; [reflexivity|]. split; [exact Hrows|].
  split; [exact Hr|]. split; [exact Ht|exact Hsum].
Defined.

(** ** Distributed coupons *)

Lemma used_zip_with (names : list string) (counts : list nat) :
  length names = length counts →
  Used <$> zip_with (λ c used, mkDistributed c used 0 used) names counts = counts.
Proof.
  revert counts. induction names as [|c names IH]; intros [|n counts]; try done.
  intros [= Hlen]. cbn. by rewrite IH.
Qed.

(** X8. The Used counts of the Distributed-Coupon table add up to the
    number of batch rows that have a client name, and the table has as
    many rows as the batch has distinct client names. *)
Theorem distributed_coupon_total (weekly_df : DataFrame)
    (t : Table (list Distributed)) :
  generate_distributed_coupon_table weekly_df = Some t →
  sum_list (Used <$> data t) = rows_present weekly_df "client_name" ∧
  length (data t) =
    length (Pd.unique (Pd.dropna ((λ r : row, r !! "client_name")
                                    <$> rows weekly_df))).
Proof.
  unfold generate_distributed_coupon_table.
  destruct (Pd.empty weekly_df); [done|].
  destruct (Pd.has_column weekly_df "client_name") eqn:Hcol; [|done].
  cbn [orb negb]. unfold Pd.getitem. rewrite Hcol. cbn [mbind result_bind].
  set (s := (λ r : row, r !! "client_name") <$> rows weekly_df).
  destruct (traverse _ _) as [names|] eqn:Hnames; [|done].
  cbn [mbind result_bind except_none]. intros [= <-]. cbn [data].
  apply traverse_Forall2, Forall2_length in Hnames.
  rewrite !length_fmap in Hnames.
  assert (Hkeys : length (Pd.groupby_size s) = length (Pd.unique (Pd.dropna s))).
  { unfold Pd.groupby_size.
    by rewrite length_fmap, (Permutation_length (merge_sort_Permutation _ _)). }
  split.
  - rewrite used_zip_with by (by rewrite length_fmap).
    rewrite groupby_size_counts, groupby_size_keys.
    rewrite sum_counts; [apply length_dropna_column| |].
    + rewrite merge_sort_Permutation. apply NoDup_unique.
    + intros v Hv. rewrite merge_sort_Permutation. by apply elem_of_unique.
  - rewrite length_zip_with, length_fmap. lia.
Qed.

Lemma distributed_coupon_total_witness :
  ∃ t, generate_distributed_coupon_table shared_abbreviation = Some t ∧
       sum_list (Used <$> data t) = rows_present shared_abbreviation "client_name".
Proof.
  destruct (generate_distributed_coupon_table shared_abbreviation)
    as [t|] eqn:Ht; [|vm_compute in Ht; discriminate Ht].
  exists t. split; [reflexivity|].
  exact (proj1 (distributed_coupon_total _ _ Ht)).
Defined.

(** ** Enrichment is idempotent *)

Lemma add_sales_category_ok (df : DataFrame) (m : gmap string string) :
  "ShopName" ∈ columns df → ∃ df', add_sales_category df m = Ok df'.
Proof.
  intros Hshop. unfold add_sales_category.
  apply has_column_spec in Hshop as Hshop'. rewrite Hshop'. cbn [negb].
  destruct (Pd.has_column df "Sales Category"); cbn [negb].
  - rewrite (getitem_ok _ _ Hshop). by eexists.
  - rewrite getitem_ok by (by apply elem_of_add_column). by eexists.
Qed.

Lemma set_cell_set_cell (c : string) (r : row) (v w : cell) :
  Pd.set_cell c (Pd.set_cell c r v) w = Pd.set_cell c r w.
Proof.
  apply map_eq. intros k. destruct (decide (c = k)) as [->|Hk].
  - by rewrite !lookup_set_cell.
  - by rewrite !lookup_set_cell_ne.
Qed.

(** X9. Enriching an enriched frame changes nothing: the second pass
    returns the frame it was given. *)
Theorem add_sales_category_idempotent (df df' : DataFrame)
    (m : gmap string string) :
  add_sales_category df m = Ok df' → add_sales_category df' m = Ok df'.
Proof.
  intros Hok.
  pose proof (add_sales_category_columns _ _ _ Hok) as (Hcols & Hshop & Hcat).
  pose proof (add_sales_category_rows _ _ _ Hok) as Hrows.
  destruct (add_sales_category_ok df' m Hshop) as [df'' Hok'].
  rewrite Hok'. f_equal.
  pose proof (add_sales_category_columns _ _ _ Hok') as (Hcols' & _ & _).
  pose proof (add_sales_category_rows _ _ _ Hok') as Hrows'.
  destruct df' as [cols' rows'], df'' as [cols'' rows''].
  cbn [columns rows] in *. f_equal.
  - rewrite Hcols'. unfold Pd.add_column. by rewrite bool_decide_eq_true_2.
  - rewrite Hrows'. rewrite <-(list_fmap_id rows') at 2.
    apply list_fmap_ext. intros i r' Hi. cbn [id].
    rewrite Hrows in Hi. rewrite list_lookup_fmap in Hi.
    destruct (rows df !! i) as [r|]; [|done]. injection Hi as <-.
    rewrite set_cell_set_cell. unfold category_of.
    by rewrite lookup_set_cell_ne.
Qed.

Lemma add_sales_category_idempotent_witness :
  ∃ df', add_sales_category padded_report {[ "merchantA" := "Food" ]} = Ok df' ∧
         add_sales_category df' {[ "merchantA" := "Food" ]} = Ok df'.
Proof.
  destruct (add_sales_category padded_report {[ "merchantA" := "Food" ]})
    as [df'|] eqn:Hok; [|vm_compute in Hok; discriminate Hok].
  exists df'. split; [reflexivity|].
  exact (add_sales_category_idempotent _ _ _ Hok).
Defined.

(** ** The category mapping *)

Lemma series_to_dict_rows (f g : row → string) (l : list row) :
  Pd.series_to_dict (f <$> l) (g <$> l) =
  foldl (λ (m : gmap string string) r, <[f r := g r]> m) ∅ l.
Proof.
  unfold Pd.series_to_dict. generalize (∅ : gmap string string).
  induction l as [|r l IH]; intros m0; [done|]. cbn. apply IH.
Qed.

Lemma foldl_insert_absent (f g : row → string) (l : list row)
    (m0 : gmap string string) (k : string) :
  (∀ r, r ∈ l → f r ≠ k) →
  foldl (λ (m : gmap string string) r, <[f r := g r]> m) m0 l !! k = m0 !! k.
Proof.
  revert m0. induction l as [|r l IH]; intros m0 Hl; [done|].
  cbn [foldl]. rewrite IH.
  - apply lookup_insert_ne, Hl. by left.
  - intros r' Hr'. apply Hl. by right.
Qed.

(** The last row with a key decides the entry of the key. *)
Lemma foldl_insert_last (f g : row → string) (l1 l2 : list row) (r : row)
    (m0 : gmap string string) :
  (∀ r', r' ∈ l2 → f r' ≠ f r) →
  foldl (λ (m : gmap string string) r, <[f r := g r]> m) m0 (l1 ++ r :: l2) !! f r = Some (g r).
Proof.
  intros Hl2. rewrite foldl_app. cbn [foldl].
  rewrite foldl_insert_absent by done. apply lookup_insert_eq.
Qed.

Lemma foldl_insert_present (f g : row → string) (l : list row) (k : string) :
  is_Some (foldl (λ (m : gmap string string) r, <[f r := g r]> m) ∅ l !! k) ↔ ∃ r, r ∈ l ∧ f r = k.
Proof.
  induction l as [|r l IH] using rev_ind.
  - cbn. rewrite lookup_empty. split; [by intros [? ?]|].
    by intros (r & ?%elem_of_nil & _).
  - rewrite foldl_app. cbn [foldl].
    destruct (decide (f r = k)) as [<-|Hne].
    + rewrite lookup_insert_eq. split; [|by eauto].
      intros _. exists r. split; [|done]. apply elem_of_app. right. by left.
    + rewrite lookup_insert_ne by done. rewrite IH. split.
      * intros (r' & Hr' & Hk). exists r'. split; [|done].
        apply elem_of_app. by left.
      * intros (r' & [Hr'|Hr']%elem_of_app & Hk); [by exists r'|].
        apply list_elem_of_singleton in Hr'. by subst.
Qed.

Lemma load_sales_category_mapping_inv (df : DataFrame)
    (m : gmap string string) :
  load_sales_category_mapping (Ok df) = Ok m →
  "Tenant" ∈ columns df ∧ "Sales Category" ∈ columns df ∧
  m = foldl (λ (m : gmap string string) r, <[tenant_key r := category_text r]> m) ∅ (rows df).
Proof.
  unfold load_sales_category_mapping. cbn [mbind result_bind].
  destruct (Pd.has_column df "Tenant") eqn:Ht; [|done].
  destruct (Pd.has_column df "Sales Category") eqn:Hc; [|done].
  cbn [negb orb]. apply has_column_spec in Ht, Hc.
  rewrite !getitem_ok by done. cbn [mbind result_bind].
  intros [= <-]. split; [done|]. split; [done|].
  rewrite <-!list_fmap_compose. apply series_to_dict_rows.
Qed.

Lemma foldl_insert_Some (f g : row → string) (l : list row) (k v : string) :
  foldl (λ (m : gmap string string) r, <[f r := g r]> m) ∅ l !! k = Some v →
  ∃ r, r ∈ l ∧ f r = k ∧ g r = v.
Proof.
  induction l as [|r l IH] using rev_ind; [cbn [foldl]; by rewrite lookup_empty|].
  rewrite foldl_app. cbn [foldl].
  destruct (decide (f r = k)) as [<-|Hne].
  - rewrite lookup_insert_eq. intros [= <-]. exists r.
    split; [|done]. apply elem_of_app. right. by left.
  - rewrite lookup_insert_ne by done. intros (r' & Hr' & Hk)%IH.
    exists r'. split; [|done]. apply elem_of_app. by left.
Qed.

Lemma tenant_key_text (r : row) (t : string) :
  r !! "Tenant" = Some (Str t) → tenant_key r = Py.strip t.
Proof. unfold tenant_key. by intros ->. Qed.

Lemma category_text_text (r : row) (c : string) :
  r !! "Sales Category" = Some (Str c) → category_text r = Py.strip c.
Proof. unfold category_text. by intros ->. Qed.

(** The entries of a mapping loaded from a file whose tenants and
    categories are all text *)
Lemma load_mapping_entries (df : DataFrame) (m : gmap string string) :
  text_column df "Tenant" → text_column df "Sales Category" →
  load_sales_category_mapping (Ok df) = Ok m →
  (∀ k v, m !! k = Some v →
     ∃ r t c, r ∈ rows df ∧ r !! "Tenant" = Some (Str t) ∧
              r !! "Sales Category" = Some (Str c) ∧
              trimmed t k ∧ trimmed c v) ∧
  (∀ l1 r l2 t c k v, rows df = l1 ++ r :: l2 →
     r !! "Tenant" = Some (Str t) → r !! "Sales Category" = Some (Str c) →
     trimmed t k → trimmed c v →
     (∀ r' t', r' ∈ l2 → r' !! "Tenant" = Some (Str t') → ¬ trimmed t' k) →
     m !! k = Some v).
Proof.
  intros Htenants Hcategories (_ & _ & ->)%load_sales_category_mapping_inv.
  split.
  - intros k v (r & Hr & <- & <-)%foldl_insert_Some.
    destruct (Htenants r Hr) as [t Ht]. destruct (Hcategories r Hr) as [c Hc].
    exists r, t, c. rewrite (tenant_key_text r t Ht), (category_text_text r c Hc).
    repeat split; [done..| |]; apply strip_trimmed.
  - intros l1 r l2 t c k v Hrows Ht Hc <-%trimmed_strip <-%trimmed_strip Hlast.
    rewrite Hrows, <-(tenant_key_text r t Ht), <-(category_text_text r c Hc).
    apply foldl_insert_last. intros r' Hr' Hk.
    destruct (Htenants r') as [t' Ht'].
    { rewrite Hrows. apply elem_of_app. right. by right. }
    apply (Hlast r' t' Hr' Ht').
    rewrite <-(tenant_key_text r t Ht), <-Hk, (tenant_key_text r' t' Ht').
    apply strip_trimmed.
Qed.

(** X10. Loading the category mapping fails exactly when the file could
    not be read or lacks the Tenant or the Sales Category column.  For a
    file whose tenants and categories are all text, every entry of the
    loaded mapping comes from a row: its key is the row's tenant and its
    value the row's category, both without their leading and trailing
    whitespace; and the last row with a given key decides the entry of
    that key. *)
Theorem load_sales_category_mapping_spec (file : result DataFrame) :
  ((∃ e, load_sales_category_mapping file = Raise e) ↔
   (∃ e, file = Raise e) ∨
   (∃ df, file = Ok df ∧
          ("Tenant" ∉ columns df ∨ "Sales Category" ∉ columns df))) ∧
  (∀ df m, file = Ok df →
     text_column df "Tenant" → text_column df "Sales Category" →
     load_sales_category_mapping file = Ok m →
     (∀ k v, m !! k = Some v →
        ∃ r t c, r ∈ rows df ∧ r !! "Tenant" = Some (Str t) ∧
                 r !! "Sales Category" = Some (Str c) ∧
                 trimmed t k ∧ trimmed c v) ∧
     (∀ l1 r l2 t c k v, rows df = l1 ++ r :: l2 →
        r !! "Tenant" = Some (Str t) → r !! "Sales Category" = Some (Str c) →
        trimmed t k → trimmed c v →
        (∀ r' t', r' ∈ l2 → r' !! "Tenant" = Some (Str t') → ¬ trimmed t' k) →
        m !! k = Some v)).
Proof.
  split.
  - destruct file as [df|e].
    + unfold load_sales_category_mapping. cbn [mbind result_bind].
      destruct (Pd.has_column df "Tenant") eqn:Ht;
        destruct (Pd.has_column df "Sales Category") eqn:Hc; cbn [negb orb].
      * apply has_column_spec in Ht, Hc. rewrite !getitem_ok by done.
        cbn [mbind result_bind]. split; [by intros [? ?]|].
        intros [[? ?]|(df' & [= <-] & [?|?])]; done.
      * split; [|by eauto]. intros _. right. exists df. split; [done|].
        right. rewrite <-has_column_spec. by rewrite Hc.
      * split; [|by eauto]. intros _. right. exists df. split; [done|].
        left. rewrite <-has_column_spec. by rewrite Ht.
      * split; [|by eauto]. intros _. right. exists df. split; [done|].
        left. rewrite <-has_column_spec. by rewrite Ht.
    + split; [by eauto|]. intros _. by eexists.
  - intros df m -> Htenants Hcategories Hm. by apply load_mapping_entries.
Qed.

Example load_mapping_last_row_wins :
  ∃ m, load_sales_category_mapping (Ok repeated_tenant) = Ok m ∧
       m !! "merchantA" = Some "Services" ∧
       m !! "merchantB" = Some "Retail" ∧
       m !! "merchantC" = None.
Proof. eexists. split; [vm_compute; reflexivity|]. repeat split. Qed.

(** X11. Loading and enrichment composed, for a category file whose
    tenants and categories are all text and a row of a market report
    whose merchant cell is text or missing.  With the merchant name
    without its leading and trailing whitespace as the key, the row gets
    the category, likewise trimmed, of the last row of the category file
    whose trimmed tenant is the key, and the empty string when the file
    has no such row. *)
Theorem enrichment_matches_trimmed_names (categories df df' : DataFrame)
    (m : gmap string string) (i : nat) (r : row) (name : string) :
  text_column categories "Tenant" →
  text_column categories "Sales Category" →
  load_sales_category_mapping (Ok categories) = Ok m →
  add_sales_category df m = Ok df' →
  rows df !! i = Some r →
  merchant_text r name →
  ∃ r' key, rows df' !! i = Some r' ∧ trimmed name key ∧
    (∀ l1 t l2 tn c v, rows categories = l1 ++ t :: l2 →
       t !! "Tenant" = Some (Str tn) → t !! "Sales Category" = Some (Str c) →
       trimmed tn key → trimmed c v →
       (∀ t' tn', t' ∈ l2 → t' !! "Tenant" = Some (Str tn') →
                  ¬ trimmed tn' key) →
       r' !! "Sales Category" = Some (Str v)) ∧
    ((∀ t tn, t ∈ rows categories → t !! "Tenant" = Some (Str tn) →
              ¬ trimmed tn key) →
     r' !! "Sales Category" = Some (Str "")).
Proof.
  intros Htenants Hcategories Hm Hok Hr Hname.
  destruct (load_mapping_entries categories m Htenants Hcategories Hm)
    as [Hentry Hlast].
  apply add_sales_category_rows in Hok. rewrite Hok, list_lookup_fmap, Hr.
  eexists _, (Py.strip name). split; [reflexivity|].
  split; [apply strip_trimmed|].
  rewrite lookup_set_cell. unfold category_of, Py.dict_get.
  assert (Pd.astype_str (Pd.fillna (Str "") (r !! "ShopName")) = name) as ->.
  { by destruct Hname as [->|[-> ->]]. }
  split.
  - intros l1 t l2 tn c v Hrows Htn Hc Hkey Hv Hlater.
    by rewrite (Hlast l1 t l2 tn c (Py.strip name) v Hrows Htn Hc Hkey Hv Hlater).
  - intros Hnone. destruct (m !! Py.strip name) as [v|] eqn:Hlookup; [|done].
    destruct (Hentry _ _ Hlookup) as (t & tn & c & Ht & Htn & _ & Hkey & _).
    by destruct (Hnone t tn Ht Htn).
Qed.

Lemma enrichment_matches_trimmed_names_witness :
  ∃ m df' r',
    load_sales_category_mapping (Ok repeated_tenant) = Ok m ∧
    add_sales_category padded_report m = Ok df' ∧
    rows df' !! 0 = Some r' ∧
    r' !! "Sales Category" = Some (Str "Services").
Proof.
  assert (Htext : ∀ c, c = "Tenant" ∨ c = "Sales Category" →
                       text_column repeated_tenant c).
  { intros c Hc r Hr. apply list_elem_of_In in Hr. cbn in Hr.
    destruct Hr as [<-|[<-|[<-|[]]]]; destruct Hc as [-> | ->];
      eexists; vm_compute; reflexivity. }
  destruct (load_sales_category_mapping (Ok repeated_tenant))
    as [m|] eqn:Hm; [|vm_compute in Hm; discriminate Hm].
  destruct (add_sales_category padded_report m)
    as [df'|] eqn:Hok.
  2:{ destruct (add_sales_category_ok padded_report m) as [df' Hdf'].
      - apply has_column_spec. reflexivity.
      - rewrite Hdf' in Hok. discriminate Hok. }
  destruct (enrichment_matches_trimmed_names repeated_tenant padded_report df'
              m 0 _ ("merchantA" +:+ Py.chr 12288 +:+ " ")
              (Htext _ (or_introl eq_refl)) (Htext _ (or_intror eq_refl))
              Hm Hok eq_refl (or_introl eq_refl))
    as (r' & key & Hr' & Hkey & Hlast & _).
  exists m, df', r'. split; [reflexivity|]. split; [exact Hok|].
  split; [exact Hr'|].
  apply trimmed_strip in Hkey. vm_compute in Hkey. subst key.
  apply (Hlast [_; _] _ [] (Py.chr 160 +:+ "merchantA ")
               ("Services" +:+ Py.chr 12288) "Services" eq_refl eq_refl eq_refl).
  - assert (Py.strip (Py.chr 160 +:+ "merchantA ") = "merchantA") as <-
      by (vm_compute; reflexivity).
    apply strip_trimmed.
  - assert (Py.strip ("Services" +:+ Py.chr 12288) = "Services") as <-
      by (vm_compute; reflexivity).
    apply strip_trimmed.
  - intros t' tn' Ht'. by apply elem_of_nil in Ht'.
Defined.

(** ** Sheet names *)

Lemma continuation_sheet_name_char (c : ascii) :
  Py.continuation (sheet_name_char c) = Py.continuation c.
Proof.
  unfold sheet_name_char. case_bool_decide as Hc; [|done].
  apply list_elem_of_In in Hc. cbn in Hc.
  destruct Hc as [<-|[<-|[<-|[<-|[<-|[<-|[<-|[]]]]]]]]; reflexivity.
Qed.

Lemma len_sheet_name_chars (s : string) :
  Py.len (Py.map_chars sheet_name_char s) = Py.len s.
Proof.
  induction s as [|c s IH]; [done|].
  cbn [Py.map_chars Py.len]. by rewrite continuation_sheet_name_char, IH.
Qed.

Lemma sheet_name_char_safe (c d : ascii) :
  c ∈ unsafe_chars → sheet_name_char d ≠ c.
Proof.
  intros Hc. unfold sheet_name_char. fold unsafe_chars.
  case_bool_decide as Hd.
  - intros <-. apply list_elem_of_In in Hc. cbn in Hc.
    intuition discriminate.
  - by intros ->.
Qed.

Lemma sheet_name_safe (market : value) :
  Py.len (sheet_name market) ≤ 31 ∧
  ∀ c, c ∈ unsafe_chars → mentions c (sheet_name market) = false.
Proof.
  unfold sheet_name. split.
  - rewrite len_sheet_name_chars. apply len_take.
  - intros c Hc. induction (Py.take 31 (Py.str market)) as [|d s IH]; [done|].
    cbn [Py.map_chars mentions]. rewrite IH, orb_false_r.
    apply bool_decide_eq_false. by apply sheet_name_char_safe.
Qed.

Lemma dict_set_keys {V} (d : list (string * V)) (k : string) (v : V) :
  (dict_set d k v).*1 = if bool_decide (k ∈ d.*1) then d.*1 else d.*1 ++ [k].
Proof.
  induction d as [|[k' v'] d IH]; [done|].
  cbn [dict_set]. rewrite (fmap_cons fst _ d). cbn [fst].
  destruct (bool_decide_reflect (k' = k)) as [Hk|Hk].
  - subst k'. rewrite fmap_cons. cbn [fst].
    rewrite bool_decide_eq_true_2; [done|]. apply elem_of_cons. by left.
  - rewrite fmap_cons, IH. cbn [fst]. case_bool_decide as Hin.
    + rewrite bool_decide_eq_true_2; [done|]. apply elem_of_cons. by right.
    + rewrite bool_decide_eq_false_2; [done|].
      intros [?|?]%elem_of_cons; congruence.
Qed.

Lemma dict_set_NoDup {V} (d : list (string * V)) (k : string) (v : V) :
  NoDup d.*1 → NoDup (dict_set d k v).*1.
Proof.
  intros Hd. rewrite dict_set_keys. case_bool_decide as Hk; [done|].
  apply NoDup_app. split; [done|]. split; [|apply NoDup_singleton].
  intros x Hx ->%list_elem_of_singleton. done.
Qed.

Lemma elem_of_dict_set_new {V} (d : list (string * V)) (k : string) (v : V) :
  (k, v) ∈ dict_set d k v.
Proof.
  induction d as [|[k' v'] d IH]; cbn [dict_set]; [left|].
  case_bool_decide; [left|by right].
Qed.

Lemma elem_of_dict_set_other {V} (d : list (string * V)) (k k' : string)
    (v v' : V) :
  k' ≠ k → (k', v') ∈ d → (k', v') ∈ dict_set d k v.
Proof.
  intros Hne. induction d as [|[k0 v0] d IH]; [by intros ?%elem_of_nil|].
  cbn [dict_set]. intros [[= -> ->]|Hin]%elem_of_cons.
  - rewrite bool_decide_eq_false_2 by done. left.
  - case_bool_decide; right; [done|by apply IH].
Qed.

Section sheet_names.
Context `{Pd.SortValues}.

Lemma market_worksheets_loop_NoDup (daily_df : DataFrame) (market_col : string)
    (markets : list value) (sheets : list (string * list SheetRow)) :
  NoDup sheets.*1 →
  NoDup (market_worksheets_loop daily_df market_col markets sheets).*1.
Proof.
  revert sheets. induction markets as [|market rest IH]; intros sheets Hs; [done|].
  cbn [market_worksheets_loop].
  destruct (market_worksheet _ _ _) as [[[name sheet]|]|]; [| |done].
  - by apply IH, dict_set_NoDup.
  - by apply IH.
Qed.

Lemma market_sheet_names_nodup (daily_df : DataFrame)
    (mapping : gmap string string) :
  NoDup (generate_market_worksheets daily_df mapping).*1.
Proof.
  unfold generate_market_worksheets.
  destruct (worksheet_market_col daily_df) as [market_col|]; [|constructor].
  destruct (Pd.has_column daily_df "ShopName"); cbn [negb]; [|constructor].
  destruct (Pd.getitem daily_df market_col); [|constructor].
  apply market_worksheets_loop_NoDup. constructor.
Qed.

(** X12. Market worksheets have names a workbook accepts and no two of
    them share a name: every sheet name has at most 31 characters and
    none of the characters / \ * [ ] : ?, and the names of the sheets
    returned are pairwise distinct. *)
Theorem market_sheet_names_safe (daily_df : DataFrame)
    (mapping : gmap string string) :
  NoDup (generate_market_worksheets daily_df mapping).*1 ∧
  ∀ name sheet, (name, sheet) ∈ generate_market_worksheets daily_df mapping →
    Py.len name ≤ 31 ∧
    ∀ c, c ∈ unsafe_chars → mentions c name = false.
Proof.
  split; [apply market_sheet_names_nodup|].
  - intros name sheet
      (market_col & market & left_data & merchant_rows & _ & _ & _ & _ & _ &
       -> & _)%generate_market_worksheets_inv.
    apply sheet_name_safe.
Qed.

End sheet_names.

Example sheet_names_example :
  (generate_market_worksheets market_named_weekly ∅).*1 = ["Weekly"; "a_b_c"] ∧
  sheet_name (Str "大埔墟街市大埔墟街市大埔墟街市大埔墟街市大埔墟街市大埔墟街市大埔")
  = "大埔墟街市大埔墟街市大埔墟街市大埔墟街市大埔墟街市大埔墟街市大" ∧
  sheet_name (Str "北葵涌街市熟食中心大樓二期") = "北葵涌街市熟食中心大樓二期".
Proof. vm_compute. repeat split. Qed.

(** ** The two blocks of a market worksheet *)

Section blocks.
Context `{Pd.SortValues}.

Lemma left_block_inv (daily_df : DataFrame) (market_col : string)
    (market : value) (left_data : list (value * nat)) :
  left_block (Pd.where_eq daily_df market_col market) = Ok left_data →
  ∃ usage,
    counts_rows_by (Pd.where_eq daily_df market_col market) "ShopName" usage ∧
    Sorted (Pd.count_ge snd) usage ∧
    left_data = (λ t : value * nat, (alias_tenant t.1, t.2)) <$> usage.
Proof.
  unfold left_block, Pd.getitem.
  destruct (Pd.has_column _ "ShopName"); [|done].
  cbn [mbind result_bind]. intros [= <-].
  eexists. split; [|split; [|reflexivity]].
  - apply value_counts_rows, Pd.sort_desc_perm.
  - apply Pd.sort_desc_sorted.
Qed.

Lemma length_counts_rows_by (df : DataFrame) (col : string)
    (table : list (value * nat)) (keys : list value) :
  counts_rows_by df col table →
  NoDup keys →
  (∀ v, v ∈ keys ↔ ∃ r, r ∈ rows df ∧ r !! col = Some v) →
  length table = length keys.
Proof.
  intros (Hnodup & Hin & _) Hkeys Hmem.
  rewrite <-(length_fmap fst table). apply Permutation_length.
  apply NoDup_Permutation; [done..|].
  intros v. rewrite Hmem, list_elem_of_fmap. split.
  - intros ([v' n] & -> & [Hpos Hn]%Hin). cbn [fst].
    unfold rows_with in Hn. subst n.
    destruct (filter _ (rows df)) as [|r l] eqn:Hf; [cbn in Hpos; lia|].
    assert (r ∈ filter (λ r : row, r !! col = Some v') (rows df))
      as [Hv Hr]%list_elem_of_filter by (rewrite Hf; left).
    by exists r.
  - intros (r & Hr & Hv). exists (v, rows_with df col v). split; [done|].
    apply Hin. split; [|done]. unfold rows_with.
    assert (r ∈ filter (λ r : row, r !! col = Some v) (rows df)) as Hf
      by (by apply list_elem_of_filter).
    destruct (filter _ (rows df)); [by apply elem_of_nil in Hf|cbn; lia].
Qed.

(** X13. In a market worksheet the two blocks always have the same
    number of merchant rows, so no block is ever padded: below the two
    header rows every row shows a merchant with a positive count on the
    left and a merchant flagged Y on the right. *)
Theorem market_sheet_blocks_aligned (daily_df : DataFrame)
    (mapping : gmap string string) (name : string) (sheet : list SheetRow) :
  (name, sheet) ∈ generate_market_worksheets daily_df mapping →
  ∃ market_col market left_data merchant_rows,
    worksheet_market_col daily_df = Some market_col ∧
    left_block (Pd.where_eq daily_df market_col market) = Ok left_data ∧
    right_block daily_df (Pd.where_eq daily_df market_col market)
                market_col market = Ok merchant_rows ∧
    length left_data = length merchant_rows ∧
    length sheet = length merchant_rows + 2 ∧
    ∀ i row, sheet !! (i + 2) = Some row →
      right_flag row = Str "Y" ∧
      ∃ n, 0 < n ∧ left_count row = int n.
Proof.
  intros (market_col & market & left_data & merchant_rows & Hcol & _ & _ &
          Hleft & Hright & _ & ->)%generate_market_worksheets_inv.
  exists market_col, market, left_data, merchant_rows.
  split; [done|]. split; [done|]. split; [done|].
  apply left_block_inv in Hleft as (usage & Husage & _ & ->).
  apply right_block_inv in Hright as (tenants & Hnodup & Htenants & ->).
  assert (Hlen : length usage = length tenants).
  { apply (length_counts_rows_by _ _ _ _ Husage Hnodup).
    intros v. rewrite Htenants. split.
    - intros (r & Hr & Hm & Hv). exists r. by rewrite elem_of_where_eq.
    - intros (r & [Hr Hm]%elem_of_where_eq & Hv). by exists r. }
  rewrite !length_fmap.
  split; [done|]. split.
  - rewrite length_combined_data, !length_fmap. lia.
  - intros i row Hrow.
    apply lookup_lt_Some in Hrow as Hlt.
    rewrite length_combined_data, !length_fmap in Hlt.
    rewrite lookup_combined_data in Hrow by (rewrite !length_fmap; lia).
    injection Hrow as <-. rewrite combined_row_body, !list_lookup_fmap.
    destruct (usage !! i) as [[tenant n]|] eqn:Hu.
    2:{ apply lookup_ge_None in Hu. lia. }
    destruct (tenants !! i) as [tenant'|] eqn:Ht.
    2:{ apply lookup_ge_None in Ht. lia. }
    cbn. split; [done|]. exists n. split; [|done].
    apply list_elem_of_lookup_2 in Hu.
    destruct Husage as (_ & Hin & _). by apply Hin in Hu as [? _].
Qed.

End blocks.

Lemma market_sheet_blocks_aligned_witness :
  ∃ name sheet (left_data : list (value * nat)) (merchant_rows : list MerchantRow),
    (name, sheet) ∈ generate_market_worksheets sample_ledger ∅ ∧
    length left_data = length merchant_rows ∧
    length sheet = length merchant_rows + 2.
Proof.
  assert (∃ name sheet,
            (name, sheet) ∈ generate_market_worksheets sample_ledger ∅)
    as (name & sheet & Hin).
  { eexists _, _. vm_compute. left. }
  destruct (market_sheet_blocks_aligned sample_ledger ∅ name sheet Hin)
    as (market_col & market & left_data & merchant_rows & _ & _ & _ &
        Hlen & Hsheet & _).
  by exists name, sheet, left_data, merchant_rows.
Defined.

(** ** Replacement of the raw merchant name *)

Lemma replace_from_skip (old new : string) (k : nat) (s : string) :
  Py.replace_from old new k s = Py.replace_from old new 0 (drop_str k s).
Proof.
  revert k. induction s as [|c s IH]; intros [|k]; try done.
  cbn [Py.replace_from drop_str]. apply IH.
Qed.

Lemma length_drop_str (k : nat) (s : string) :
  String.length (drop_str k s) ≤ String.length s.
Proof.
  revert s. induction k as [|k IH]; intros [|c s]; cbn; try lia.
  specialize (IH s). lia.
Qed.

Section replace.
(** [old] starts with [o], [new] starts with [u]; [u] does not occur in
    [old] and [o] does not occur in [new]. *)
Variables (o u : ascii) (old' new' : string).
Let old := String o old'.
Let new := String u new'.
Hypothesis u_not_in_old : mentions u old = false.
Hypothesis o_not_in_new : mentions o new = false.

Lemma replace_cons (c : ascii) (s : string) :
  Py.replace old new (String c s) =
  if String.prefix old (String c s)
  then new +:+ Py.replace old new (drop_str (String.length old - 1) s)
  else String c (Py.replace old new s).
Proof.
  unfold Py.replace. cbn [Py.replace_from].
  by rewrite (replace_from_skip old new (String.length old - 1) s).
Qed.

(** A string free of [u] that starts the output started the input. *)
Lemma prefix_replace (p s : string) :
  mentions u p = false →
  String.prefix p (Py.replace old new s) = true → String.prefix p s = true.
Proof.
  revert s. induction p as [|a p IH]; intros s Hp; [by destruct s|].
  cbn [mentions] in Hp. apply orb_false_iff in Hp as [Ha Hp].
  apply bool_decide_eq_false in Ha.
  destruct s as [|c s]; [done|]. rewrite replace_cons.
  destruct (String.prefix old (String c s)).
  - unfold new. change (String u new' +:+ ?t) with (String u (new' +:+ t)).
    cbn [String.prefix]. by destruct (ascii_dec a u).
  - cbn [String.prefix]. destruct (ascii_dec a c); [|done]. by apply IH.
Qed.

Lemma contains_cons_other (d : ascii) (t : string) :
  d ≠ o → Py.contains old (String d t) = Py.contains old t.
Proof.
  intros Hd. cbn [Py.contains]. unfold old at 1. cbn [String.prefix].
  destruct (ascii_dec o d); [congruence|done].
Qed.

Lemma contains_app_other (n t : string) :
  mentions o n = false → Py.contains old (n +:+ t) = Py.contains old t.
Proof.
  induction n as [|d n IH]; [done|].
  cbn [mentions]. intros [Hd Hn]%orb_false_iff.
  apply bool_decide_eq_false in Hd.
  change (String d n +:+ t) with (String d (n +:+ t)).
  rewrite contains_cons_other by done. by apply IH.
Qed.

(** After the replacement no occurrence of [old] is left. *)
Lemma replace_removes (s : string) :
  Py.contains old (Py.replace old new s) = false.
Proof.
  remember (String.length s) as n eqn:Hn.
  assert (Hle : String.length s ≤ n) by lia. clear Hn.
  revert s Hle. induction n as [|n IH]; intros [|c s] Hle; try done.
  { cbn in Hle. lia. }
  cbn [String.length] in Hle.
  destruct (String.prefix old (String c s)) eqn:Hprefix.
  - rewrite replace_cons, Hprefix.
    rewrite contains_app_other by done. apply IH.
    pose proof (length_drop_str (String.length old - 1) s). lia.
  - destruct (Py.contains old (Py.replace old new (String c s))) eqn:Hc; [|done].
    rewrite replace_cons, Hprefix in Hc. cbn [Py.contains] in Hc.
    rewrite (IH s) in Hc by lia. rewrite orb_false_r in Hc.
    assert (String.prefix old (Py.replace old new (String c s)) = true) as Hp
      by (by rewrite replace_cons, Hprefix).
    apply prefix_replace in Hp; [congruence|done].
Qed.

End replace.

Lemma alias_tenant_clean (x : value) :
  Py.contains raw_name (Py.str (alias_tenant x)) = false.
Proof.
  unfold alias_tenant.
  destruct (Py.contains raw_name (Py.str x)) eqn:Hx; [|done].
  cbn [Py.str]. by apply (replace_removes "M" "U").
Qed.

Lemma alias_display_clean (x : value) :
  Py.contains raw_name (alias_display x) = false.
Proof.
  unfold alias_display.
  destruct (Py.contains raw_name (Py.str x)) eqn:Hx; [|done].
  by apply (replace_removes "M" "U").
Qed.

Lemma elem_of_concat {A} (ls : list (list A)) (x : A) :
  x ∈ concat ls ↔ ∃ l, x ∈ l ∧ l ∈ ls.
Proof.
  induction ls as [|l ls IH]; cbn [concat].
  - split; [by intros ?%elem_of_nil|by intros (l & _ & ?%elem_of_nil)].
  - rewrite elem_of_app, IH. split.
    + intros [Hx|(l' & Hx & Hl')]; [exists l|exists l']; split; try done;
        [left|by right].
    + intros (l' & Hx & [->|Hl']%elem_of_cons); [by left|right; by exists l'].
Qed.

Section alias.
Context `{Pd.SortValues}.

Lemma pivot_rows_inv (daily_df : DataFrame) (pivot : list PivotRow)
    (row : PivotRow) :
  generate_pivot_worksheet daily_df = Some pivot → row ∈ pivot →
  Tenant row = Str "" ∨ ∃ x, Tenant row = alias_tenant x.
Proof.
  unfold generate_pivot_worksheet.
  destruct (pivot_market_col daily_df) as [market_col|]; [|done].
  destruct (Pd.has_column daily_df "ShopName"); [|done]. cbn [negb].
  destruct (Pd.groupby2_size _ _ _) as [sizes|]; [|done].
  cbn [mbind result_bind].
  destruct (Pd.getitem _ _) as [s|]; [|done]. cbn [mbind result_bind].
  destruct (py_sorted _) as [markets|]; [|done]. cbn [mbind result_bind].
  destruct (traverse _ markets) as [blocks|] eqn:Hblocks; [|done].
  cbn [mbind result_bind except_none]. intros [= <-].
  apply traverse_Forall2 in Hblocks.
  intros (block & Hrow & Hblock)%elem_of_concat.
  apply list_elem_of_lookup in Hblock as [i Hi].
  destruct (Forall2_lookup_r _ _ _ _ _ Hblocks Hi) as (market & _ & Hb).
  apply pivot_block_inv in Hb as (total & tenants & _ & Hperm & _ & ->).
  apply elem_of_cons in Hrow as [->|Hrow]; [by left|].
  apply list_elem_of_fmap in Hrow as (t & -> & Ht). right. cbn [Tenant].
  rewrite Hperm in Ht. apply list_elem_of_filter in Ht as [_ Ht].
  apply list_elem_of_fmap in Ht as (e & -> & _). by eexists.
Qed.

(** X14. The raw merchant name MARAE LIMITED is never shown: no tenant
    field of the pivot worksheet and no tenant field of either block of
    a market worksheet contains it. *)
Theorem raw_name_never_shown (daily_df : DataFrame)
    (mapping : gmap string string) :
  (∀ pivot row, generate_pivot_worksheet daily_df = Some pivot →
     row ∈ pivot →
     Py.contains raw_name (Py.str (Tenant row)) = false) ∧
  (∀ name sheet row,
     (name, sheet) ∈ generate_market_worksheets daily_df mapping →
     row ∈ sheet →
     Py.contains raw_name (Py.str (left_tenant row)) = false ∧
     Py.contains raw_name (Py.str (right_tenant row)) = false).
Proof.
  split.
  - intros pivot row Hpivot Hrow.
    destruct (pivot_rows_inv _ _ _ Hpivot Hrow) as [->|[x ->]]; [done|].
    apply alias_tenant_clean.
  - intros name sheet row
      (market_col & market & left_data & merchant_rows & _ & _ & _ &
       Hleft & Hright & _ & ->)%generate_market_worksheets_inv Hrow.
    apply left_block_inv in Hleft as (usage & _ & _ & ->).
    apply right_block_inv in Hright as (tenants & _ & _ & ->).
    unfold combined_data in Hrow.
    apply list_elem_of_fmap in Hrow as (i & -> & _).
    destruct i as [|[|i]]; [done..|].
    replace (S (S i)) with (i + 2) by lia.
    rewrite combined_row_body, !list_lookup_fmap.
    destruct (usage !! i) as [[tenant n]|], (tenants !! i) as [tenant'|];
      cbn; auto using alias_tenant_clean, alias_display_clean.
Qed.

End alias.

Example raw_name_example :
  fmap (M := list) Tenant <$> generate_pivot_worksheet marae_ledger =
  Some [Str ""; Str "U士多 (2/F)"; Str "U士多"; Str "merchantB"].
Proof. reflexivity. Qed.

(** ** The loop over the market files *)

Lemma valid_upload_enriched (file : Upload) (m : gmap string string) :
  valid_upload file = true →
  ∃ df df', content file = Ok df ∧ add_sales_category df m = Ok df'.
Proof.
  unfold valid_upload. intros [_ Hcontent]%andb_true_iff.
  destruct (content file) as [df|]; [|done].
  apply has_column_spec in Hcontent.
  destruct (add_sales_category_ok df m Hcontent) as [df' Hdf'].
  by exists df, df'.
Qed.

Lemma process_market_files_cons (secure_filename : string → string)
    (m : gmap string string) (file : Upload) (rest : list Upload) :
  process_market_files secure_filename m (file :: rest) =
  let processed := process_market_files secure_filename m rest in
  if valid_upload file then
    match df ← content file; add_sales_category df m with
    | Ok df' =>
        (df' :: processed.1, secure_filename (filename file) :: processed.2)
    | Raise _ => processed
    end
  else processed.
Proof.
  cbn [process_market_files]. unfold valid_upload.
  destruct (process_market_files secure_filename m rest) as [frames names].
  cbn zeta. cbn [fst snd].
  destruct (bool_decide (filename file = "")); [done|].
  destruct (allowed_file (filename file)); [|done]. cbn [negb orb andb].
  destruct (content file) as [df|]; [|done]. cbn [mbind result_bind].
  destruct (Pd.has_column df "ShopName") eqn:Hshop; [done|].
  unfold add_sales_category. by rewrite Hshop.
Qed.

(** X15. The loop over the market files processes exactly the valid
    uploads, in upload order: the names reported are the sanitised names
    of the valid uploads, and the frames collected are their enriched
    contents, one per valid upload.  An upload with an empty name, a
    refused extension, an unreadable content or no ShopName column is
    passed over without stopping the loop. *)
Theorem process_market_files_valid (secure_filename : string → string)
    (m : gmap string string) (market_files : list Upload) :
  let processed := process_market_files secure_filename m market_files in
  let valid := filter (λ f, valid_upload f = true) market_files in
  processed.2 = (λ f, secure_filename (filename f)) <$> valid ∧
  Forall2 (λ f df', ∃ df, content f = Ok df ∧ add_sales_category df m = Ok df')
          valid processed.1.
Proof.
  cbn zeta. induction market_files as [|file rest [IHnames IHframes]].
  - split; [done|constructor].
  - rewrite process_market_files_cons, filter_cons. cbn zeta.
    destruct (valid_upload file) eqn:Hvalid.
    + rewrite decide_True by done.
      destruct (valid_upload_enriched file m Hvalid) as (df & df' & Hdf & Hdf').
      rewrite Hdf. cbn [mbind result_bind]. rewrite Hdf'. cbn [fst snd].
      split; [by rewrite fmap_cons, IHnames|].
      constructor; [by exists df|done].
    + rewrite decide_False by done. done.
Qed.

Example process_market_files_example :
  (process_market_files (λ name, name) ∅
     [mkUpload "east.xlsx" (Ok sample_ledger);
      mkUpload "notes.txt" (Ok sample_ledger);
      mkUpload "" (Ok sample_ledger);
      mkUpload "west.csv" (Raise ValueError);
      mkUpload "cats.xls" (Ok sample_categories);
      mkUpload "south.CSV" (Ok two_markets)]).2
  = ["east.xlsx"; "south.CSV"].
Proof. reflexivity. Qed.

(** ** Concatenation of frames *)

Lemma elem_of_union_columns (acc cols : list string) (c : string) :
  c ∈ Pd.union_columns acc cols ↔ c ∈ acc ∨ c ∈ cols.
Proof.
  unfold Pd.union_columns. rewrite elem_of_app, list_elem_of_filter.
  destruct (decide (c ∈ acc)); tauto.
Qed.

Lemma elem_of_foldl_union (acc : list string) (l : list (list string))
    (c : string) :
  c ∈ foldl Pd.union_columns acc l ↔ c ∈ acc ∨ ∃ cols, cols ∈ l ∧ c ∈ cols.
Proof.
  revert acc. induction l as [|cols l IH]; intros acc; cbn [foldl].
  - split; [by left|]. intros [?|(? & ?%elem_of_nil & _)]; done.
  - rewrite IH, elem_of_union_columns. split.
    + intros [[?|?]|(cols' & ? & ?)]; [by left| |].
      * right. exists cols. split; [left|done].
      * right. exists cols'. split; [by right|done].
    + intros [?|(cols' & [->|?]%elem_of_cons & ?)]; [by left; left|by left; right|].
      right. by exists cols'.
Qed.

(** The concatenation has every column of every frame, and the rows of
    the frames one after the other. *)
Lemma concat_inv (frames : list DataFrame) (df : DataFrame) :
  Pd.concat frames = Ok df →
  (∀ c, c ∈ columns df ↔ ∃ f, f ∈ frames ∧ c ∈ columns f) ∧
  rows df = frames ≫= rows.
Proof.
  unfold Pd.concat. destruct frames as [|f fs]; [done|].
  intros [= <-]. split; [|done].
  intros c.
  change (c ∈ foldl Pd.union_columns [] (columns <$> f :: fs) ↔
          ∃ g, g ∈ f :: fs ∧ c ∈ columns g).
  rewrite elem_of_foldl_union. split.
  - intros [?%elem_of_nil|(cols & (g & -> & Hg)%list_elem_of_fmap & Hc)]; [done|].
    by exists g.
  - intros (g & Hg & Hc). right. exists (columns g). split; [|done].
    apply list_elem_of_fmap. by exists g.
Qed.

Lemma concat_ok (frames : list DataFrame) :
  frames ≠ [] → ∃ df, Pd.concat frames = Ok df.
Proof. destruct frames; [done|]. intros _. by eexists. Qed.

(** ** Tables of a successful response *)

Lemma process_market_files_frames (secure_filename : string → string)
    (m : gmap string string) (market_files : list Upload) :
  Forall (λ df', ∃ df, add_sales_category df m = Ok df')
         (process_market_files secure_filename m market_files).1.
Proof.
  induction market_files as [|file rest IH]; [constructor|].
  rewrite process_market_files_cons. cbn zeta.
  destruct (valid_upload file); [|done].
  destruct (content file) as [df|]; [|done]. cbn [mbind result_bind].
  destruct (add_sales_category df m) as [df'|] eqn:Hdf'; [|done].
  constructor; [by exists df|done].
Qed.

Lemma not_empty (df : DataFrame) (c : string) :
  c ∈ columns df → rows df ≠ [] → Pd.empty df = false.
Proof.
  intros Hc Hrows. unfold Pd.empty.
  rewrite !bool_decide_eq_false_2; [done..|].
  intros Hnil. rewrite Hnil in Hc. by apply elem_of_nil in Hc.
Qed.

Section response_tables.
Context `{Pd.SortValues}.

Lemma top_merchant_some (ttl : string) (df : DataFrame) :
  "ShopName" ∈ columns df → rows df ≠ [] →
  ∃ t, top_merchant ttl df (Some "ShopName") = Some t.
Proof.
  intros Hc Hrows. unfold top_merchant.
  rewrite (not_empty _ _ Hc Hrows), (getitem_ok _ _ Hc). by eexists.
Qed.

Lemma merchant_category_some (ttl : string) (df : DataFrame) :
  "Sales Category" ∈ columns df → rows df ≠ [] →
  ∃ t, merchant_category ttl df = Some t ∧
       counts_rows_by df "Sales Category" (data t).
Proof.
  intros Hc Hrows. unfold merchant_category.
  rewrite (not_empty _ _ Hc Hrows). apply has_column_spec in Hc as Hc'.
  rewrite Hc', (getitem_ok _ _ Hc). cbn [negb andb mbind result_bind except_none].
  eexists. split; [reflexivity|]. cbn [data].
  apply value_counts_rows, Pd.sort_desc_perm.
Qed.

(** X16. In a successful response with at least one new record the
    Top-Merchant tables and the Merchant-Category tables are always
    there, weekly and over all records, because enrichment gave every
    processed frame a ShopName and a Sales Category column; and the
    counts of the weekly Merchant-Category table add up to the number of
    new records. *)
Theorem successful_response_tables (secure_filename : string → string)
    (timestamp : string) (save : list (string * Sheet) → string → result unit)
    (request : Request) (body : Report) :
  process_reports secure_filename timestamp save request = Success body →
  0 < new_records body →
  (∃ r weekly_table all_table,
     top_merchant_tables (tables body) = Some r ∧
     weekly r = Some weekly_table ∧ all r = Some all_table) ∧
  (∃ r weekly_table all_table,
     merchant_category_tables (tables body) = Some r ∧
     weekly r = Some weekly_table ∧ all r = Some all_table ∧
     sum_list (data weekly_table).*2 = new_records body).
Proof.
  unfold process_reports.
  destruct (market_reports request) as [market_files|]; [|done].
  destruct (summary request) as [summary_file|]; [|done].
  destruct (sales_category request) as [sales_category_file|]; [|done].
  case_match; [done|].
  destruct (load_sales_category_mapping _) as [mapping|]; [|done].
  destruct (content summary_file) as [daily|]; [|done].
  pose proof (process_market_files_frames secure_filename mapping market_files)
    as Hframes.
  destruct (process_market_files _ _ _) as [all_market_data uploaded].
  cbn [fst] in Hframes.
  destruct (bool_decide_reflect (all_market_data = [])) as [|Hne]; [done|].
  destruct (Pd.concat all_market_data) as [combined|] eqn:Hcombined; [|done].
  cbn [mbind result_bind].
  destruct (Pd.concat [daily; combined]) as [final|] eqn:Hfinal; [|done].
  cbn [mbind result_bind].
  destruct (save _ _) as [[]|]; [|done]. cbn [mbind result_bind].
  intros [= <-]. cbn [new_records tables generate_summary_tables
                      top_merchant_tables merchant_category_tables].
  intros Hnew.
  apply concat_inv in Hcombined as [Hcols Hrows].
  apply concat_inv in Hfinal as [Hcols' Hrows'].
  assert (Hcombined_rows : rows combined ≠ []).
  { unfold Pd.len in Hnew. by destruct (rows combined); [cbn in Hnew; lia|]. }
  assert (Hfinal_rows : rows final ≠ []).
  { rewrite Hrows'. cbn. rewrite app_nil_r.
    intros [_ ?]%app_eq_nil. done. }
  assert (Hboth : "ShopName" ∈ columns combined ∧
                  "Sales Category" ∈ columns combined).
  { destruct all_market_data as [|f fs]; [done|].
    apply Forall_cons in Hframes as [[df Hdf] _].
    apply add_sales_category_columns in Hdf as (_ & Hs & Hc).
    split; apply Hcols; exists f; (split; [left|done]). }
  destruct Hboth as [Hshop Hcat].
  assert (Hshop' : "ShopName" ∈ columns final).
  { apply Hcols'. exists combined. split; [|done]. right. left. }
  assert (Hcat' : "Sales Category" ∈ columns final).
  { apply Hcols'. exists combined. split; [|done]. right. left. }
  split.
  - unfold generate_top_merchant_table.
    rewrite (proj2 (has_column_spec _ _) Hshop).
    rewrite (proj2 (has_column_spec _ _) Hshop').
    destruct (top_merchant_some "Top Merchant (Weekly)" combined
                Hshop Hcombined_rows) as [tw Htw].
    destruct (top_merchant_some "Top Merchant (All Records)" final
                Hshop' Hfinal_rows) as [ta Hta].
    rewrite Htw, Hta. by eexists _, tw, ta.
  - unfold generate_merchant_category_table.
    destruct (merchant_category_some "Merchant Category (Weekly)" combined
                Hcat Hcombined_rows) as (tw & Htw & Hcounts).
    destruct (merchant_category_some "Merchant Category (All Records)" final
                Hcat' Hfinal_rows) as (ta & Hta & _).
    rewrite Htw, Hta. eexists _, tw, ta.
    split; [reflexivity|]. split; [done|]. split; [done|].
    destruct Hcounts as (_ & _ & ->). apply rows_present_all.
    intros r Hr. rewrite Hrows in Hr.
    apply list_elem_of_bind in Hr as (f & Hr & Hf).
    rewrite Forall_forall in Hframes. destruct (Hframes f Hf) as [df Hdf].
    destruct (add_sales_category_cell _ _ _ _ Hdf Hr) as (c & -> & _). done.
Qed.

End response_tables.

Lemma successful_response_tables_witness :
  ∃ body r weekly_table,
    process_reports (λ name, name) "20240101_000000" (λ _ _, Ok ()) sample_request
      = Success body ∧
    0 < new_records body ∧
    merchant_category_tables (tables body) = Some r ∧
    weekly r = Some weekly_table ∧
    sum_list (data weekly_table).*2 = new_records body.
Proof.
  destruct (process_reports (λ name, name) "20240101_000000" (λ _ _, Ok ())
              sample_request) as [| |body] eqn:Hresp.
  - vm_compute in Hresp. discriminate Hresp.
  - vm_compute in Hresp. discriminate Hresp.
  - assert (Hnew : 0 < new_records body).
    { vm_compute in Hresp. injection Hresp as <-. cbn. lia. }
    destruct (proj2 (successful_response_tables _ _ _ _ _ Hresp Hnew))
      as (r & tw & ta & Hr & Htw & _ & Hsum).
    exists body, r, tw. split; [reflexivity|]. split; [exact Hnew|].
    split; [exact Hr|]. split; [exact Htw|exact Hsum].
Defined.

(** ** The sheets of the workbook *)

Lemma dict_set_keys_app {V} (d : list (string * V)) (k : string) (v : V) :
  ∃ tail, (dict_set d k v).*1 = d.*1 ++ tail.
Proof.
  rewrite dict_set_keys. case_bool_decide; [exists []|by exists [k]].
  by rewrite app_nil_r.
Qed.

Section update.
Context {V W : Type} (g : W → V).

(** [d.update(l)] for a dictionary [l] whose values are wrapped by [g] *)
Lemma update_keys_app (d : list (string * V)) (l : list (string * W)) :
  ∃ tail, (foldl (λ d kv, dict_set d kv.1 (g kv.2)) d l).*1 = d.*1 ++ tail.
Proof.
  revert d. induction l as [|[k w] l IH]; intros d; cbn [foldl fst snd].
  - exists []. by rewrite app_nil_r.
  - destruct (IH (dict_set d k (g w))) as [tail Htail].
    destruct (dict_set_keys_app d k (g w)) as [tail' Htail'].
    exists (tail' ++ tail). by rewrite Htail, Htail', app_assoc.
Qed.

Lemma update_NoDup (d : list (string * V)) (l : list (string * W)) :
  NoDup d.*1 → NoDup (foldl (λ d kv, dict_set d kv.1 (g kv.2)) d l).*1.
Proof.
  revert d. induction l as [|[k w] l IH]; intros d Hd; [done|].
  cbn [foldl]. by apply IH, dict_set_NoDup.
Qed.

Lemma update_keeps (d : list (string * V)) (l : list (string * W))
    (k : string) (v : V) :
  (k, v) ∈ d → k ∉ l.*1 →
  (k, v) ∈ foldl (λ d kv, dict_set d kv.1 (g kv.2)) d l.
Proof.
  revert d. induction l as [|[k' w] l IH]; intros d Hd Hk; [done|].
  rewrite fmap_cons in Hk. apply not_elem_of_cons in Hk as [Hne Hk].
  cbn [foldl]. apply IH; [|done]. by apply elem_of_dict_set_other.
Qed.

Lemma update_sets (d : list (string * V)) (l : list (string * W))
    (k : string) (w : W) :
  NoDup l.*1 → (k, w) ∈ l →
  (k, g w) ∈ foldl (λ d kv, dict_set d kv.1 (g kv.2)) d l.
Proof.
  revert d. induction l as [|[k' w'] l IH]; intros d Hl Hin.
  - by apply elem_of_nil in Hin.
  - rewrite fmap_cons in Hl. apply NoDup_cons in Hl as [Hk' Hl].
    cbn [foldl]. apply elem_of_cons in Hin as [[= -> ->]|Hin].
    + apply update_keeps; [apply elem_of_dict_set_new|done].
    + by apply IH.
Qed.

End update.

Section workbook.
Context `{Pd.SortValues}.

(** X17. The workbook never has two sheets of one name and always opens
    with the sheets named Daily Finance Report and Weekly.  Every market
    worksheet is in it under its own name.  A fixed sheet (the ledger,
    the weekly batch, the pivot) is in it unless a market worksheet has
    the same name, in which case the market worksheet takes its
    place. *)
Theorem workbook_sheets (final_df combined_df : DataFrame)
    (mapping : gmap string string) :
  let sheets := workbook final_df combined_df mapping in
  let markets := generate_market_worksheets final_df mapping in
  NoDup sheets.*1 ∧
  take 2 sheets.*1 = ["Daily Finance Report"; "Weekly"] ∧
  (∀ name sheet, (name, sheet) ∈ markets → (name, MarketSheet sheet) ∈ sheets) ∧
  ("Daily Finance Report" ∉ markets.*1 →
   ("Daily Finance Report", FrameSheet final_df) ∈ sheets) ∧
  ("Weekly" ∉ markets.*1 → ("Weekly", FrameSheet combined_df) ∈ sheets) ∧
  (∀ pivot, generate_pivot_worksheet final_df = Some pivot →
     "Pivot" ∉ markets.*1 → ("Pivot", PivotSheet pivot) ∈ sheets).
Proof.
  cbn zeta. unfold workbook.
  set (fixed := [("Daily Finance Report", FrameSheet final_df);
                 ("Weekly", FrameSheet combined_df)]).
  set (base := match generate_pivot_worksheet final_df with
               | Some pivot_df => dict_set fixed "Pivot" (PivotSheet pivot_df)
               | None => fixed
               end).
  assert (Hbase_keys : ∃ tail, base.*1 = fixed.*1 ++ tail).
  { unfold base. destruct (generate_pivot_worksheet final_df).
    - apply dict_set_keys_app.
    - exists []. by rewrite app_nil_r. }
  assert (Hfixed_nodup : NoDup fixed.*1).
  { apply NoDup_cons. split; [|apply NoDup_singleton].
    by intros ?%list_elem_of_singleton. }
  assert (Hbase_nodup : NoDup base.*1).
  { unfold base. destruct (generate_pivot_worksheet final_df); [|done].
    by apply dict_set_NoDup. }
  assert (Hfixed : ∀ e, e ∈ fixed → e ∈ base).
  { intros [k v] He. unfold base.
    destruct (generate_pivot_worksheet final_df); [|done].
    apply elem_of_dict_set_other; [|done].
    apply list_elem_of_In in He. cbn in He.
    destruct He as [[= <- _]|[[= <- _]|[]]]; done. }
  pose proof (market_sheet_names_nodup final_df mapping) as Hmarkets.
  split; [by apply update_NoDup|]. split; [|split; [|split; [|split]]].
  - destruct Hbase_keys as [tail Hbase].
    destruct (update_keys_app MarketSheet base
                (generate_market_worksheets final_df mapping)) as [tail' ->].
    rewrite Hbase. done.
  - intros name sheet Hin. by apply update_sets.
  - intros Hout. apply update_keeps; [|done]. apply Hfixed. left.
  - intros Hout. apply update_keeps; [|done]. apply Hfixed. right. left.
  - intros pivot Hpivot Hout. apply update_keeps; [|done].
    unfold base. rewrite Hpivot. apply elem_of_dict_set_new.
Qed.

End workbook.

Example workbook_example :
  (workbook market_named_weekly sample_ledger ∅).*1
    = ["Daily Finance Report"; "Weekly"; "Pivot"; "a_b_c"] ∧
  ∃ sheet, ("Weekly", MarketSheet sheet) ∈ workbook market_named_weekly sample_ledger ∅.
Proof. split; [reflexivity|]. eexists. vm_compute. right. left. Qed.

(** ** Conservation of counts in the pivot worksheet *)

Lemma sum_list_with_ext {B} (f g : B → nat) (l : list B) :
  (∀ x, x ∈ l → f x = g x) → sum_list_with f l = sum_list_with g l.
Proof.
  induction l as [|x l IH]; intros Hfg; [done|].
  cbn. rewrite Hfg by left. rewrite IH; [done|].
  intros y Hy. apply Hfg. by right.
Qed.

Lemma sum_list_with_add {B} (f g : B → nat) (l : list B) :
  sum_list_with (λ x, f x + g x) l = sum_list_with f l + sum_list_with g l.
Proof. induction l as [|x l IH]; [done|]. cbn. rewrite IH. lia. Qed.

Lemma sum_list_with_fmap_compose {B C} (f : B → C) (g : C → nat) (l : list B) :
  sum_list_with g (f <$> l) = sum_list_with (λ x, g (f x)) l.
Proof. induction l as [|x l IH]; [done|]. cbn. by rewrite IH. Qed.

Lemma sum_list_with_concat {B} (g : B → nat) (ls : list (list B)) :
  sum_list_with g (concat ls) = sum_list_with (sum_list_with g) ls.
Proof.
  induction ls as [|l ls IH]; [done|].
  cbn [concat]. rewrite sum_list_with_app, IH. done.
Qed.

Lemma length_concat_sum {B} (ls : list (list B)) :
  length (concat ls) = sum_list_with length ls.
Proof.
  induction ls as [|l ls IH]; [done|].
  cbn [concat]. rewrite length_app, IH. done.
Qed.

Lemma Forall2_sum {B C} (h : C → nat) (g : B → nat) (ms : list C) (bs : list B) :
  Forall2 (λ m b, g b = h m) ms bs → sum_list_with g bs = sum_list_with h ms.
Proof. induction 1 as [|m b ms bs Hmb _ IH]; [done|]. cbn. by rewrite Hmb, IH. Qed.

Section sums.
Context {A B : Type} `{EqDecision A}.

Lemma sum_weighted_indicator (ks : list A) (y : A) (w : nat) :
  NoDup ks → y ∈ ks →
  sum_list_with (λ k, if decide (y = k) then w else 0) ks = w.
Proof.
  intros Hnodup Hy.
  rewrite (sum_list_with_ext _ (λ k, w * (if decide (y = k) then 1 else 0)))
    by (intros k _; case_decide; lia).
  transitivity (w * sum_list ((λ k, if decide (y = k) then 1 else 0) <$> ks)).
  - clear. induction ks as [|k ks IH]; [cbn; lia|].
    rewrite fmap_cons. cbn [sum_list_with]. rewrite IH. cbn [id]. lia.
  - rewrite sum_indicator by done. lia.
Qed.

(** Summing group by group over a duplicate-free list of keys that
    covers the list is summing over the list. *)
Lemma sum_by_groups (f : B → A) (g : B → nat) (ks : list A) (l : list B) :
  NoDup ks → (∀ x, x ∈ l → f x ∈ ks) →
  sum_list_with (λ k, sum_list_with g (filter (λ x, f x = k) l)) ks
  = sum_list_with g l.
Proof.
  intros Hnodup. induction l as [|x l IH]; intros Hcover.
  - clear. induction ks as [|k ks IH]; [done|]. cbn in *. done.
  - rewrite (sum_list_with_ext _
      (λ k, (if decide (f x = k) then g x else 0)
            + sum_list_with g (filter (λ x, f x = k) l))).
    2:{ intros k _. rewrite filter_cons. by case_decide. }
    rewrite sum_list_with_add, sum_weighted_indicator, IH; [done| |done|].
    + intros y Hy. apply Hcover. by right.
    + apply Hcover. left.
Qed.

End sums.

Lemma unique_NoDup {A} `{EqDecision A} (l : list A) : NoDup l → Pd.unique l = l.
Proof.
  induction 1 as [|x l Hx _ IH]; [done|].
  cbn [Pd.unique]. rewrite IH. f_equal.
  clear IH. induction l as [|y l IH]; [done|].
  apply not_elem_of_cons in Hx as [Hne Hx].
  rewrite filter_cons, decide_True by done. by rewrite IH.
Qed.

Section pivot_sums.
Context `{Pd.SortValues}.

(** The rows and the counts of the block of one market *)
Lemma pivot_block_sums (df : DataFrame) (market_col : string)
    (sizes : list (value * value * nat)) (market : value)
    (block : list PivotRow) :
  pivot_block
    (Pd.groupby_size ((λ r : row, r !! market_col) <$> rows df))
    ((λ t : value * value * nat, (t.1.1, alias_tenant t.1.2, t.2)) <$> sizes)
    market = Ok block →
  length block =
    1 + length (filter (λ e : value * value * nat, e.1.1 = market) sizes) ∧
  sum_list_with Count_of_coupon_uid block =
    rows_with df market_col market
    + sum_list_with snd (filter (λ e : value * value * nat, e.1.1 = market) sizes).
Proof.
  intros (total & tenants & Htotal & Hperm & _ & ->)%pivot_block_inv.
  apply groupby_size_inv in Htotal. cbn [fst snd] in Htotal.
  rewrite count_column in Htotal. fold (rows_with df market_col market) in Htotal.
  rewrite filter_fmap in Hperm. cbn [fst] in Hperm.
  split.
  - cbn [length]. by rewrite length_fmap, Hperm, length_fmap.
  - cbn [sum_list_with Count_of_coupon_uid]. rewrite Htotal. f_equal.
    rewrite sum_list_with_fmap_compose. cbn [Count_of_coupon_uid].
    rewrite Hperm. by rewrite sum_list_with_fmap_compose.
Qed.

(** X18. The pivot worksheet counts every ledger row that has a market
    once in a market total, and once more in a tenant row when the row
    also has a merchant: the counts of the worksheet add up to the
    number of rows with a market plus the number of rows with a market
    and a merchant.  The worksheet has one row per market and one row
    per pair of a market and a merchant. *)
Theorem pivot_counts_conserved (daily_df : DataFrame) (market_col : string)
    (pivot : list PivotRow) :
  pivot_market_col daily_df = Some market_col →
  generate_pivot_worksheet daily_df = Some pivot →
  sum_list_with Count_of_coupon_uid pivot =
    rows_present daily_df market_col
    + length (Pd.key_pairs daily_df market_col "ShopName") ∧
  length pivot =
    length (Pd.unique (Pd.dropna ((λ r : row, r !! market_col) <$> rows daily_df)))
    + length (Pd.unique (Pd.key_pairs daily_df market_col "ShopName")).
Proof.
  intros Hcol. pose proof (pivot_market_col_in _ _ Hcol) as Hmc.
  unfold generate_pivot_worksheet. rewrite Hcol.
  destruct (Pd.has_column daily_df "ShopName"); [|done]. cbn [negb].
  destruct (Pd.groupby2_size _ _ _) as [sizes|] eqn:Hsizes; [|done].
  cbn [mbind result_bind]. rewrite (getitem_ok _ _ Hmc).
  cbn [mbind result_bind].
  set (s := (λ r : row, r !! market_col) <$> rows daily_df).
  destruct (py_sorted _) as [markets|] eqn:Hsorted; [|done].
  cbn [mbind result_bind].
  destruct (traverse _ markets) as [blocks|] eqn:Hblocks; [|done].
  cbn [mbind result_bind except_none]. intros [= <-].
  apply traverse_Forall2 in Hblocks.
  apply py_sorted_perm in Hsorted.
  assert (Hkeys : (Pd.groupby_size s).*1 ≡ₚ Pd.unique (Pd.dropna s))
    by (rewrite groupby_size_keys; apply merge_sort_Permutation).
  assert (Hmarkets : markets ≡ₚ Pd.unique (Pd.dropna s)).
  { rewrite Hsorted, unique_NoDup; [done|]. rewrite Hkeys. apply NoDup_unique. }
  assert (Hnodup : NoDup markets) by (rewrite Hmarkets; apply NoDup_unique).
  pose proof (groupby2_size_inv _ _ _ _ Hsizes) as (Hsizes_nodup & Hsizes_in & Hcount).
  assert (Hcover : ∀ e : value * value * nat, e ∈ sizes → e.1.1 ∈ markets).
  { intros [[m t] n] He. cbn [fst].
    assert ((m, t) ∈ Pd.key_pairs daily_df market_col "ShopName") as Hk.
    { apply Hsizes_in, list_elem_of_fmap. by exists (m, t, n). }
    apply elem_of_key_pairs in Hk as (r & Hr & Hm & _).
    rewrite Hmarkets. apply elem_of_unique, elem_of_dropna, elem_of_column.
    by exists r. }
  assert (Hlen_sizes : length sizes
            = length (Pd.unique (Pd.key_pairs daily_df market_col "ShopName"))).
  { unfold Pd.groupby2_size in Hsizes. case_match; [|done].
    injection Hsizes as <-.
    by rewrite length_fmap, (Permutation_length (merge_sort_Permutation _ _)). }
  split.
  - rewrite sum_list_with_concat.
    rewrite (Forall2_sum
      (λ m, rows_with daily_df market_col m
            + sum_list_with snd
                (filter (λ e : value * value * nat, e.1.1 = m) sizes))
      (sum_list_with Count_of_coupon_uid) markets blocks).
    2:{ eapply Forall2_impl; [exact Hblocks|].
        intros m b Hb. by apply (pivot_block_sums _ _ _ _ _ Hb). }
    rewrite sum_list_with_add. f_equal.
    + rewrite Hmarkets, <-length_dropna_column. fold s.
      rewrite <-(sum_counts (Pd.unique (Pd.dropna s)) (Pd.dropna s)).
      * rewrite sum_list_with_fmap_compose. apply sum_list_with_ext.
        intros m _. unfold rows_with. by rewrite <-count_column.
      * apply NoDup_unique.
      * intros v Hv. by apply elem_of_unique.
    + rewrite (sum_by_groups (λ e : value * value * nat, e.1.1) snd) by done.
      rewrite <-(sum_table sizes (Pd.key_pairs daily_df market_col "ShopName"))
        by (try done; intros k Hk; by apply Hsizes_in).
      by rewrite sum_list_with_fmap_compose.
  - rewrite length_concat_sum.
    rewrite (Forall2_sum
      (λ m, 1 + length (filter (λ e : value * value * nat, e.1.1 = m) sizes))
      length markets blocks).
    2:{ eapply Forall2_impl; [exact Hblocks|].
        intros m b Hb. by apply (pivot_block_sums _ _ _ _ _ Hb). }
    rewrite sum_list_with_add. f_equal.
    + rewrite <-(Permutation_length Hmarkets).
      clear. induction markets as [|m ms IH]; [done|]. cbn. by rewrite IH.
    + rewrite <-Hlen_sizes.
      rewrite (sum_list_with_ext _
        (λ m, sum_list_with (λ _, 1)
                (filter (λ e : value * value * nat, e.1.1 = m) sizes))).
      2:{ intros m _. generalize (filter (λ e : value * value * nat, e.1.1 = m) sizes).
          intros l. induction l as [|x l IH]; [done|]. cbn. by rewrite IH. }
      rewrite (sum_by_groups (λ e : value * value * nat, e.1.1) (λ _, 1)) by done.
      clear. induction sizes as [|x l IH]; [done|]. cbn. by rewrite IH.
Qed.

End pivot_sums.

Lemma pivot_counts_conserved_witness :
  ∃ pivot,
    pivot_market_col sample_ledger = Some "Market" ∧
    generate_pivot_worksheet sample_ledger = Some pivot ∧
    sum_list_with Count_of_coupon_uid pivot = 3 + 3 ∧
    length pivot = 1 + 2.
Proof.
  assert (Hcol : pivot_market_col sample_ledger = Some "Market") by reflexivity.
  destruct (generate_pivot_worksheet sample_ledger) as [pivot|] eqn:Hpivot.
  - exists pivot. split; [exact Hcol|]. split; [reflexivity|].
    exact (pivot_counts_conserved sample_ledger "Market" pivot Hcol Hpivot).
  - vm_compute in Hpivot. discriminate Hpivot.
Defined.

(** ** When the builders produce their output *)

Lemma used_market_col_in (df : DataFrame) (col : string) :
  used_market_col df = Some col → col ∈ columns df.
Proof.
  unfold used_market_col.
  repeat (case_match; [intros [= <-]; by apply has_column_spec|]). done.
Qed.

Lemma worksheet_market_col_in (df : DataFrame) (col : string) :
  worksheet_market_col df = Some col → col ∈ columns df.
Proof. apply pivot_market_col_in. Qed.

Section produced.
Context `{Pd.SortValues}.

Lemma used_market_none (ttl : string) (df : DataFrame) :
  used_market ttl df (used_market_col df) = None ↔
  Pd.empty df = true ∨ used_market_col df = None.
Proof.
  unfold used_market.
  destruct (used_market_col df) as [col|] eqn:Hcol; [|by split; [right|]].
  destruct (Pd.empty df); [by split; [left|]|].
  rewrite (getitem_ok _ _ (used_market_col_in _ _ Hcol)).
  cbn [mbind result_bind except_none]. split; [done|by intros [|]].
Qed.

(** X19. The Used-Market aggregator gives no result exactly when neither
    frame can be counted: a frame is counted when it is not empty and
    has a Market, NameChinese or MarketCode column, and counting never
    fails. *)
Theorem used_market_no_result (weekly_df daily_df : DataFrame) :
  generate_used_market_table weekly_df daily_df = None ↔
  (Pd.empty weekly_df = true ∨ used_market_col weekly_df = None) ∧
  (Pd.empty daily_df = true ∨ used_market_col daily_df = None).
Proof.
  rewrite <-!(used_market_none "Used Market (Weekly)" weekly_df).
  rewrite <-!(used_market_none "Used Market (All Records)" daily_df).
  unfold generate_used_market_table, nonempty_results. cbn [weekly all].
  destruct (used_market _ weekly_df _), (used_market _ daily_df _);
    split; try done; intros [? ?]; done.
Qed.

(** X20. The pivot worksheet is produced exactly when the ledger has a
    market column and a ShopName column and its market cells are all
    text or all numbers; a market column that mixes text and numbers
    makes the sort of the markets fail, and no worksheet is returned. *)
Theorem pivot_produced_iff (daily_df : DataFrame) :
  is_Some (generate_pivot_worksheet daily_df) ↔
  ∃ market_col,
    pivot_market_col daily_df = Some market_col ∧
    "ShopName" ∈ columns daily_df ∧
    comparable (Pd.unique (Pd.dropna ((λ r : row, r !! market_col)
                                        <$> rows daily_df))) = true.
Proof.
  unfold generate_pivot_worksheet.
  destruct (pivot_market_col daily_df) as [market_col|] eqn:Hcol.
  2:{ split; [by intros [? ?]|by intros (? & ? & _)]. }
  pose proof (pivot_market_col_in _ _ Hcol) as Hmc.
  destruct (Pd.has_column daily_df "ShopName") eqn:Hshop; cbn [negb].
  2:{ split; [by intros [? ?]|]. intros (? & _ & Hs%has_column_spec & _).
      congruence. }
  unfold Pd.groupby2_size. rewrite (proj2 (has_column_spec _ _) Hmc), Hshop.
  cbn [andb mbind result_bind]. rewrite (getitem_ok _ _ Hmc).
  cbn [mbind result_bind].
  set (s := (λ r : row, r !! market_col) <$> rows daily_df).
  assert (Hkeys : Pd.unique (Pd.groupby_size s).*1
                  ≡ₚ Pd.unique (Pd.dropna s)).
  { rewrite unique_NoDup.
    - rewrite groupby_size_keys. apply merge_sort_Permutation.
    - rewrite groupby_size_keys, merge_sort_Permutation. apply NoDup_unique. }
  assert (Hcomparable : comparable (Pd.unique (Pd.groupby_size s).*1)
                        = comparable (Pd.unique (Pd.dropna s))).
  { unfold comparable. f_equal; apply eq_true_iff_eq;
      rewrite !forallb_forall; by setoid_rewrite Hkeys. }
  unfold py_sorted. fold (comparable (Pd.unique (Pd.groupby_size s).*1)).
  rewrite Hcomparable.
  destruct (comparable (Pd.unique (Pd.dropna s))) eqn:Hc.
  - cbn [mbind result_bind].
    destruct (traverse_ok
      (pivot_block (Pd.groupby_size s)
         ((λ t : value * value * nat, (t.1.1, alias_tenant t.1.2, t.2)) <$>
          ((λ k, (k, Pd.count k (Pd.key_pairs daily_df market_col "ShopName")))
             <$> merge_sort Pd.pair_le
                   (Pd.unique (Pd.key_pairs daily_df market_col "ShopName")))))
      (merge_sort Pd.value_le (Pd.unique (Pd.groupby_size s).*1)))
      as [blocks Hblocks].
    { apply Forall_forall. intros m Hm. apply pivot_block_ok.
      rewrite merge_sort_Permutation in Hm. by apply elem_of_unique. }
    rewrite Hblocks. cbn [mbind result_bind except_none].
    split; [|by eauto]. intros _. exists market_col.
    split; [done|]. split; [by apply has_column_spec|done].
  - cbn [mbind result_bind except_none]. split; [by intros [? ?]|].
    intros (mc & [= <-] & _ & Hc'). fold s in Hc'. congruence.
Qed.

End produced.

Example pivot_not_produced :
  generate_pivot_worksheet mixed_markets = None ∧
  is_Some (generate_pivot_worksheet sample_ledger).
Proof. split; [reflexivity|]. by eexists. Qed.

(** ** A worksheet for every market *)

Section every_market.
Context `{Pd.SortValues}.

Lemma market_worksheet_ok (daily_df : DataFrame) (market_col : string)
    (market : value) :
  "ShopName" ∈ columns daily_df →
  (∃ r, r ∈ rows daily_df ∧ r !! market_col = Some market) →
  comparable (Pd.unique (Pd.dropna
    ((λ r : row, r !! "ShopName")
       <$> rows (Pd.where_eq daily_df market_col market)))) = true →
  ∃ sheet, market_worksheet daily_df market_col market
           = Ok (Some (sheet_name market, sheet)).
Proof.
  intros Hshop (r & Hr & Hm) Hcomparable. unfold market_worksheet.
  assert (Hshop' : "ShopName" ∈ columns (Pd.where_eq daily_df market_col market))
    by done.
  rewrite (not_empty _ _ Hshop').
  2:{ intros Hnil.
      assert (r ∈ rows (Pd.where_eq daily_df market_col market)) as Hin
        by (by apply elem_of_where_eq).
      rewrite Hnil in Hin. by apply elem_of_nil in Hin. }
  unfold left_block, right_block. rewrite (getitem_ok _ _ Hshop').
  cbn [mbind result_bind]. unfold py_sorted.
  fold (comparable (Pd.unique (Pd.dropna
    ((λ r : row, r !! "ShopName")
       <$> rows (Pd.where_eq daily_df market_col market))))).
  rewrite Hcomparable. cbn [mbind result_bind]. by eexists.
Qed.

Lemma market_worksheets_loop_keeps (daily_df : DataFrame) (market_col : string)
    (markets : list value) (sheets : list (string * list SheetRow))
    (name : string) :
  name ∈ sheets.*1 →
  name ∈ (market_worksheets_loop daily_df market_col markets sheets).*1.
Proof.
  revert sheets. induction markets as [|market rest IH]; intros sheets Hin; [done|].
  cbn [market_worksheets_loop].
  destruct (market_worksheet _ _ _) as [[[name' sheet]|]|]; [|by apply IH|done].
  apply IH. destruct (dict_set_keys_app sheets name' sheet) as [tail ->].
  apply elem_of_app. by left.
Qed.

Lemma market_worksheets_loop_all (daily_df : DataFrame) (market_col : string)
    (markets : list value) (sheets : list (string * list SheetRow))
    (market : value) :
  (∀ m, m ∈ markets →
     ∃ sheet, market_worksheet daily_df market_col m
              = Ok (Some (sheet_name m, sheet))) →
  market ∈ markets →
  sheet_name market
    ∈ (market_worksheets_loop daily_df market_col markets sheets).*1.
Proof.
  revert sheets. induction markets as [|m rest IH]; intros sheets Hok Hin.
  - by apply elem_of_nil in Hin.
  - cbn [market_worksheets_loop].
    destruct (Hok m) as [sheet ->]; [left|].
    apply elem_of_cons in Hin as [->|Hin].
    + apply market_worksheets_loop_keeps, list_elem_of_fmap.
      exists (sheet_name m, sheet). split; [done|]. apply elem_of_dict_set_new.
    + apply IH; [|done]. intros m' Hm'. apply Hok. by right.
Qed.

(** X21. When, market by market, the merchant cells are all text or all
    numbers, the loop over the markets never stops early: for every
    market named by a text that occurs in the ledger, the result has a
    worksheet under the sheet name derived from that text, its first 31
    characters with the characters a workbook refuses replaced. *)
Theorem every_market_has_worksheet (daily_df : DataFrame)
    (mapping : gmap string string) (market_col : string) :
  worksheet_market_col daily_df = Some market_col →
  "ShopName" ∈ columns daily_df →
  (∀ market, (∃ r, r ∈ rows daily_df ∧ r !! market_col = Some market) →
     comparable (Pd.unique (Pd.dropna
       ((λ r : row, r !! "ShopName")
          <$> rows (Pd.where_eq daily_df market_col market)))) = true) →
  ∀ name, (∃ r, r ∈ rows daily_df ∧ r !! market_col = Some (Str name)) →
    ∃ sheet, (Py.map_chars sheet_name_char (Py.take 31 name), sheet)
             ∈ generate_market_worksheets daily_df mapping.
Proof.
  intros Hcol Hshop Hcomparable name Hmarket.
  change (Py.map_chars sheet_name_char (Py.take 31 name))
    with (sheet_name (Str name)).
  unfold generate_market_worksheets. rewrite Hcol.
  rewrite (proj2 (has_column_spec _ _) Hshop). cbn [negb].
  rewrite (getitem_ok _ _ (worksheet_market_col_in _ _ Hcol)).
  set (markets := Pd.unique (Pd.dropna ((λ r : row, r !! market_col)
                                          <$> rows daily_df))).
  assert (Hin : ∀ m, m ∈ markets ↔
            ∃ r, r ∈ rows daily_df ∧ r !! market_col = Some m).
  { intros m. unfold markets.
    rewrite elem_of_unique, elem_of_dropna. apply elem_of_column. }
  assert (sheet_name (Str name)
            ∈ (market_worksheets_loop daily_df market_col markets []).*1) as Hkey.
  { apply market_worksheets_loop_all; [|by apply Hin].
    intros m Hm%Hin. apply market_worksheet_ok; [done..|]. by apply Hcomparable. }
  apply list_elem_of_fmap in Hkey as ([key sheet] & Hname & Hsheet).
  cbn [fst] in Hname. subst key. by exists sheet.
Qed.

End every_market.

Lemma every_market_has_worksheet_witness :
  worksheet_market_col two_markets = Some "Market" ∧
  "ShopName" ∈ columns two_markets ∧
  ∃ sheet, ("South", sheet) ∈ generate_market_worksheets two_markets ∅.
Proof.
  assert (Hcol : worksheet_market_col two_markets = Some "Market") by reflexivity.
  assert (Hshop : "ShopName" ∈ columns two_markets)
    by (apply has_column_spec; reflexivity).
  split; [exact Hcol|]. split; [exact Hshop|].
  refine (every_market_has_worksheet two_markets ∅ "Market" Hcol Hshop _
            "South" _).
  - intros market (r & Hr & Hm).
    apply list_elem_of_In in Hr. cbn in Hr.
    destruct Hr as [<-|[<-|[]]]; vm_compute in Hm; injection Hm as <-;
      reflexivity.
  - exists {[ "Market" := Str "South"; "ShopName" := Str "merchantB" ]}.
    split; [right; left|reflexivity].
Defined.

(** ** Every row of the batch counted once in the Coupon-Purchased table *)

Lemma sum_list_with_zero {B} (l : list B) : sum_list_with (λ _, 0) l = 0.
Proof. induction l as [|x l IH]; [done|]. cbn. by rewrite IH. Qed.

Section pairs.
Context {A B C : Type} `{EqDecision A, EqDecision B}.

Lemma sum_pair_indicator (ks : list A) (vs : list B) (oa : option A)
    (ob : option B) :
  NoDup ks → NoDup vs →
  (∀ a b, oa = Some a → ob = Some b → a ∈ ks ∧ b ∈ vs) →
  sum_list_with (λ k, sum_list_with
      (λ v, if decide (oa = Some k ∧ ob = Some v) then 1 else 0) vs) ks
  = if decide (is_Some oa ∧ is_Some ob) then 1 else 0.
Proof.
  intros Hks Hvs Hcover. destruct oa as [a|], ob as [b|].
  - destruct (Hcover a b eq_refl eq_refl) as [Ha Hb].
    rewrite decide_True by (split; by eexists).
    rewrite (sum_list_with_ext _ (λ k, if decide (a = k) then 1 else 0)).
    { by apply sum_weighted_indicator. }
    intros k _. destruct (decide (a = k)) as [->|Hne].
    + rewrite (sum_list_with_ext _ (λ v, if decide (b = v) then 1 else 0)).
      { by apply sum_weighted_indicator. }
      intros v _. repeat case_decide; naive_solver.
    + rewrite (sum_list_with_ext _ (λ _, 0)); [apply sum_list_with_zero|].
      intros v _. case_decide; naive_solver.
  - rewrite decide_False by (intros [_ [? [=]]]).
    rewrite (sum_list_with_ext _ (λ _, 0)); [apply sum_list_with_zero|].
    intros k _. rewrite (sum_list_with_ext _ (λ _, 0)); [apply sum_list_with_zero|].
    intros v _. case_decide; naive_solver.
  - rewrite decide_False by (intros [[? [=]] _]).
    rewrite (sum_list_with_ext _ (λ _, 0)); [apply sum_list_with_zero|].
    intros k _. rewrite (sum_list_with_ext _ (λ _, 0)); [apply sum_list_with_zero|].
    intros v _. case_decide; naive_solver.
  - rewrite decide_False by (intros [[? [=]] _]).
    rewrite (sum_list_with_ext _ (λ _, 0)); [apply sum_list_with_zero|].
    intros k _. rewrite (sum_list_with_ext _ (λ _, 0)); [apply sum_list_with_zero|].
    intros v _. case_decide; naive_solver.
Qed.

Lemma sum_by_pairs (f : C → option A) (g : C → option B) (ks : list A)
    (vs : list B) (l : list C) :
  NoDup ks → NoDup vs →
  (∀ x a b, x ∈ l → f x = Some a → g x = Some b → a ∈ ks ∧ b ∈ vs) →
  sum_list_with (λ k, sum_list_with
      (λ v, length (filter (λ x, f x = Some k ∧ g x = Some v) l)) vs) ks
  = length (filter (λ x, is_Some (f x) ∧ is_Some (g x)) l).
Proof.
  intros Hks Hvs. induction l as [|x l IH]; intros Hcover.
  - cbn. rewrite (sum_list_with_ext _ (λ _, 0)); [apply sum_list_with_zero|].
    intros k _. apply sum_list_with_zero.
  - rewrite (sum_list_with_ext _
      (λ k, sum_list_with
              (λ v, if decide (f x = Some k ∧ g x = Some v) then 1 else 0) vs
            + sum_list_with
                (λ v, length (filter (λ x, f x = Some k ∧ g x = Some v) l)) vs)).
    2:{ intros k _. rewrite <-sum_list_with_add. apply sum_list_with_ext.
        intros v _. rewrite filter_cons. by case_decide. }
    rewrite sum_list_with_add, IH, sum_pair_indicator; [|done|done|..].
    + rewrite filter_cons. by case_decide.
    + intros a b. apply Hcover. left.
    + intros y a b Hy. apply Hcover. by right.
Qed.

End pairs.

(** X22. The cells of a Coupon-Purchased table add up to the number of
    rows of the batch that have both a client name and a coupon value:
    each such row is counted in exactly one cell, and the rows that miss
    one of the two are counted nowhere. *)
Theorem coupon_purchased_counts_conserved (weekly_df : DataFrame)
    (t : Table (list (string * list (value * nat)))) :
  generate_coupon_purchased_table weekly_df = Some t →
  let value_col :=
    if Pd.has_column weekly_df "CouponValue" then "CouponValue"
    else "coupon_amount" in
  sum_list_with (λ entry : string * list (value * nat),
                   sum_list_with snd entry.2) (data t)
  = length (filter (λ r : row, is_Some (r !! "client_name") ∧
                               is_Some (r !! value_col)) (rows weekly_df)).
Proof.
  intros Ht value_col.
  destruct (coupon_purchased_cells weekly_df t Ht)
    as (clients & values & Hclients & Hvalues & Hcover & _ & Hcells).
  fold value_col in Hcover, Hcells.
  rewrite <-(sum_by_pairs (λ r : row, r !! "client_name")
               (λ r : row, r !! value_col) clients values); [|done|done|].
  - apply Forall2_sum. eapply Forall2_impl; [exact Hcells|].
    intros c entry [_ ->]. cbn beta.
    by rewrite sum_list_with_fmap_compose.
  - intros r c v Hr Hc Hv. apply Hcover. by exists r.
Qed.

Lemma coupon_purchased_counts_conserved_witness :
  ∃ t, generate_coupon_purchased_table shop_a_batch = Some t ∧
       sum_list_with (λ entry : string * list (value * nat),
                        sum_list_with snd entry.2) (data t)
       = length (filter (λ r : row, is_Some (r !! "client_name") ∧
                                    is_Some (r !! "CouponValue"))
                        (rows shop_a_batch)).
Proof.
  destruct (generate_coupon_purchased_table shop_a_batch) as [t|] eqn:Ht.
  - exists t. split; [reflexivity|].
    exact (coupon_purchased_counts_conserved shop_a_batch t Ht).
  - vm_compute in Ht. discriminate Ht.
Defined.

(** ** When the short-name derivation raises *)

Lemma pretty_N_char_digit (n : N) :
  pretty_N_char n ∉ mjoin (Py.bytes <$> Py.whitespace).
Proof.
  assert (Forall (λ c, c ∉ mjoin (Py.bytes <$> Py.whitespace))
                 ["0"; "1"; "2"; "3"; "4"; "5"; "6"; "7"; "8"; "9"; "-"]%char)
    as Hall.
  { apply (bool_decide_unpack _). vm_compute. exact I. }
  rewrite Forall_forall in Hall. apply Hall.
  destruct n as [|p]; [set_solver|].
  destruct p as [p|p|]; [| |set_solver];
    (destruct p as [p|p|]; [| |set_solver]);
    (destruct p as [p|p|]; [| |set_solver]);
    (destruct p as [p|p|]; set_solver).
Qed.

Lemma pretty_N_go_bytes (x : N) (s : string) :
  s ≠ "" →
  Forall (λ c, c ∉ mjoin (Py.bytes <$> Py.whitespace)) (Py.bytes s) →
  pretty_N_go x s ≠ "" ∧
  Forall (λ c, c ∉ mjoin (Py.bytes <$> Py.whitespace))
         (Py.bytes (pretty_N_go x s)).
Proof.
  revert s. induction (N.lt_wf_0 x) as [x _ IH]; intros s Hs Hbytes.
  assert (x = 0 ∨ 0 < x)%N as [->|Hpos] by lia.
  - by rewrite pretty_N_go_0.
  - rewrite pretty_N_go_step by done. apply IH.
    + apply N.div_lt; lia.
    + done.
    + constructor; [apply pretty_N_char_digit|done].
Qed.

Lemma str_number_bytes (z : Z) :
  Py.str (Num z) ≠ "" ∧
  Forall (λ c, c ∉ mjoin (Py.bytes <$> Py.whitespace))
         (Py.bytes (Py.str (Num z))).
Proof.
  cbn [Py.str]. unfold pretty, pretty_Z.
  assert (∀ p, pretty (N.pos p) ≠ "" ∧
               Forall (λ c, c ∉ mjoin (Py.bytes <$> Py.whitespace))
                      (Py.bytes (pretty (N.pos p)))) as Hpos.
  { intros p. unfold pretty, pretty_N. rewrite decide_False by done.
    rewrite pretty_N_go_step by lia. apply pretty_N_go_bytes; [done|].
    constructor; [apply pretty_N_char_digit|constructor]. }
  destruct z as [|p|p]; [|apply Hpos|].
  - split; [done|]. constructor; [apply (pretty_N_char_digit 0)|constructor].
  - split; [done|]. destruct (Hpos p) as [_ Hp].
    constructor; [|exact Hp].
    apply (bool_decide_unpack _). vm_compute. exact I.
Qed.

Lemma str_number_not_whitespace (z : Z) : ¬ whitespace_only (Py.str (Num z)).
Proof.
  intros Hws. destruct (str_number_bytes z) as [Hne Hbytes].
  destruct (Py.str (Num z)) as [|c s]; [done|].
  apply Forall_cons in Hbytes as [Hc _]. apply Hc.
  apply (whitespace_only_elem _ _ Hws). left.
Qed.

(** X4. The short-name derivation raises on exactly one kind of cell:
    text that is not empty and consists of whitespace characters only.
    On a missing cell, on a number and on every other text it returns a
    name. *)
Theorem short_name_raises_only_on_blank_text (client_name : cell) :
  (∃ e, get_client_short_name client_name = Raise e) ↔
  ∃ s, client_name = Some (Str s) ∧ s ≠ "" ∧ whitespace_only s.
Proof.
  destruct client_name as [[s|z]|].
  - rewrite short_name_raises_iff. split.
    + intros Hs. by exists s.
    + by intros (s' & [= <-] & Hs).
  - split; [|by intros (s & [=] & _)].
    intros [e He]. exfalso. revert He. unfold get_client_short_name.
    destruct (list_find _ short_name_map) as [[i [k short]]|]; [done|].
    destruct (Py.truthy (Num z)); [|done].
    destruct (Py.split (Py.str (Num z))) eqn:Hsplit; [|done].
    apply split_nil in Hsplit. by apply str_number_not_whitespace in Hsplit.
  - split; [by intros [e [=]]|by intros (s & [=] & _)].
Qed.

(** Text made of a no-break space and an ideographic space has no first
    token. *)
Example short_name_of_wide_blank_raises :
  get_client_short_name (Some (Str (Py.chr 160 +:+ Py.chr 12288)))
  = Raise IndexError.
Proof. vm_compute. reflexivity. Qed.
